(** * f_acm: the USB CDC ACM function driver, control plane

    A shallow embedding of drivers/usb/gadget/function/f_acm.c: the
    notification channel (acm_cdc_notify, acm_notify_serial_state,
    acm_cdc_notify_complete), the class request handler (acm_setup,
    acm_complete_set_line_coding), interface activation (acm_set_alt,
    acm_disable, acm_port_connect, acm_port_disconnect) and the callbacks the
    serial transport invokes (acm_connect, acm_disconnect, acm_send_break,
    ...).

    C integers are [Z] with the truncation of each assignment written out.
    Structs are records.  The driver runs against a [world]: the one
    [f_acm] instance, the control request of the composite device, the
    requests queued on the notification endpoint, and the log of the calls
    made into the UDC and the serial transports.  What those calls return is
    scripted in the world, so every definition is a function that computes.

    The spinlock of [f_acm] is not modelled: entry points run one after the
    other, and a completion that the UDC delivers from inside usb_ep_queue()
    is the completion event directly after the call (the driver holds no
    lock and tests only [status < 0] on that path). *)

From Stdlib Require Import ZArith List Bool Lia.
Import ListNotations.
Local Open Scope Z_scope.

(** ** Integer types and memory images *)

Definition u8 (x : Z) : Z := x mod 256.
Definition u16 (x : Z) : Z := x mod 65536.
Definition u32 (x : Z) : Z := x mod 4294967296.

Definition is_u8 (x : Z) : Prop := 0 <= x < 256.
Definition is_u16 (x : Z) : Prop := 0 <= x < 65536.
Definition is_u32 (x : Z) : Prop := 0 <= x < 4294967296.

(** The bytes of a 16-bit and of a 32-bit object in memory.  The MSM targets
    of this tree are little-endian, so this is also the layout of the
    [__le16] and [__le32] wire fields. *)
Definition le16_bytes (v : Z) : list Z := [v mod 256; (v / 256) mod 256].
Definition le32_bytes (v : Z) : list Z :=
  [v mod 256; (v / 256) mod 256; (v / 65536) mod 256; (v / 16777216) mod 256].

Definition le16_of_bytes (l : list Z) : Z :=
  nth 0 l 0 + 256 * nth 1 l 0.
Definition le32_of_bytes (l : list Z) : Z :=
  nth 0 l 0 + 256 * nth 1 l 0 + 65536 * nth 2 l 0 + 16777216 * nth 3 l 0.

(** [cpu_to_le16] on a little-endian CPU keeps the value. *)
Definition cpu_to_le16 (v : Z) : Z := u16 v.

(** [memcpy(dst + off, src, n)] on byte lists. *)
Definition memcpy (dst : list Z) (off : nat) (src : list Z) (n : nat) : list Z :=
  firstn off dst ++ firstn n src ++ skipn (off + n) dst.

(** [memset(noti_buf, 0, n)] of a local array. *)
Definition zeroed (n : nat) : list Z := repeat 0 n.

(** ** Constants of headers that are not part of this file *)

(** Modelled from the spec: errno values of include/uapi/asm-generic/errno*.h;
    the driver only negates and compares them. *)
Definition ENODEV : Z := 19.
Definition EINVAL : Z := 22.
Definition EOPNOTSUPP : Z := 95.
Definition ESHUTDOWN : Z := 108.

(** Modelled from the spec: bmRequestType fields of
    include/uapi/linux/usb/ch9.h (direction bit 7, type bits 6..5, recipient
    bits 4..0). *)
Definition USB_DIR_OUT : Z := 0.
Definition USB_DIR_IN : Z := 0x80.
Definition USB_TYPE_CLASS : Z := Z.shiftl 0x01 5.
Definition USB_RECIP_INTERFACE : Z := 0x01.

(** Modelled from the spec: CDC request and notification codes of
    include/uapi/linux/usb/cdc.h (SerialState is 0x20). *)
Definition USB_CDC_REQ_SET_LINE_CODING : Z := 0x20.
Definition USB_CDC_REQ_GET_LINE_CODING : Z := 0x21.
Definition USB_CDC_REQ_SET_CONTROL_LINE_STATE : Z := 0x22.
Definition USB_CDC_NOTIFY_SERIAL_STATE : Z := 0x20.

(** Bits of [port_handshake_bits] and of [serial_state]. *)
Definition ACM_CTRL_RTS : Z := Z.shiftl 1 1.
Definition ACM_CTRL_DTR : Z := Z.shiftl 1 0.

Definition ACM_CTRL_OVERRUN : Z := Z.shiftl 1 6.
Definition ACM_CTRL_PARITY : Z := Z.shiftl 1 5.
Definition ACM_CTRL_FRAMING : Z := Z.shiftl 1 4.
Definition ACM_CTRL_RI : Z := Z.shiftl 1 3.
Definition ACM_CTRL_BRK : Z := Z.shiftl 1 2.
Definition ACM_CTRL_DSR : Z := Z.shiftl 1 1.
Definition ACM_CTRL_DCD : Z := Z.shiftl 1 0.

Definition GSERIAL_NO_PORTS : Z := 4.

(** [GS_NOTIFY_MAXPACKET] depends on the build option
    CONFIG_LGE_USB_G_ANDROID, which every definition below that needs it
    takes as the boolean [lge]. *)
Definition GS_NOTIFY_MAXPACKET (lge : bool) : Z := if lge then 16 else 10.

(** ** Structures *)

(** Modelled from the spec: [enum transport_type] is declared in
    usb_gadget_xport.h; the driver dispatches on the TTY and SMD kinds and
    treats every other enumerator alike. *)
Inductive transport_type : Type :=
| USB_GADGET_XPORT_TTY
| USB_GADGET_XPORT_SMD
| USB_GADGET_XPORT_OTHER (n : Z).

(** Modelled from the spec: [struct usb_cdc_line_coding] of cdc.h, packed,
    7 bytes: little-endian 32-bit rate, then three bytes. *)
Record usb_cdc_line_coding : Type := mk_line_coding {
  dwDTERate : Z;
  bCharFormat : Z;
  bParityType : Z;
  bDataBits : Z
}.

Definition sizeof_usb_cdc_line_coding : Z := 7.

Definition line_coding_bytes (c : usb_cdc_line_coding) : list Z :=
  le32_bytes (dwDTERate c) ++ [bCharFormat c; bParityType c; bDataBits c].

(** The struct read through a [struct usb_cdc_line_coding] pointer into a
    byte buffer. *)
Definition line_coding_of_bytes (l : list Z) : usb_cdc_line_coding :=
  mk_line_coding (le32_of_bytes l) (nth 4 l 0) (nth 5 l 0) (nth 6 l 0).

(** Modelled from the spec: [struct usb_cdc_notification] of cdc.h, packed,
    8 bytes. *)
Record usb_cdc_notification : Type := mk_notification {
  bmRequestType : Z;
  bNotificationType : Z;
  wValue : Z;
  wIndex : Z;
  wLength : Z
}.

Definition sizeof_usb_cdc_notification : Z := 8.

Definition notification_bytes (n : usb_cdc_notification) : list Z :=
  [bmRequestType n; bNotificationType n]
    ++ le16_bytes (wValue n) ++ le16_bytes (wIndex n) ++ le16_bytes (wLength n).

(** [struct usb_ctrlrequest], the 16-bit fields already through
    [le16_to_cpu]. *)
Record usb_ctrlrequest : Type := mk_ctrlrequest {
  ctrl_bRequestType : Z;
  ctrl_bRequest : Z;
  ctrl_wValue : Z;
  ctrl_wIndex : Z;
  ctrl_wLength : Z
}.

(** The completion callbacks a request of this driver can carry. *)
Inductive completion : Type :=
| composite_setup_complete
| acm_complete_set_line_coding_cb
| acm_cdc_notify_complete_cb.

(** The fields of [struct usb_request] the driver reads or writes. *)
Record usb_request : Type := mk_request {
  req_buf : list Z;
  req_length : Z;
  req_zero : bool;
  req_complete : completion;
  req_status : Z;
  req_actual : Z
}.

(** What goes over the wire for a queued IN request: the first
    [req_length] bytes of its buffer. *)
Definition transfer_bytes (r : usb_request) : list Z :=
  firstn (Z.to_nat (req_length r)) (req_buf r).

Inductive usb_device_speed : Type :=
| USB_SPEED_FULL
| USB_SPEED_HIGH
| USB_SPEED_SUPER.

(** [struct usb_ep]: whether [driver_data] is set, and the descriptor bound
    by config_ep_by_speed() ([None] is a NULL [desc]). *)
Record usb_ep : Type := mk_ep {
  driver_data : bool;
  desc : option usb_device_speed
}.

(** The members of [struct gserial] used here. *)
Record gserial : Type := mk_gserial {
  port_in : usb_ep;
  port_out : usb_ep;
  notify_modem : bool
}.

Record f_acm : Type := mk_acm {
  port : gserial;
  ctrl_id : Z;
  data_id : Z;
  port_num : Z;
  transport : transport_type;
  pending : bool;
  notify : usb_ep;
  notify_req : option usb_request;
  port_line_coding : usb_cdc_line_coding;
  port_handshake_bits : Z;
  serial_state : Z
}.

Record acm_port_info : Type := mk_port_info {
  info_transport : transport_type;
  info_port_num : Z;
  client_port_num : Z
}.

(** The endpoints the driver talks to. *)
Inductive ep_id : Type := EP0 | EP_NOTIFY | EP_IN | EP_OUT.

(** Calls that leave this file, with their arguments and, where the driver
    looks at it, their result. *)
Inductive call : Type :=
| Call_usb_ep_queue (ep : ep_id) (req : usb_request) (ret : Z)
| Call_usb_ep_set_halt (ep : ep_id)
| Call_usb_ep_enable (ep : ep_id)
| Call_usb_ep_disable (ep : ep_id)
| Call_config_ep_by_speed (ep : ep_id) (ret : Z)
| Call_gserial_connect (port_no : Z)
| Call_gsmd_connect (port_no : Z)
| Call_gserial_disconnect
| Call_gsmd_disconnect (port_no : Z)
| Call_notify_modem (port_no : Z) (bits : Z).

Record world : Type := mk_world {
  acm : f_acm;
  gacm_ports : list acm_port_info;
  cdev_req : usb_request;             (* cdev->req, the ep0 request *)
  ep0_driver_data : bool;             (* cdev->gadget->ep0->driver_data *)
  gadget_speed : usb_device_speed;
  notify_fifo : list usb_request;     (* queued on the notify endpoint *)
  trace : list call;
  usb_ep_queue_ret : list Z;          (* results of the coming usb_ep_queue() *)
  config_ep_by_speed_ret : list Z;    (* ... and config_ep_by_speed() calls *)
  oops : bool                         (* a NULL pointer was dereferenced *)
}.

(** ** Field updates *)

Definition set_req_buf (v : list Z) (r : usb_request) : usb_request :=
  mk_request v (req_length r) (req_zero r) (req_complete r) (req_status r)
    (req_actual r).
Definition set_req_length (v : Z) (r : usb_request) : usb_request :=
  mk_request (req_buf r) v (req_zero r) (req_complete r) (req_status r)
    (req_actual r).
Definition set_req_zero (v : bool) (r : usb_request) : usb_request :=
  mk_request (req_buf r) (req_length r) v (req_complete r) (req_status r)
    (req_actual r).
Definition set_req_complete (v : completion) (r : usb_request) : usb_request :=
  mk_request (req_buf r) (req_length r) (req_zero r) v (req_status r)
    (req_actual r).
Definition set_req_status (v : Z) (r : usb_request) : usb_request :=
  mk_request (req_buf r) (req_length r) (req_zero r) (req_complete r) v
    (req_actual r).

Definition set_req_actual (v : Z) (r : usb_request) : usb_request :=
  mk_request (req_buf r) (req_length r) (req_zero r) (req_complete r)
    (req_status r) v.

Definition set_driver_data (v : bool) (e : usb_ep) : usb_ep := mk_ep v (desc e).
Definition set_desc (v : option usb_device_speed) (e : usb_ep) : usb_ep :=
  mk_ep (driver_data e) v.

Definition set_port_in (v : usb_ep) (g : gserial) : gserial :=
  mk_gserial v (port_out g) (notify_modem g).
Definition set_port_out (v : usb_ep) (g : gserial) : gserial :=
  mk_gserial (port_in g) v (notify_modem g).

Definition set_port (v : gserial) (a : f_acm) : f_acm :=
  mk_acm v (ctrl_id a) (data_id a) (port_num a) (transport a) (pending a)
    (notify a) (notify_req a) (port_line_coding a) (port_handshake_bits a)
    (serial_state a).
Definition set_pending (v : bool) (a : f_acm) : f_acm :=
  mk_acm (port a) (ctrl_id a) (data_id a) (port_num a) (transport a) v
    (notify a) (notify_req a) (port_line_coding a) (port_handshake_bits a)
    (serial_state a).
Definition set_notify (v : usb_ep) (a : f_acm) : f_acm :=
  mk_acm (port a) (ctrl_id a) (data_id a) (port_num a) (transport a) (pending a)
    v (notify_req a) (port_line_coding a) (port_handshake_bits a)
    (serial_state a).
Definition set_notify_req (v : option usb_request) (a : f_acm) : f_acm :=
  mk_acm (port a) (ctrl_id a) (data_id a) (port_num a) (transport a) (pending a)
    (notify a) v (port_line_coding a) (port_handshake_bits a) (serial_state a).
Definition set_port_line_coding (v : usb_cdc_line_coding) (a : f_acm) : f_acm :=
  mk_acm (port a) (ctrl_id a) (data_id a) (port_num a) (transport a) (pending a)
    (notify a) (notify_req a) v (port_handshake_bits a) (serial_state a).
Definition set_port_handshake_bits (v : Z) (a : f_acm) : f_acm :=
  mk_acm (port a) (ctrl_id a) (data_id a) (port_num a) (transport a) (pending a)
    (notify a) (notify_req a) (port_line_coding a) v (serial_state a).
Definition set_serial_state (v : Z) (a : f_acm) : f_acm :=
  mk_acm (port a) (ctrl_id a) (data_id a) (port_num a) (transport a) (pending a)
    (notify a) (notify_req a) (port_line_coding a) (port_handshake_bits a) v.

Definition set_acm (v : f_acm) (w : world) : world :=
  mk_world v (gacm_ports w) (cdev_req w) (ep0_driver_data w) (gadget_speed w)
    (notify_fifo w) (trace w) (usb_ep_queue_ret w) (config_ep_by_speed_ret w)
    (oops w).
Definition set_cdev_req (v : usb_request) (w : world) : world :=
  mk_world (acm w) (gacm_ports w) v (ep0_driver_data w) (gadget_speed w)
    (notify_fifo w) (trace w) (usb_ep_queue_ret w) (config_ep_by_speed_ret w)
    (oops w).
Definition set_ep0_driver_data (v : bool) (w : world) : world :=
  mk_world (acm w) (gacm_ports w) (cdev_req w) v (gadget_speed w)
    (notify_fifo w) (trace w) (usb_ep_queue_ret w) (config_ep_by_speed_ret w)
    (oops w).
Definition set_notify_fifo (v : list usb_request) (w : world) : world :=
  mk_world (acm w) (gacm_ports w) (cdev_req w) (ep0_driver_data w)
    (gadget_speed w) v (trace w) (usb_ep_queue_ret w)
    (config_ep_by_speed_ret w) (oops w).
Definition set_trace (v : list call) (w : world) : world :=
  mk_world (acm w) (gacm_ports w) (cdev_req w) (ep0_driver_data w)
    (gadget_speed w) (notify_fifo w) v (usb_ep_queue_ret w)
    (config_ep_by_speed_ret w) (oops w).
Definition set_usb_ep_queue_ret (v : list Z) (w : world) : world :=
  mk_world (acm w) (gacm_ports w) (cdev_req w) (ep0_driver_data w)
    (gadget_speed w) (notify_fifo w) (trace w) v (config_ep_by_speed_ret w)
    (oops w).
Definition set_config_ep_by_speed_ret (v : list Z) (w : world) : world :=
  mk_world (acm w) (gacm_ports w) (cdev_req w) (ep0_driver_data w)
    (gadget_speed w) (notify_fifo w) (trace w) (usb_ep_queue_ret w) v (oops w).
Definition set_oops (v : bool) (w : world) : world :=
  mk_world (acm w) (gacm_ports w) (cdev_req w) (ep0_driver_data w)
    (gadget_speed w) (notify_fifo w) (trace w) (usb_ep_queue_ret w)
    (config_ep_by_speed_ret w) v.

(** ** The state monad of the driver *)

Definition M (A : Type) : Type := world -> A * world.

Definition ret {A : Type} (a : A) : M A := fun w => (a, w).
Definition bind {A B : Type} (m : M A) (k : A -> M B) : M B :=
  fun w => let (a, w') := m w in k a w'.

Declare Scope acm_scope.
Delimit Scope acm_scope with acm.
Notation "x <- m ;; k" := (bind m (fun x => k))
  (at level 61, m at next level, right associativity) : acm_scope.
Notation "m ;; k" := (bind m (fun _ => k))
  (at level 61, right associativity) : acm_scope.
Local Open Scope acm_scope.

Definition get_acm : M f_acm := fun w => (acm w, w).
Definition modify_acm (f : f_acm -> f_acm) : M unit :=
  fun w => (tt, set_acm (f (acm w)) w).
Definition get_cdev_req : M usb_request := fun w => (cdev_req w, w).
Definition modify_cdev_req (f : usb_request -> usb_request) : M unit :=
  fun w => (tt, set_cdev_req (f (cdev_req w)) w).
Definition log (c : call) : M unit :=
  fun w => (tt, set_trace (trace w ++ [c]) w).
Definition when (b : bool) (m : M unit) : M unit := if b then m else ret tt.

(** A NULL pointer dereference: the kernel oopses. *)
Definition null_deref {A : Type} (a : A) : M A := fun w => (a, set_oops true w).

(** ** The calls into the UDC and the transports *)

(** The next scripted result; an exhausted script answers 0, success. *)
Definition next_ret (l : list Z) : Z * list Z :=
  match l with
  | [] => (0, [])
  | r :: l' => (r, l')
  end.

(** usb_ep_queue(): a negative result refuses the request; otherwise it is
    queued on the endpoint until the UDC completes it. *)
Definition usb_ep_queue (ep : ep_id) (req : usb_request) : M Z := fun w =>
  let (r, rest) := next_ret (usb_ep_queue_ret w) in
  let w1 := set_usb_ep_queue_ret rest w in
  let w2 := set_trace (trace w1 ++ [Call_usb_ep_queue ep req r]) w1 in
  match ep with
  | EP_NOTIFY =>
      if r <? 0 then (r, w2)
      else (r, set_notify_fifo (notify_fifo w2 ++ [req]) w2)
  | _ => (r, w2)
  end.

Definition get_ep (ep : ep_id) (a : f_acm) : usb_ep :=
  match ep with
  | EP_IN => port_in (port a)
  | EP_OUT => port_out (port a)
  | _ => notify a
  end.

Definition set_ep (ep : ep_id) (v : usb_ep) (a : f_acm) : f_acm :=
  match ep with
  | EP_IN => set_port (set_port_in v (port a)) a
  | EP_OUT => set_port (set_port_out v (port a)) a
  | _ => set_notify v a
  end.

(** config_ep_by_speed(): 0 binds the descriptor that matches the speed of
    the gadget, anything else leaves the endpoint as it was. *)
Definition config_ep_by_speed (ep : ep_id) : M Z := fun w =>
  let (r, rest) := next_ret (config_ep_by_speed_ret w) in
  let w1 := set_config_ep_by_speed_ret rest w in
  let w2 := set_trace (trace w1 ++ [Call_config_ep_by_speed ep r]) w1 in
  if r =? 0
  then (r, set_acm (set_ep ep (set_desc (Some (gadget_speed w2))
                                 (get_ep ep (acm w2))) (acm w2)) w2)
  else (r, w2).

Definition default_port_info : acm_port_info :=
  mk_port_info (USB_GADGET_XPORT_OTHER 0) 0 0.

(** [gacm_ports[n].client_port_num] *)
Definition gacm_client_port_num (n : Z) : M Z := fun w =>
  (client_port_num (nth (Z.to_nat n) (gacm_ports w) default_port_info), w).

(** ** Transport dispatch *)

(** gserial_connect(), gsmd_connect() and their disconnect counterparts live
    in the transports; here they are logged calls, and what they do to the
    endpoints is not part of this file. *)
Definition acm_port_connect : M Z :=
  a <- get_acm;;
  port_no <- gacm_client_port_num (port_num a);;
  match transport a with
  | USB_GADGET_XPORT_TTY => log (Call_gserial_connect port_no);; ret 0
  | USB_GADGET_XPORT_SMD => log (Call_gsmd_connect port_no);; ret 0
  | USB_GADGET_XPORT_OTHER _ => ret (- ENODEV)
  end.

Definition acm_port_disconnect : M Z :=
  a <- get_acm;;
  port_no <- gacm_client_port_num (port_num a);;
  match transport a with
  | USB_GADGET_XPORT_TTY => log Call_gserial_disconnect;; ret 0
  | USB_GADGET_XPORT_SMD => log (Call_gsmd_disconnect port_no);; ret 0
  | USB_GADGET_XPORT_OTHER _ => ret (- ENODEV)
  end.

(** ** Class requests *)

(** The completion of the data stage of SET_LINE_CODING; [req] is the ep0
    request as the UDC hands it back. *)
Definition acm_complete_set_line_coding (req : usb_request) : M unit :=
  if negb (req_status req =? 0) then ret tt
  else if negb (req_actual req =? sizeof_usb_cdc_line_coding)
  then log (Call_usb_ep_set_halt EP0)
  else modify_acm (set_port_line_coding (line_coding_of_bytes (req_buf req))).

Definition request_code (bmRequestType bRequest : Z) : Z :=
  Z.lor (Z.shiftl bmRequestType 8) bRequest.

Definition class_interface_request (dir req : Z) : Z :=
  Z.lor (Z.shiftl (Z.lor (Z.lor dir USB_TYPE_CLASS) USB_RECIP_INTERFACE) 8) req.

(** The [switch] of acm_setup(): the value it leaves in [value]. *)
Definition acm_setup_switch (ctrl : usb_ctrlrequest) : M Z :=
  a <- get_acm;;
  let w_index := ctrl_wIndex ctrl in
  let w_value := ctrl_wValue ctrl in
  let w_length := ctrl_wLength ctrl in
  let code := request_code (ctrl_bRequestType ctrl) (ctrl_bRequest ctrl) in
  if code =? class_interface_request USB_DIR_OUT USB_CDC_REQ_SET_LINE_CODING
  then
    if negb (w_length =? sizeof_usb_cdc_line_coding)
       || negb (w_index =? ctrl_id a)
    then ret (- EOPNOTSUPP)
    else
      (fun w => (tt, set_ep0_driver_data true w));;
      modify_cdev_req (set_req_complete acm_complete_set_line_coding_cb);;
      ret w_length
  else if code =? class_interface_request USB_DIR_IN USB_CDC_REQ_GET_LINE_CODING
  then
    if negb (w_index =? ctrl_id a)
    then ret (- EOPNOTSUPP)
    else
      let value := Z.min w_length sizeof_usb_cdc_line_coding in
      modify_cdev_req (fun r =>
        set_req_buf (memcpy (req_buf r) 0
                       (line_coding_bytes (port_line_coding a))
                       (Z.to_nat value)) r);;
      ret value
  else if code =?
          class_interface_request USB_DIR_OUT USB_CDC_REQ_SET_CONTROL_LINE_STATE
  then
    if negb (w_index =? ctrl_id a)
    then ret (- EOPNOTSUPP)
    else
      modify_acm (set_port_handshake_bits w_value);;
      (if notify_modem (port a)
       then
         port_no <- gacm_client_port_num (port_num a);;
         log (Call_notify_modem port_no w_value)
       else ret tt);;
      ret 0
  else ret (- EOPNOTSUPP).

Definition acm_setup (ctrl : usb_ctrlrequest) : M Z :=
  value <- acm_setup_switch ctrl;;
  if value >=? 0
  then
    modify_cdev_req (set_req_zero false);;
    modify_cdev_req (set_req_length value);;
    req <- get_cdev_req;;
    usb_ep_queue EP0 req
  else ret value.

(** ** Interface activation *)

Definition acm_set_alt (intf alt : Z) : M Z :=
  a <- get_acm;;
  if intf =? ctrl_id a
  then
    when (driver_data (notify a)) (log (Call_usb_ep_disable EP_NOTIFY));;
    failed <- match desc (notify a) with
              | None => r <- config_ep_by_speed EP_NOTIFY;; ret (negb (r =? 0))
              | Some _ => ret false
              end;;
    if failed then ret (- EINVAL)
    else
      log (Call_usb_ep_enable EP_NOTIFY);;
      modify_acm (fun a => set_notify (set_driver_data true (notify a)) a);;
      ret 0
  else if intf =? data_id a
  then
    (if driver_data (port_in (port a))
     then _ <- acm_port_disconnect;; ret tt
     else ret tt);;
    failed <- match desc (port_in (port a)), desc (port_out (port a)) with
              | Some _, Some _ => ret false
              | _, _ =>
                  r1 <- config_ep_by_speed EP_IN;;
                  if negb (r1 =? 0) then ret true
                  else r2 <- config_ep_by_speed EP_OUT;; ret (negb (r2 =? 0))
              end;;
    if failed
    then
      modify_acm (fun a => set_ep EP_IN (set_desc None (get_ep EP_IN a)) a);;
      modify_acm (fun a => set_ep EP_OUT (set_desc None (get_ep EP_OUT a)) a);;
      ret (- EINVAL)
    else
      _ <- acm_port_connect;;
      ret 0
  else ret (- EINVAL).


(** ** The notification channel *)

(** The request as acm_cdc_notify() fills it in between taking it out of
    [notify_req] and queueing it: its length, the notification header at the
    start of its buffer and the data behind the header.  [lge] is
    CONFIG_LGE_USB_G_ANDROID; [data] is the object that the C pointer
    designates. *)
Definition acm_cdc_notify_fill (lge : bool) (a : f_acm) (type value : Z)
    (data : list Z) (length : Z) (req : usb_request) : usb_request :=
  let len := sizeof_usb_cdc_notification + length in
  let req := set_req_length (if lge then GS_NOTIFY_MAXPACKET lge else len) req in
  let hdr :=
    mk_notification
      (Z.lor (Z.lor USB_DIR_IN USB_TYPE_CLASS) USB_RECIP_INTERFACE)
      (u8 type) (cpu_to_le16 value) (cpu_to_le16 (ctrl_id a))
      (cpu_to_le16 length) in
  let buf := memcpy (req_buf req) 0 (notification_bytes hdr)
               (Z.to_nat sizeof_usb_cdc_notification) in
  let buf :=
    if lge
    then
      let noti_buf :=
        memcpy (zeroed (Z.to_nat (GS_NOTIFY_MAXPACKET lge))) 0 data
          (Z.to_nat length) in
      memcpy buf (Z.to_nat sizeof_usb_cdc_notification) noti_buf
        (Z.to_nat (GS_NOTIFY_MAXPACKET lge))
    else
      memcpy buf (Z.to_nat sizeof_usb_cdc_notification) data (Z.to_nat length) in
  set_req_buf buf req.

(** acm_cdc_notify(): called with [notify_req] non-null, as its comment
    requires. *)
Definition acm_cdc_notify (lge : bool) (type value : Z) (data : list Z)
    (length : Z) : M Z :=
  a <- get_acm;;
  match notify_req a with
  | None => null_deref 0
  | Some req =>
      modify_acm (set_notify_req None);;
      modify_acm (set_pending false);;
      let req := acm_cdc_notify_fill lge a type value data length req in
      status <- usb_ep_queue EP_NOTIFY req;;
      when (status <? 0) (modify_acm (set_notify_req (Some req)));;
      ret status
  end.

Definition acm_notify_serial_state (lge : bool) : M Z :=
  a <- get_acm;;
  match notify_req a with
  | Some _ =>
      acm_cdc_notify lge USB_CDC_NOTIFY_SERIAL_STATE 0
        (le16_bytes (serial_state a)) 2
  | None =>
      modify_acm (set_pending true);;
      ret 0
  end.

(** The completion callback of the notification request; [req] is the
    request as the UDC hands it back, with its [status]. *)
Definition acm_cdc_notify_complete (lge : bool) (req : usb_request) : M unit :=
  a <- get_acm;;
  let doit := if negb (req_status req =? - ESHUTDOWN) then pending a else false in
  modify_acm (set_notify_req (Some req));;
  if doit then _ <- acm_notify_serial_state lge;; ret tt else ret tt.

(** ** Callbacks of the serial transport *)

Definition acm_connect (lge : bool) : M unit :=
  modify_acm (fun a =>
    set_serial_state
      (u16 (Z.lor (serial_state a) (Z.lor ACM_CTRL_DSR ACM_CTRL_DCD))) a);;
  _ <- acm_notify_serial_state lge;;
  ret tt.

Definition acm_disconnect (lge : bool) : M unit :=
  modify_acm (fun a =>
    set_serial_state
      (u16 (Z.land (serial_state a)
              (Z.lnot (Z.lor ACM_CTRL_DSR ACM_CTRL_DCD)))) a);;
  _ <- acm_notify_serial_state lge;;
  ret tt.

(** Sets or clears one bit of [serial_state], as acm_send_break() and its
    two LGE siblings do through a local [u16 state]. *)
Definition serial_state_bit (bit : Z) (yes : Z) (s : Z) : Z :=
  let state := s in
  let state := u16 (Z.land state (Z.lnot bit)) in
  if negb (yes =? 0) then u16 (Z.lor state bit) else state.

Definition acm_send_break (lge : bool) (duration : Z) : M Z :=
  modify_acm (fun a =>
    set_serial_state (serial_state_bit ACM_CTRL_BRK duration (serial_state a)) a);;
  acm_notify_serial_state lge.

Definition acm_send_modem_ctrl_bits (lge : bool) (ctrl_bits : Z) : M Z :=
  modify_acm (set_serial_state (u16 ctrl_bits));;
  acm_notify_serial_state lge.

(** Only built with CONFIG_LGE_USB_G_ANDROID; they return the status as
    [unsigned int]. *)
Definition acm_send_carrier_detect (lge : bool) (yes : Z) : M Z :=
  modify_acm (fun a =>
    set_serial_state (serial_state_bit ACM_CTRL_DCD yes (serial_state a)) a);;
  status <- acm_notify_serial_state lge;;
  ret (u32 status).

Definition acm_send_ring_indicator (lge : bool) (yes : Z) : M Z :=
  modify_acm (fun a =>
    set_serial_state (serial_state_bit ACM_CTRL_RI yes (serial_state a)) a);;
  status <- acm_notify_serial_state lge;;
  ret (u32 status).

Definition acm_get_dtr : M Z :=
  a <- get_acm;;
  ret (if negb (Z.land (port_handshake_bits a) ACM_CTRL_DTR =? 0) then 1 else 0).

Definition acm_get_rts : M Z :=
  a <- get_acm;;
  ret (if negb (Z.land (port_handshake_bits a) ACM_CTRL_RTS =? 0) then 1 else 0).

(** ** The driver as a machine: the events it reacts to *)

Inductive event : Type :=
| Ev_notify_serial_state
| Ev_connect
| Ev_disconnect
| Ev_send_break (duration : Z)
| Ev_send_modem_ctrl_bits (ctrl_bits : Z)
| Ev_send_carrier_detect (yes : Z)
| Ev_send_ring_indicator (yes : Z)
| Ev_notify_complete (status : Z).

(** The UDC completes the oldest request queued on the notification
    endpoint and calls its completion callback; with nothing queued there is
    nothing to complete. *)
Definition udc_complete_notify (lge : bool) (status : Z) (w : world) : world :=
  match notify_fifo w with
  | [] => w
  | req :: rest =>
      snd (acm_cdc_notify_complete lge (set_req_status status req)
             (set_notify_fifo rest w))
  end.

(** One event.  acm_send_carrier_detect() and acm_send_ring_indicator() are
    only compiled with CONFIG_LGE_USB_G_ANDROID; the statements below hold
    with or without them. *)
Definition step (lge : bool) (e : event) (w : world) : world :=
  match e with
  | Ev_notify_serial_state => snd (acm_notify_serial_state lge w)
  | Ev_connect => snd (acm_connect lge w)
  | Ev_disconnect => snd (acm_disconnect lge w)
  | Ev_send_break d => snd (acm_send_break lge d w)
  | Ev_send_modem_ctrl_bits b => snd (acm_send_modem_ctrl_bits lge b w)
  | Ev_send_carrier_detect y => snd (acm_send_carrier_detect lge y w)
  | Ev_send_ring_indicator y => snd (acm_send_ring_indicator lge y w)
  | Ev_notify_complete st => udc_complete_notify lge st w
  end.

Definition run (lge : bool) (es : list event) (w : world) : world :=
  fold_left (fun w e => step lge e w) es w.

(** Whether the channel holds the notification request. *)
Definition slot_held (w : world) : bool :=
  match notify_req (acm w) with
  | Some _ => true
  | None => false
  end.

(** The number of notification transfers in flight. *)
Definition outstanding (w : world) : nat := length (notify_fifo w).

(** The request is in exactly one place: in [notify_req] or on the
    endpoint. *)
Definition one_slot (w : world) : Prop :=
  (slot_held w = true /\ outstanding w = 0%nat)
  \/ (slot_held w = false /\ outstanding w = 1%nat).

(** The serial-state payload of a notification transfer: the two bytes
    behind the 8-byte header, read as a little-endian 16-bit value. *)
Definition payload (r : usb_request) : Z :=
  le16_of_bytes (skipn 8 (transfer_bytes r)).

(** ** The control endpoint as the host drives it *)

(** The UDC finishes the OUT data stage of the control request: [actual]
    bytes of [data] have arrived in the buffer of [cdev->req], and its
    completion callback runs. *)
Definition udc_complete_ep0 (status actual : Z) (data : list Z) (w : world)
  : world :=
  let req :=
    set_req_status status
      (set_req_actual actual
         (set_req_buf (memcpy (req_buf (cdev_req w)) 0 data (Z.to_nat actual))
            (cdev_req w))) in
  let w' := set_cdev_req req w in
  match req_complete req with
  | acm_complete_set_line_coding_cb => snd (acm_complete_set_line_coding req w')
  | _ => w'
  end.

Definition SET_LINE_CODING (index length : Z) : usb_ctrlrequest :=
  mk_ctrlrequest (Z.lor (Z.lor USB_DIR_OUT USB_TYPE_CLASS) USB_RECIP_INTERFACE)
    USB_CDC_REQ_SET_LINE_CODING 0 index length.

Definition GET_LINE_CODING (index length : Z) : usb_ctrlrequest :=
  mk_ctrlrequest (Z.lor (Z.lor USB_DIR_IN USB_TYPE_CLASS) USB_RECIP_INTERFACE)
    USB_CDC_REQ_GET_LINE_CODING 0 index length.

(** ** Vocabulary of the statements *)

(** The request that acm_notify_serial_state() queues when it holds [req]. *)
Definition serial_state_request (lge : bool) (a : f_acm) (req : usb_request)
  : usb_request :=
  acm_cdc_notify_fill lge a USB_CDC_NOTIFY_SERIAL_STATE 0
    (le16_bytes (serial_state a)) 2 req.

(** The world after acm_cdc_notify() has queued [pkt] and usb_ep_queue()
    has answered [r]. *)
Definition after_submit (pkt : usb_request) (r : Z) (w : world) : world :=
  mk_world
    (set_notify_req (if r <? 0 then Some pkt else None)
       (set_pending false (acm w)))
    (gacm_ports w) (cdev_req w) (ep0_driver_data w) (gadget_speed w)
    (if r <? 0 then notify_fifo w else notify_fifo w ++ [pkt])
    (trace w ++ [Call_usb_ep_queue EP_NOTIFY pkt r])
    (snd (next_ret (usb_ep_queue_ret w))) (config_ep_by_speed_ret w) (oops w).

(** The world after acm_setup() has queued the control request [req] and
    usb_ep_queue() has answered. *)
Definition after_ep0_queue (a : f_acm) (d : bool) (req : usb_request) (w : world)
  : world :=
  mk_world a (gacm_ports w) req d (gadget_speed w) (notify_fifo w)
    (trace w ++ [Call_usb_ep_queue EP0 req (fst (next_ret (usb_ep_queue_ret w)))])
    (snd (next_ret (usb_ep_queue_ret w))) (config_ep_by_speed_ret w) (oops w).

(** What an event other than a completion stores in [serial_state] before it
    calls acm_notify_serial_state(). *)
Definition new_serial_state (e : event) (s : Z) : Z :=
  match e with
  | Ev_notify_serial_state | Ev_notify_complete _ => s
  | Ev_connect => u16 (Z.lor s (Z.lor ACM_CTRL_DSR ACM_CTRL_DCD))
  | Ev_disconnect => u16 (Z.land s (Z.lnot (Z.lor ACM_CTRL_DSR ACM_CTRL_DCD)))
  | Ev_send_break d => serial_state_bit ACM_CTRL_BRK d s
  | Ev_send_modem_ctrl_bits b => u16 b
  | Ev_send_carrier_detect y => serial_state_bit ACM_CTRL_DCD y s
  | Ev_send_ring_indicator y => serial_state_bit ACM_CTRL_RI y s
  end.

(** The events that are not a completion. *)
Definition is_change (e : event) : Prop :=
  match e with
  | Ev_notify_complete _ => False
  | _ => True
  end.

(** The bytes of a SerialState transfer for interface [c] and state [s]. *)
Definition serial_state_wire (lge : bool) (c s : Z) : list Z :=
  [Z.lor (Z.lor USB_DIR_IN USB_TYPE_CLASS) USB_RECIP_INTERFACE;
   USB_CDC_NOTIFY_SERIAL_STATE]
    ++ le16_bytes 0 ++ le16_bytes c ++ le16_bytes 2 ++ le16_bytes s
    ++ (if lge then repeat 0 6 else []).

(** ** Concrete worlds *)

(** The notification request as acm_bind() allocates it: header plus two
    bytes, completion [acm_cdc_notify_complete]. *)
Definition bound_notify_req : usb_request :=
  mk_request (repeat 0 10%nat) 0 false acm_cdc_notify_complete_cb 0 0.

(** An instance after acm_bind(): interfaces 0 and 1, endpoints claimed and
    not yet configured, everything else as kzalloc() left it. *)
Definition bound_acm (t : transport_type) : f_acm :=
  mk_acm (mk_gserial (mk_ep true None) (mk_ep true None) false)
    0 1 0 t false (mk_ep true None) (Some bound_notify_req)
    (mk_line_coding 0 0 0 0) 0 0.

(** The world around it; [queue_ret] scripts usb_ep_queue(). *)
Definition bound_world (t : transport_type) (queue_ret : list Z) : world :=
  mk_world (bound_acm t) [mk_port_info t 0 0]
    (mk_request (repeat 0 16%nat) 0 false composite_setup_complete 0 0)
    false USB_SPEED_HIGH [] [] queue_ret [] false.

(** The world with the connect notification in flight. *)
Definition connected_world (lge : bool) : world :=
  snd (acm_connect lge (bound_world USB_GADGET_XPORT_TTY [])).

(** 115200 baud, 1 stop bit, no parity, 8 data bits. *)
Definition line_coding_115200_8N1 : list Z := [0; 194; 1; 0; 0; 0; 8].

(** ** What the host has been told *)

(** The serial state the host last heard of: the payload of the last
    request that usb_ep_queue() accepted on the notification endpoint,
    [init] when the trace holds none. *)
Fixpoint host_view (init : Z) (t : list call) : Z :=
  match t with
  | [] => init
  | Call_usb_ep_queue EP_NOTIFY req r :: t' =>
      host_view (if r <? 0 then init else payload req) t'
  | _ :: t' => host_view init t'
  end.

(** An event that is not a completion with status -ESHUTDOWN. *)
Definition no_shutdown (e : event) : Prop :=
  match e with
  | Ev_notify_complete st => st <> - ESHUTDOWN
  | _ => True
  end.

(** The channel and the host agree: the request is in one place, a request
    at hand means nothing is pending, and with nothing pending the host has
    heard the current [serial_state].  usb_ep_queue() is scripted to accept
    every request. *)
Definition in_sync (init : Z) (w : world) : Prop :=
  one_slot w
  /\ is_u16 (serial_state (acm w))
  /\ Forall (fun r => 0 <= r) (usb_ep_queue_ret w)
  /\ (slot_held w = true -> pending (acm w) = false)
  /\ (pending (acm w) = false ->
      host_view init (trace w) = serial_state (acm w)).

(** The part of [f_acm] outside the notification channel: everything but
    [pending], [notify_req] and [serial_state]. *)
Definition acm_rest (a : f_acm)
  : gserial * Z * Z * Z * transport_type * usb_ep * usb_cdc_line_coding * Z :=
  (port a, ctrl_id a, data_id a, port_num a, transport a, notify a,
   port_line_coding a, port_handshake_bits a).

(** The part of the world the serial-state events have no business with. *)
Definition world_rest (w : world)
  : list acm_port_info * usb_request * bool * usb_device_speed * list Z * bool :=
  (gacm_ports w, cdev_req w, ep0_driver_data w, gadget_speed w,
   config_ep_by_speed_ret w, oops w).

(** ** Class requests as the host sends them *)

Definition SET_CONTROL_LINE_STATE (index value : Z) : usb_ctrlrequest :=
  mk_ctrlrequest (Z.lor (Z.lor USB_DIR_OUT USB_TYPE_CLASS) USB_RECIP_INTERFACE)
    USB_CDC_REQ_SET_CONTROL_LINE_STATE value index 0.

(** The three [case] labels of acm_setup(). *)
Definition acm_request_codes : list Z :=
  [class_interface_request USB_DIR_OUT USB_CDC_REQ_SET_LINE_CODING;
   class_interface_request USB_DIR_IN USB_CDC_REQ_GET_LINE_CODING;
   class_interface_request USB_DIR_OUT USB_CDC_REQ_SET_CONTROL_LINE_STATE].

(** ** The calls of an activation *)

(** [gacm_ports[acm->port_num].client_port_num] *)
Definition client_port_of (w : world) : Z :=
  client_port_num
    (nth (Z.to_nat (port_num (acm w))) (gacm_ports w) default_port_info).

(** The transport call acm_port_connect() makes, if any. *)
Definition connect_calls (w : world) : list call :=
  match transport (acm w) with
  | USB_GADGET_XPORT_TTY => [Call_gserial_connect (client_port_of w)]
  | USB_GADGET_XPORT_SMD => [Call_gsmd_connect (client_port_of w)]
  | USB_GADGET_XPORT_OTHER _ => []
  end.



(** ** The port table and its counters *)

(** The file-scope variables: the counters, all [unsigned int], and
    [gacm_ports[GSERIAL_NO_PORTS]].  [table_overrun] records an access
    outside the array. *)
Record acm_globals : Type := mk_globals {
  no_acm_tty_ports : Z;
  no_acm_smd_ports : Z;
  nr_acm_ports : Z;
  acm_next_free_port : Z;
  port_table : list acm_port_info;
  table_overrun : bool
}.

Definition set_no_acm_tty_ports (v : Z) (g : acm_globals) : acm_globals :=
  mk_globals v (no_acm_smd_ports g) (nr_acm_ports g) (acm_next_free_port g)
    (port_table g) (table_overrun g).
Definition set_no_acm_smd_ports (v : Z) (g : acm_globals) : acm_globals :=
  mk_globals (no_acm_tty_ports g) v (nr_acm_ports g) (acm_next_free_port g)
    (port_table g) (table_overrun g).
Definition set_nr_acm_ports (v : Z) (g : acm_globals) : acm_globals :=
  mk_globals (no_acm_tty_ports g) (no_acm_smd_ports g) v (acm_next_free_port g)
    (port_table g) (table_overrun g).
Definition set_acm_next_free_port (v : Z) (g : acm_globals) : acm_globals :=
  mk_globals (no_acm_tty_ports g) (no_acm_smd_ports g) (nr_acm_ports g) v
    (port_table g) (table_overrun g).
Definition set_port_table (v : list acm_port_info) (g : acm_globals)
  : acm_globals :=
  mk_globals (no_acm_tty_ports g) (no_acm_smd_ports g) (nr_acm_ports g)
    (acm_next_free_port g) v (table_overrun g).
Definition set_table_overrun (v : bool) (g : acm_globals) : acm_globals :=
  mk_globals (no_acm_tty_ports g) (no_acm_smd_ports g) (nr_acm_ports g)
    (acm_next_free_port g) (port_table g) v.

Definition set_info_transport (v : transport_type) (i : acm_port_info)
  : acm_port_info := mk_port_info v (info_port_num i) (client_port_num i).
Definition set_info_port_num (v : Z) (i : acm_port_info) : acm_port_info :=
  mk_port_info (info_transport i) v (client_port_num i).
Definition set_client_port_num (v : Z) (i : acm_port_info) : acm_port_info :=
  mk_port_info (info_transport i) (info_port_num i) v.

Fixpoint update_nth {A : Type} (n : nat) (f : A -> A) (l : list A) : list A :=
  match l, n with
  | [], _ => []
  | x :: l', O => f x :: l'
  | x :: l', S n' => x :: update_nth n' f l'
  end.

Definition in_table (n : Z) (g : acm_globals) : bool :=
  (0 <=? n) && (n <? Z.of_nat (length (port_table g))).

(** [gacm_ports[n]] read: outside the array the read is recorded and the
    value is arbitrary (here the zero entry). *)
Definition table_get (n : Z) (g : acm_globals) : acm_port_info * acm_globals :=
  if in_table n g
  then (nth (Z.to_nat n) (port_table g) default_port_info, g)
  else (default_port_info, set_table_overrun true g).

(** A store into a member of [gacm_ports[n]]. *)
Definition table_set (n : Z) (f : acm_port_info -> acm_port_info)
    (g : acm_globals) : acm_globals :=
  if in_table n g
  then set_port_table (update_nth (Z.to_nat n) f (port_table g)) g
  else set_table_overrun true g.

(** acm_init_port(); [transport] is what str_to_xport(name) returned. *)
Definition acm_init_port (port_num : Z) (transport : transport_type)
    (g : acm_globals) : Z * acm_globals :=
  if port_num >=? GSERIAL_NO_PORTS then (- ENODEV, g)
  else
    let g := table_set port_num (set_info_transport transport) g in
    let g := table_set port_num (set_info_port_num (u32 port_num)) g in
    match transport with
    | USB_GADGET_XPORT_TTY =>
        let g := set_no_acm_tty_ports (u32 (no_acm_tty_ports g + 1)) g in
        (0, set_nr_acm_ports (u32 (nr_acm_ports g + 1)) g)
    | USB_GADGET_XPORT_SMD =>
        let g := table_set port_num
                   (set_client_port_num (u8 (no_acm_smd_ports g))) g in
        let g := set_no_acm_smd_ports (u32 (no_acm_smd_ports g + 1)) g in
        (0, set_nr_acm_ports (u32 (nr_acm_ports g + 1)) g)
    | USB_GADGET_XPORT_OTHER _ => (- ENODEV, g)
    end.

(** A sequence of acm_init_port() calls, as the gadget driver makes them
    while it parses its port list; the results are dropped. *)
Definition init_ports (calls : list (Z * transport_type)) (g : acm_globals)
  : acm_globals :=
  fold_left (fun g c => snd (acm_init_port (fst c) (snd c) g)) calls g.

(** The globals when the module is loaded. *)
Definition initial_globals : acm_globals :=
  mk_globals 0 0 0 0 (repeat (mk_port_info (USB_GADGET_XPORT_OTHER 0) 0 0) 4)
    false.

(** ** Lines of the serial core *)

(** Calls into u_serial and the SMD transport made while ports are set
    up. *)
Inductive port_call : Type :=
| PCall_gserial_alloc_line (ret line : Z)
| PCall_gserial_free_line (line : Z)
| PCall_gsmd_setup (count ret : Z).

(** The globals, the scripted results of gserial_alloc_line() (status and,
    on success, the line it hands out) and of gsmd_setup(), and the calls
    made. *)
Record port_world : Type := mk_port_world {
  globals : acm_globals;
  alloc_line_ret : list (Z * Z);
  gsmd_setup_ret : Z;
  port_trace : list port_call
}.

Definition set_globals (v : acm_globals) (p : port_world) : port_world :=
  mk_port_world v (alloc_line_ret p) (gsmd_setup_ret p) (port_trace p).
Definition set_alloc_line_ret (v : list (Z * Z)) (p : port_world) : port_world :=
  mk_port_world (globals p) v (gsmd_setup_ret p) (port_trace p).
Definition set_port_trace (v : list port_call) (p : port_world) : port_world :=
  mk_port_world (globals p) (alloc_line_ret p) (gsmd_setup_ret p) v.

(** gserial_alloc_line(&x): status 0 stores the new line in [x] (an
    [unsigned char]), any other status leaves [x] alone.  An exhausted
    script fails with -ENODEV.  The result is the status and the line
    stored, if one was. *)
Definition gserial_alloc_line (p : port_world) : Z * option Z * port_world :=
  let (r, rest) :=
    match alloc_line_ret p with
    | [] => ((- ENODEV, 0), [])
    | x :: l => (x, l)
    end in
  let p1 := set_port_trace
              (port_trace p ++ [PCall_gserial_alloc_line (fst r) (snd r)])
              (set_alloc_line_ret rest p) in
  (fst r, if fst r =? 0 then Some (u8 (snd r)) else None, p1).

Definition gserial_free_line (line : Z) (p : port_world) : port_world :=
  set_port_trace (port_trace p ++ [PCall_gserial_free_line line]) p.

(** The [for] loop of acm_port_setup() from index [i], [n] iterations to
    go: [Some ret] when it returned [ret] from inside the loop. *)
Fixpoint acm_port_setup_loop (n : nat) (i : Z) (p : port_world)
  : option Z * port_world :=
  match n with
  | O => (None, p)
  | S n' =>
      let '(ret, line, p1) := gserial_alloc_line p in
      let p2 :=
        match line with
        | Some l => set_globals (table_set i (set_client_port_num l) (globals p1)) p1
        | None => p1
        end in
      if negb (ret =? 0) then (Some ret, p2)
      else acm_port_setup_loop n' (i + 1) p2
  end.

Definition acm_port_setup (p : port_world) : Z * port_world :=
  let (early, p1) :=
    acm_port_setup_loop (Z.to_nat (no_acm_tty_ports (globals p))) 0 p in
  match early with
  | Some ret => (ret, p1)
  | None =>
      if negb (no_acm_smd_ports (globals p1) =? 0)
      then
        let ret := gsmd_setup_ret p1 in
        (ret, set_port_trace
                (port_trace p1
                 ++ [PCall_gsmd_setup (no_acm_smd_ports (globals p1)) ret]) p1)
      else (0, p1)
  end.

Fixpoint acm_port_cleanup_loop (n : nat) (i : Z) (p : port_world) : port_world :=
  match n with
  | O => p
  | S n' =>
      let (e, g) := table_get i (globals p) in
      acm_port_cleanup_loop n' (i + 1)
        (gserial_free_line (client_port_num e) (set_globals g p))
  end.

Definition acm_port_cleanup (p : port_world) : port_world :=
  acm_port_cleanup_loop (Z.to_nat (no_acm_tty_ports (globals p))) 0 p.

(** ** Instances and functions *)

(** Modelled from the spec: errno value of errno-base.h. *)
Definition ENOMEM : Z := 12.

(** An instance as kzalloc() and acm_alloc_func() leave it: everything
    zero but the port number and the transport.  The endpoint pointers are
    NULL until acm_bind(); they show here as endpoints with nothing set. *)
Definition fresh_acm (port_no : Z) (t : transport_type) : f_acm :=
  mk_acm (mk_gserial (mk_ep false None) (mk_ep false None) false)
    0 0 port_no t false (mk_ep false None) None (mk_line_coding 0 0 0 0) 0 0.

(** acm_alloc_func(): [kzalloc_ok] tells whether kzalloc() succeeded,
    [opts_port_num] is [opts->port_num] (a [u8]) on entry.  The result is the
    new instance or the error, [opts->port_num] on return, and the
    globals. *)
Definition acm_alloc_func (kzalloc_ok : bool) (opts_port_num : Z)
    (g : acm_globals) : (Z + f_acm) * Z * acm_globals :=
  if negb kzalloc_ok then (inl (- ENOMEM), opts_port_num, g)
  else
    let (opts_port_num, g) :=
      if negb (nr_acm_ports g =? 0)
      then (u8 (acm_next_free_port g),
            set_acm_next_free_port (u32 (acm_next_free_port g + 1)) g)
      else (opts_port_num, g) in
    let (e, g) := table_get opts_port_num g in
    (inr (fresh_acm opts_port_num (info_transport e)), opts_port_num, g).

(** acm_free_func(), after the kfree(). *)
Definition acm_free_func (g : acm_globals) : acm_globals :=
  set_acm_next_free_port (u32 (acm_next_free_port g - 1)) g.

(** acm_alloc_instance(): the error, or [opts->port_num] of the new
    instance. *)
Definition acm_alloc_instance (kzalloc_ok : bool) (p : port_world)
  : (Z + Z) * port_world :=
  if negb kzalloc_ok then (inl (- ENOMEM), p)
  else if nr_acm_ports (globals p) =? 0
  then
    let '(ret, line, p1) := gserial_alloc_line p in
    if negb (ret =? 0) then (inl ret, p1)
    else (inr (match line with Some l => l | None => 0 end), p1)
  else (inr 0, p).

(** acm_free_instance(), before the kfree(). *)
Definition acm_free_instance (opts_port_num : Z) (p : port_world) : port_world :=
  if nr_acm_ports (globals p) =? 0
  then gserial_free_line opts_port_num p
  else p.

(** ** Vocabulary for the port table *)

(** [gacm_ports[j]] for an index inside the array. *)
Definition entry (j : Z) (g : acm_globals) : acm_port_info :=
  nth (Z.to_nat j) (port_table g) default_port_info.

(** The array has its GSERIAL_NO_PORTS entries and has not been overrun. *)
Definition table_ok (g : acm_globals) : Prop :=
  length (port_table g) = 4%nat /\ table_overrun g = false.

Definition supported (t : transport_type) : bool :=
  match t with
  | USB_GADGET_XPORT_OTHER _ => false
  | _ => true
  end.



(** A script in which gserial_alloc_line() hands out the lines [ls]. *)
Definition lines_script (ls : list Z) : list (Z * Z) :=
  map (fun l => (0, l)) ls.

(** The lines [ls] stored as client port numbers from entry [i] on. *)
Fixpoint store_lines (i : Z) (ls : list Z) (g : acm_globals) : acm_globals :=
  match ls with
  | [] => g
  | l :: ls' =>
      store_lines (i + 1) ls' (table_set i (set_client_port_num (u8 l)) g)
  end.

(** ** Binding and unbinding *)

(** The members of the file-scope descriptors that acm_bind() and
    acm_unbind() write, all [__u8]: the interface numbers and string ids
    marked DYNAMIC, the endpoint addresses, and [acm_string_defs[0].id]. *)
Record acm_descriptors : Type := mk_descs {
  iad_bFirstInterface : Z;
  iad_iFunction : Z;
  ctrl_bInterfaceNumber : Z;
  ctrl_iInterface : Z;
  data_bInterfaceNumber : Z;
  data_iInterface : Z;
  union_bMasterInterface0 : Z;
  union_bSlaveInterface0 : Z;
  call_mgmt_bDataInterface : Z;
  fs_in_address : Z;
  fs_out_address : Z;
  fs_notify_address : Z;
  hs_in_address : Z;
  hs_out_address : Z;
  hs_notify_address : Z;
  ss_in_address : Z;
  ss_out_address : Z;
  string_defs_0_id : Z
}.

(** What acm_bind() reads and writes of [f_acm]: the interface ids and the
    four pointers, [None] for NULL. *)
Record acm_pointers : Type := mk_pointers {
  p_ctrl_id : Z;
  p_data_id : Z;
  p_in : option usb_ep;
  p_out : option usb_ep;
  p_notify : option usb_ep;
  p_notify_req : option usb_request
}.

(** Calls of acm_bind() and acm_unbind() into the composite framework and
    u_serial. *)
Inductive bind_call : Type :=
| BCall_usb_gstrings_attach
| BCall_usb_interface_id (ret : Z)
| BCall_usb_ep_autoconfig (ep : ep_id) (found : bool)
| BCall_gs_alloc_req (len : Z) (found : bool)
| BCall_gs_free_req (req : usb_request)
| BCall_usb_assign_descriptors (ret : Z)
| BCall_usb_free_all_descriptors.

(** The scripted results: usb_gstrings_attach() gives an error or the three
    string ids; usb_interface_id() a status each time; usb_ep_autoconfig()
    NULL or an endpoint, whose address it writes into the descriptor;
    gs_alloc_req() NULL or a request; usb_assign_descriptors() a status. *)
Record bind_script : Type := mk_bind_script {
  gstrings_attach_ret : Z + (Z * Z * Z);
  interface_id_ret : list Z;
  ep_autoconfig_ret : list (option Z);
  gs_alloc_req_ret : option usb_request;
  assign_descriptors_ret : Z
}.

Record bind_state : Type := mk_bind_state {
  ptrs : acm_pointers;
  descs : acm_descriptors;
  script : bind_script;
  bind_trace : list bind_call
}.

Definition set_ptrs (v : acm_pointers) (b : bind_state) : bind_state :=
  mk_bind_state v (descs b) (script b) (bind_trace b).
Definition set_descs (v : acm_descriptors) (b : bind_state) : bind_state :=
  mk_bind_state (ptrs b) v (script b) (bind_trace b).
Definition set_script (v : bind_script) (b : bind_state) : bind_state :=
  mk_bind_state (ptrs b) (descs b) v (bind_trace b).
Definition blog (c : bind_call) (b : bind_state) : bind_state :=
  mk_bind_state (ptrs b) (descs b) (script b) (bind_trace b ++ [c]).

Definition set_p_ctrl_id (v : Z) (p : acm_pointers) : acm_pointers :=
  mk_pointers v (p_data_id p) (p_in p) (p_out p) (p_notify p) (p_notify_req p).
Definition set_p_data_id (v : Z) (p : acm_pointers) : acm_pointers :=
  mk_pointers (p_ctrl_id p) v (p_in p) (p_out p) (p_notify p) (p_notify_req p).
Definition set_p_in (v : option usb_ep) (p : acm_pointers) : acm_pointers :=
  mk_pointers (p_ctrl_id p) (p_data_id p) v (p_out p) (p_notify p)
    (p_notify_req p).
Definition set_p_out (v : option usb_ep) (p : acm_pointers) : acm_pointers :=
  mk_pointers (p_ctrl_id p) (p_data_id p) (p_in p) v (p_notify p)
    (p_notify_req p).
Definition set_p_notify (v : option usb_ep) (p : acm_pointers) : acm_pointers :=
  mk_pointers (p_ctrl_id p) (p_data_id p) (p_in p) (p_out p) v (p_notify_req p).
Definition set_p_notify_req (v : option usb_request) (p : acm_pointers)
  : acm_pointers :=
  mk_pointers (p_ctrl_id p) (p_data_id p) (p_in p) (p_out p) (p_notify p) v.

(** The strings part of acm_bind(): the three [iInterface]/[iFunction]
    members. *)
Definition set_string_ids (ids : Z * Z * Z) (d : acm_descriptors)
  : acm_descriptors :=
  let '(ctrl, data, iad) := ids in
  mk_descs (iad_bFirstInterface d) (u8 iad) (ctrl_bInterfaceNumber d) (u8 ctrl)
    (data_bInterfaceNumber d) (u8 data) (union_bMasterInterface0 d)
    (union_bSlaveInterface0 d) (call_mgmt_bDataInterface d) (fs_in_address d)
    (fs_out_address d) (fs_notify_address d) (hs_in_address d)
    (hs_out_address d) (hs_notify_address d) (ss_in_address d)
    (ss_out_address d) (string_defs_0_id d).

(** The three stores of the control interface number. *)
Definition set_ctrl_interface (v : Z) (d : acm_descriptors) : acm_descriptors :=
  mk_descs (u8 v) (iad_iFunction d) (u8 v) (ctrl_iInterface d)
    (data_bInterfaceNumber d) (data_iInterface d) (u8 v)
    (union_bSlaveInterface0 d) (call_mgmt_bDataInterface d) (fs_in_address d)
    (fs_out_address d) (fs_notify_address d) (hs_in_address d)
    (hs_out_address d) (hs_notify_address d) (ss_in_address d)
    (ss_out_address d) (string_defs_0_id d).

(** The three stores of the data interface number. *)
Definition set_data_interface (v : Z) (d : acm_descriptors) : acm_descriptors :=
  mk_descs (iad_bFirstInterface d) (iad_iFunction d) (ctrl_bInterfaceNumber d)
    (ctrl_iInterface d) (u8 v) (data_iInterface d) (union_bMasterInterface0 d)
    (u8 v) (u8 v) (fs_in_address d) (fs_out_address d) (fs_notify_address d)
    (hs_in_address d) (hs_out_address d) (hs_notify_address d)
    (ss_in_address d) (ss_out_address d) (string_defs_0_id d).

(** usb_ep_autoconfig() writing the address into a full-speed descriptor. *)
Definition set_fs_address (ep : ep_id) (v : Z) (d : acm_descriptors)
  : acm_descriptors :=
  mk_descs (iad_bFirstInterface d) (iad_iFunction d) (ctrl_bInterfaceNumber d)
    (ctrl_iInterface d) (data_bInterfaceNumber d) (data_iInterface d)
    (union_bMasterInterface0 d) (union_bSlaveInterface0 d)
    (call_mgmt_bDataInterface d)
    (match ep with EP_IN => u8 v | _ => fs_in_address d end)
    (match ep with EP_OUT => u8 v | _ => fs_out_address d end)
    (match ep with EP_NOTIFY => u8 v | _ => fs_notify_address d end)
    (hs_in_address d) (hs_out_address d) (hs_notify_address d)
    (ss_in_address d) (ss_out_address d) (string_defs_0_id d).

(** The high- and super-speed descriptors take the full-speed addresses. *)
Definition copy_fs_addresses (d : acm_descriptors) : acm_descriptors :=
  mk_descs (iad_bFirstInterface d) (iad_iFunction d) (ctrl_bInterfaceNumber d)
    (ctrl_iInterface d) (data_bInterfaceNumber d) (data_iInterface d)
    (union_bMasterInterface0 d) (union_bSlaveInterface0 d)
    (call_mgmt_bDataInterface d) (fs_in_address d) (fs_out_address d)
    (fs_notify_address d) (fs_in_address d) (fs_out_address d)
    (fs_notify_address d) (fs_in_address d) (fs_out_address d)
    (string_defs_0_id d).

Definition set_string_defs_0_id (v : Z) (d : acm_descriptors) : acm_descriptors :=
  mk_descs (iad_bFirstInterface d) (iad_iFunction d) (ctrl_bInterfaceNumber d)
    (ctrl_iInterface d) (data_bInterfaceNumber d) (data_iInterface d)
    (union_bMasterInterface0 d) (union_bSlaveInterface0 d)
    (call_mgmt_bDataInterface d) (fs_in_address d) (fs_out_address d)
    (fs_notify_address d) (hs_in_address d) (hs_out_address d)
    (hs_notify_address d) (ss_in_address d) (ss_out_address d) v.

(** usb_interface_id(): the next scripted status; an exhausted script
    fails with -ENODEV. *)
Definition usb_interface_id (b : bind_state) : Z * bind_state :=
  let (r, rest) :=
    match interface_id_ret (script b) with
    | [] => (- ENODEV, [])
    | r :: l => (r, l)
    end in
  let s := script b in
  (r, blog (BCall_usb_interface_id r)
        (set_script (mk_bind_script (gstrings_attach_ret s) rest
                       (ep_autoconfig_ret s) (gs_alloc_req_ret s)
                       (assign_descriptors_ret s)) b)).

(** usb_ep_autoconfig(gadget, &acm_fs_..._desc): NULL, or an unclaimed
    endpoint whose address it has written into the descriptor. *)
Definition usb_ep_autoconfig (ep : ep_id) (b : bind_state)
  : option usb_ep * bind_state :=
  let (r, rest) :=
    match ep_autoconfig_ret (script b) with
    | [] => (None, [])
    | r :: l => (r, l)
    end in
  let s := script b in
  let b1 := set_script (mk_bind_script (gstrings_attach_ret s)
                          (interface_id_ret s) rest (gs_alloc_req_ret s)
                          (assign_descriptors_ret s)) b in
  match r with
  | None => (None, blog (BCall_usb_ep_autoconfig ep false) b1)
  | Some addr =>
      (Some (mk_ep false None),
       blog (BCall_usb_ep_autoconfig ep true)
         (set_descs (set_fs_address ep addr (descs b1)) b1))
  end.

(** The [fail:] label of acm_bind(). *)
Definition acm_bind_fail (status : Z) (b : bind_state) : Z * bind_state :=
  let b :=
    match p_notify_req (ptrs b) with
    | Some req => blog (BCall_gs_free_req req) b
    | None => b
    end in
  let b := set_ptrs (set_p_notify
                       (option_map (set_driver_data false) (p_notify (ptrs b)))
                       (ptrs b)) b in
  let b := set_ptrs (set_p_out
                       (option_map (set_driver_data false) (p_out (ptrs b)))
                       (ptrs b)) b in
  let b := set_ptrs (set_p_in
                       (option_map (set_driver_data false) (p_in (ptrs b)))
                       (ptrs b)) b in
  (status, b).

(** acm_bind() from the first usb_interface_id() call on. *)
Definition acm_bind_interfaces (b : bind_state) : Z * bind_state :=
  let (status, b) := usb_interface_id b in
  if status <? 0 then acm_bind_fail status b
  else
    let b := set_ptrs (set_p_ctrl_id (u8 status) (ptrs b)) b in
    let b := set_descs (set_ctrl_interface status (descs b)) b in
    let (status, b) := usb_interface_id b in
    if status <? 0 then acm_bind_fail status b
    else
      let b := set_ptrs (set_p_data_id (u8 status) (ptrs b)) b in
      let b := set_descs (set_data_interface status (descs b)) b in
      let status := - ENODEV in
      let (ep, b) := usb_ep_autoconfig EP_IN b in
      match ep with
      | None => acm_bind_fail status b
      | Some e =>
          let b := set_ptrs (set_p_in (Some (set_driver_data true e)) (ptrs b)) b in
          let (ep, b) := usb_ep_autoconfig EP_OUT b in
          match ep with
          | None => acm_bind_fail status b
          | Some e =>
              let b := set_ptrs (set_p_out (Some (set_driver_data true e))
                                   (ptrs b)) b in
              let (ep, b) := usb_ep_autoconfig EP_NOTIFY b in
              match ep with
              | None => acm_bind_fail status b
              | Some e =>
                  let b := set_ptrs (set_p_notify
                                       (Some (set_driver_data true e)) (ptrs b))
                             b in
                  let len := sizeof_usb_cdc_notification + 2 in
                  let req := gs_alloc_req_ret (script b) in
                  let b := blog (BCall_gs_alloc_req len
                                   (match req with Some _ => true | None => false end))
                             b in
                  let b := set_ptrs (set_p_notify_req req (ptrs b)) b in
                  match req with
                  | None => acm_bind_fail status b
                  | Some r =>
                      let b := set_ptrs
                                 (set_p_notify_req
                                    (Some (set_req_complete
                                             acm_cdc_notify_complete_cb r))
                                    (ptrs b)) b in
                      let b := set_descs (copy_fs_addresses (descs b)) b in
                      let status := assign_descriptors_ret (script b) in
                      let b := blog (BCall_usb_assign_descriptors status) b in
                      if negb (status =? 0) then acm_bind_fail status b
                      else (0, b)
                  end
              end
          end
      end.

(** acm_bind(); [lge] is CONFIG_LGE_USB_G_ANDROID, under which the strings
    are attached only while [acm_control_interface_desc.iInterface] is 0. *)
Definition acm_bind (lge : bool) (b : bind_state) : Z * bind_state :=
  if lge && negb (ctrl_iInterface (descs b) =? 0)
  then acm_bind_interfaces b
  else
    let b := blog BCall_usb_gstrings_attach b in
    match gstrings_attach_ret (script b) with
    | inl err => (err, b)
    | inr ids => acm_bind_interfaces (set_descs (set_string_ids ids (descs b)) b)
    end.

Definition acm_unbind (b : bind_state) : bind_state :=
  let b := set_descs (set_string_defs_0_id 0 (descs b)) b in
  let b := blog BCall_usb_free_all_descriptors b in
  match p_notify_req (ptrs b) with
  | Some req => blog (BCall_gs_free_req req) b
  | None => b
  end.

(** An endpoint pointer that is NULL or whose endpoint is not claimed. *)
Definition unclaimed (e : option usb_ep) : Prop :=
  match e with
  | Some ep => driver_data ep = false
  | None => True
  end.

Definition claimed (e : option usb_ep) : Prop :=
  match e with
  | Some ep => driver_data ep = true
  | None => False
  end.

(** The descriptors name the interfaces the instance answers for, and the
    three speeds use the same endpoint addresses. *)
Definition descriptors_agree (b : bind_state) : Prop :=
  let d := descs b in
  let p := ptrs b in
  (iad_bFirstInterface d = p_ctrl_id p
   /\ ctrl_bInterfaceNumber d = p_ctrl_id p
   /\ union_bMasterInterface0 d = p_ctrl_id p)
  /\ (data_bInterfaceNumber d = p_data_id p
      /\ union_bSlaveInterface0 d = p_data_id p
      /\ call_mgmt_bDataInterface d = p_data_id p)
  /\ (hs_in_address d = fs_in_address d /\ ss_in_address d = fs_in_address d)
  /\ (hs_out_address d = fs_out_address d /\ ss_out_address d = fs_out_address d)
  /\ hs_notify_address d = fs_notify_address d.

(** What a bound instance has: consistent descriptors, its three endpoints
    claimed, and the notification request with its completion handler. *)
Definition bound_ok (b : bind_state) : Prop :=
  descriptors_agree b
  /\ claimed (p_in (ptrs b))
  /\ claimed (p_out (ptrs b))
  /\ claimed (p_notify (ptrs b))
  /\ exists req, p_notify_req (ptrs b) = Some req
                 /\ req_complete req = acm_cdc_notify_complete_cb.

(** The three string ids of the descriptors. *)
Definition string_ids (d : acm_descriptors) : Z * Z * Z :=
  (ctrl_iInterface d, data_iInterface d, iad_iFunction d).

(** An error from usb_gstrings_attach() is an ERR_PTR, so negative. *)
Definition attach_error_ok (s : bind_script) : Prop :=
  match gstrings_attach_ret s with
  | inl err => err < 0
  | inr _ => True
  end.

(** Whether this acm_bind() skips usb_gstrings_attach(). *)
Definition skips_strings (lge : bool) (b : bind_state) : bool :=
  lge && negb (ctrl_iInterface (descs b) =? 0).

(** What gs_free_req() is called with at [fail:] and in acm_unbind(). *)
Definition frees (b : bind_state) : list bind_call :=
  match p_notify_req (ptrs b) with
  | Some req => [BCall_gs_free_req req]
  | None => []
  end.

(** What the [fail:] label leaves: no endpoint claimed, and a request still
    in [notify_req] is one that [l] handed to gs_free_req(). *)
Definition released (b : bind_state) (l : list bind_call) : Prop :=
  unclaimed (p_in (ptrs b))
  /\ unclaimed (p_out (ptrs b))
  /\ unclaimed (p_notify (ptrs b))
  /\ forall req, p_notify_req (ptrs b) = Some req ->
                 In (BCall_gs_free_req req) l.

(** The descriptors as the file initialises them: DYNAMIC members 0; the
    full-speed IN and both notification endpoints USB_DIR_IN, the
    full-speed OUT endpoint USB_DIR_OUT; the high- and super-speed bulk
    descriptors have no [bEndpointAddress] initialiser, so 0. *)
Definition initial_descs : acm_descriptors :=
  mk_descs 0 0 0 0 0 0 0 0 0 128 0 128 0 0 128 0 0 0.

(** The pointers of an instance that acm_alloc_func() has just zeroed. *)
Definition unbound_pointers : acm_pointers :=
  mk_pointers 0 0 None None None None.

(** * Properties *)

(** ** The notification channel, one call at a time *)

Arguments acm_cdc_notify_fill : simpl never.

Lemma acm_cdc_notify_eq lge type value data length w req :
  notify_req (acm w) = Some req ->
  acm_cdc_notify lge type value data length w =
    let pkt := acm_cdc_notify_fill lge (acm w) type value data length req in
    let r := fst (next_ret (usb_ep_queue_ret w)) in
    (r, after_submit pkt r w).
Proof.
  intros H.
  unfold acm_cdc_notify, bind, get_acm, modify_acm, usb_ep_queue, when, ret,
    after_submit.
  destruct w as [a ? ? ? ? ? ? qr ? ?]; destruct a; cbn in H; subst.
  cbv -[acm_cdc_notify_fill next_ret Z.ltb app].
  destruct (next_ret qr) as [r rest].
  destruct (r <? 0) eqn:E; rewrite ?E; reflexivity.
Qed.

Lemma acm_notify_serial_state_free lge w req :
  notify_req (acm w) = Some req ->
  acm_notify_serial_state lge w =
    let pkt := serial_state_request lge (acm w) req in
    let r := fst (next_ret (usb_ep_queue_ret w)) in
    (r, after_submit pkt r w).
Proof.
  intros H. unfold acm_notify_serial_state, bind, get_acm. rewrite H.
  now rewrite (acm_cdc_notify_eq _ _ _ _ _ _ _ H).
Qed.

Lemma acm_notify_serial_state_busy lge w :
  notify_req (acm w) = None ->
  acm_notify_serial_state lge w = (0, set_acm (set_pending true (acm w)) w).
Proof.
  intros H. unfold acm_notify_serial_state, bind, get_acm. now rewrite H.
Qed.

Lemma u16_small x : is_u16 x -> u16 x = x.
Proof. unfold is_u16, u16. intros. now apply Z.mod_small. Qed.

Lemma notify_fill_bytes lge a type value d0 d1 req :
  transfer_bytes (acm_cdc_notify_fill lge a type value [d0; d1] 2 req) =
    notification_bytes
      (mk_notification
         (Z.lor (Z.lor USB_DIR_IN USB_TYPE_CLASS) USB_RECIP_INTERFACE)
         (u8 type) (cpu_to_le16 value) (cpu_to_le16 (ctrl_id a))
         (cpu_to_le16 2))
      ++ [d0; d1] ++ (if lge then repeat 0 6 else []).
Proof.
  unfold acm_cdc_notify_fill, transfer_bytes, notification_bytes, le16_bytes,
    memcpy, zeroed, GS_NOTIFY_MAXPACKET, sizeof_usb_cdc_notification.
  destruct lge; cbn [req_buf req_length set_req_buf set_req_length
                     bmRequestType bNotificationType wValue wIndex wLength].
  - change (Z.to_nat 16) with 16%nat. change (Z.to_nat 8) with 8%nat.
    change (Z.to_nat 2) with 2%nat. reflexivity.
  - change (Z.to_nat (8 + 2)) with 10%nat. change (Z.to_nat 8) with 8%nat.
    change (Z.to_nat 2) with 2%nat. reflexivity.
Qed.

Lemma serial_state_request_payload lge a req :
  is_u16 (serial_state a) ->
  payload (serial_state_request lge a req) = serial_state a.
Proof.
  intros Hs. unfold is_u16 in Hs.
  unfold payload, serial_state_request, le16_bytes. rewrite notify_fill_bytes.
  unfold notification_bytes, le16_bytes, le16_of_bytes.
  cbn [bmRequestType bNotificationType wValue wIndex wLength app skipn nth].
  rewrite (Z.mod_small (serial_state a / 256) 256)
    by (split; [apply Z.div_pos; lia | apply Z.div_lt_upper_bound; lia]).
  pose proof (Z.div_mod (serial_state a) 256). lia.
Qed.

(** ** The serial-state events *)

Lemma set_serial_state_same a : set_serial_state (serial_state a) a = a.
Proof. now destruct a. Qed.

Lemma set_acm_same w : set_acm (acm w) w = w.
Proof. now destruct w. Qed.

Lemma snd_map_fst {A B : Type} (g : A -> B) (p : A * world) :
  snd (let (a, w') := p in (g a, w')) = snd p.
Proof. now destruct p. Qed.

Lemma step_change lge e w :
  is_change e ->
  step lge e w =
    snd (acm_notify_serial_state lge
           (set_acm (set_serial_state
                       (new_serial_state e (serial_state (acm w))) (acm w)) w)).
Proof.
  destruct e; cbn [is_change]; intros H; try contradiction;
    cbn [step new_serial_state];
    unfold acm_connect, acm_disconnect, acm_send_break,
      acm_send_modem_ctrl_bits, acm_send_carrier_detect,
      acm_send_ring_indicator, bind, modify_acm, ret;
    rewrite ?snd_map_fst; try reflexivity.
  now rewrite set_serial_state_same, set_acm_same.
Qed.

Lemma u16_range x : is_u16 (u16 x).
Proof. unfold is_u16, u16. apply Z.mod_pos_bound. lia. Qed.

Lemma serial_state_bit_range bit yes s : is_u16 (serial_state_bit bit yes s).
Proof. unfold serial_state_bit. destruct (negb (yes =? 0)); apply u16_range. Qed.

Lemma new_serial_state_range e s : is_u16 s -> is_u16 (new_serial_state e s).
Proof.
  destruct e; cbn [new_serial_state]; intros H;
    auto using u16_range, serial_state_bit_range.
Qed.

(** ** The request is in one place *)

Lemma one_slot_notify lge w :
  one_slot w -> one_slot (snd (acm_notify_serial_state lge w)).
Proof.
  unfold one_slot, slot_held, outstanding. intros H.
  destruct (notify_req (acm w)) as [req|] eqn:E.
  - rewrite (acm_notify_serial_state_free _ _ _ E). cbn.
    destruct H as [[_ H]|[H _]]; [|discriminate].
    apply length_zero_iff_nil in H. rewrite H.
    destruct (fst (next_ret (usb_ep_queue_ret w)) <? 0); cbn; auto.
  - rewrite (acm_notify_serial_state_busy _ _ E). cbn. now rewrite E.
Qed.

Lemma one_slot_set_serial_state s w :
  one_slot w -> one_slot (set_acm (set_serial_state s (acm w)) w).
Proof. unfold one_slot, slot_held, outstanding. now cbn. Qed.

Lemma one_slot_complete lge st w :
  one_slot w -> one_slot (udc_complete_notify lge st w).
Proof.
  intros H. unfold udc_complete_notify.
  destruct (notify_fifo w) as [|req rest] eqn:F; [assumption|].
  assert (Hrest : rest = []).
  { unfold one_slot, outstanding in H. rewrite F in H. cbn in H.
    destruct H as [[_ H]|[_ H]]; [discriminate|].
    destruct rest; [reflexivity|discriminate]. }
  subst rest.
  unfold acm_cdc_notify_complete, bind, get_acm, modify_acm, ret.
  set (w1 := set_acm _ _).
  assert (H1 : one_slot w1) by (left; now cbn).
  destruct (if negb _ then _ else _); cbn [snd].
  - rewrite snd_map_fst. now apply one_slot_notify.
  - assumption.
Qed.

Lemma one_slot_step lge e w : one_slot w -> one_slot (step lge e w).
Proof.
  intros H. destruct e;
    try (rewrite step_change by exact I;
         now apply one_slot_notify, one_slot_set_serial_state).
  now apply one_slot_complete.
Qed.

Lemma one_slot_outstanding w : one_slot w -> (outstanding w <= 1)%nat.
Proof. intros [[_ H]|[_ H]]; rewrite H; auto. Qed.

(** C1. Whatever serial-state events and completion callbacks follow one
    another, the notification request stays in exactly one place, in
    [notify_req] or queued on the endpoint, so at most one notification
    transfer is in flight. *)
Theorem notify_req_held_or_in_flight lge es w :
  one_slot w ->
  one_slot (run lge es w) /\ (outstanding (run lge es w) <= 1)%nat.
Proof.
  unfold run. revert w. induction es as [|e es IH]; intros w H; cbn [fold_left].
  - split; [assumption|now apply one_slot_outstanding].
  - apply IH. now apply one_slot_step.
Qed.

(** No event dereferences a NULL [notify_req]: acm_cdc_notify() is only
    entered with the request at hand. *)
Lemma oops_notify lge w : oops (snd (acm_notify_serial_state lge w)) = oops w.
Proof.
  destruct (notify_req (acm w)) as [req|] eqn:E.
  - now rewrite (acm_notify_serial_state_free _ _ _ E).
  - now rewrite (acm_notify_serial_state_busy _ _ E).
Qed.

Lemma oops_step lge e w : oops (step lge e w) = oops w.
Proof.
  destruct e; try (rewrite step_change by exact I; now rewrite oops_notify).
  cbn [step]. unfold udc_complete_notify.
  destruct (notify_fifo w) as [|req rest]; [reflexivity|].
  unfold acm_cdc_notify_complete, bind, get_acm, modify_acm, ret.
  destruct (if negb _ then _ else _); cbn [snd]; [|reflexivity].
  now rewrite snd_map_fst, oops_notify.
Qed.

Lemma oops_run lge es w : oops (run lge es w) = oops w.
Proof.
  unfold run. revert w. induction es as [|e es IH]; intros w; cbn [fold_left].
  - reflexivity.
  - now rewrite IH, oops_step.
Qed.

(** ** Coalescing *)

Lemma run_snoc lge es e w : run lge (es ++ [e]) w = step lge e (run lge es w).
Proof. unfold run. now rewrite fold_left_app. Qed.

Lemma busy_step lge e w :
  notify_req (acm w) = None -> is_change e ->
  step lge e w =
    set_acm (set_pending true
               (set_serial_state (new_serial_state e (serial_state (acm w)))
                  (acm w))) w.
Proof.
  intros H He. rewrite step_change by assumption.
  rewrite acm_notify_serial_state_busy by exact H.
  destruct w as [a ? ? ? ? ? ? ? ? ?]; now destruct a.
Qed.

Lemma busy_run lge cs w :
  notify_req (acm w) = None -> Forall is_change cs ->
  is_u16 (serial_state (acm w)) ->
  notify_req (acm (run lge cs w)) = None
  /\ trace (run lge cs w) = trace w
  /\ notify_fifo (run lge cs w) = notify_fifo w
  /\ is_u16 (serial_state (acm (run lge cs w))).
Proof.
  intros H Hcs. revert w H. unfold run.
  induction Hcs as [|e cs He _ IH]; intros w H Hs; cbn [fold_left].
  - auto.
  - rewrite (busy_step lge e w H He).
    destruct (IH (set_acm (set_pending true
                    (set_serial_state (new_serial_state e (serial_state (acm w)))
                       (acm w))) w)) as (A & B & C & D).
    + exact H.
    + cbn. now apply new_serial_state_range.
    + auto.
Qed.

Lemma complete_not_shutdown_pending lge st w req rest :
  notify_fifo w = req :: rest -> st <> - ESHUTDOWN -> pending (acm w) = true ->
  udc_complete_notify lge st w =
    let w1 := set_acm (set_notify_req (Some (set_req_status st req)) (acm w))
                (set_notify_fifo rest w) in
    snd (acm_notify_serial_state lge w1).
Proof.
  intros F Hst Hp. unfold udc_complete_notify. rewrite F.
  unfold acm_cdc_notify_complete, bind, get_acm, modify_acm, ret.
  cbn [acm set_notify_fifo req_status set_req_status].
  rewrite Hp. destruct (Z.eqb_spec st (- ESHUTDOWN)) as [E|E]; [contradiction|].
  cbn [negb]. now rewrite snd_map_fst.
Qed.

(** C2. While a transfer is outstanding acm_notify_serial_state() only sets
    [pending] and returns 0.  Any state changes fired meanwhile, [e] the
    last of them, submit nothing; when the transfer then completes with a
    status other than -ESHUTDOWN exactly one follow-up request is queued, and
    its payload is the [serial_state] of that moment: the value the last
    change left, [S3] when that change was acm_send_modem_ctrl_bits(S3).
    The completion of the follow-up queues nothing further. *)
Theorem coalesced_changes_one_follow_up lge w cs e st :
  slot_held w = false -> outstanding w = 1%nat ->
  is_u16 (serial_state (acm w)) ->
  Forall is_change cs -> is_change e ->
  st <> - ESHUTDOWN ->
  let w1 := run lge (cs ++ [e]) w in
  let w2 := udc_complete_notify lge st w1 in
  (forall w', slot_held w' = false ->
     acm_notify_serial_state lge w' = (0, set_acm (set_pending true (acm w')) w'))
  /\ trace w1 = trace w
  /\ pending (acm w1) = true
  /\ serial_state (acm w1) =
       new_serial_state e (serial_state (acm (run lge cs w)))
  /\ exists pkt r,
       trace w2 = trace w1 ++ [Call_usb_ep_queue EP_NOTIFY pkt r]
       /\ payload pkt = serial_state (acm w1)
       /\ (forall S3, e = Ev_send_modem_ctrl_bits S3 -> payload pkt = u16 S3)
       /\ (forall st', trace (udc_complete_notify lge st' w2) = trace w2).
Proof.
  intros Hslot Hout Hs Hcs He Hst w1 w2.
  assert (Hnone : forall w', slot_held w' = false -> notify_req (acm w') = None).
  { intros w'. unfold slot_held. now destruct (notify_req (acm w')). }
  destruct (busy_run lge cs w (Hnone _ Hslot) Hcs Hs) as (A & B & C & D).
  assert (E1 : w1 = set_acm (set_pending true
                  (set_serial_state
                     (new_serial_state e (serial_state (acm (run lge cs w))))
                     (acm (run lge cs w)))) (run lge cs w)).
  { unfold w1. rewrite run_snoc. now apply busy_step. }
  split; [|split; [|split; [|split]]].
  - intros w' H. apply acm_notify_serial_state_busy. auto.
  - rewrite E1. cbn. exact B.
  - rewrite E1. reflexivity.
  - rewrite E1. reflexivity.
  - unfold outstanding in Hout.
    destruct (notify_fifo w) as [|req0 [|? ?]] eqn:F; try discriminate.
    assert (F1 : notify_fifo w1 = [req0]) by (rewrite E1; cbn; congruence).
    assert (P1 : pending (acm w1) = true) by (rewrite E1; reflexivity).
    assert (S1 : is_u16 (serial_state (acm w1))).
    { rewrite E1. cbn. now apply new_serial_state_range. }
    unfold w2. rewrite (complete_not_shutdown_pending lge st w1 req0 [] F1 Hst P1).
    cbv zeta.
    rewrite (acm_notify_serial_state_free lge _ (set_req_status st req0))
      by reflexivity.
    cbv zeta. cbn [snd].
    eexists. eexists. split; [reflexivity|].
    assert (P : payload
                  (serial_state_request lge
                     (acm (set_acm (set_notify_req (Some (set_req_status st req0))
                                      (acm w1)) (set_notify_fifo [] w1)))
                     (set_req_status st req0)) = serial_state (acm w1)).
    { rewrite serial_state_request_payload; [reflexivity|exact S1]. }
    split; [exact P|]. split.
    + intros S3 ->. rewrite P, E1. reflexivity.
    + intros st'. unfold udc_complete_notify.
      set (pkt := serial_state_request _ _ _).
      set (r := fst (next_ret _)).
      unfold after_submit. cbn [notify_fifo set_acm set_notify_fifo app].
      destruct (r <? 0); [reflexivity|].
      unfold acm_cdc_notify_complete, bind, get_acm, modify_acm, ret.
      cbn [acm pending set_notify_req set_pending].
      destruct (negb _); reflexivity.
Qed.

(** ** Completion *)

(** C3. A completion with status -ESHUTDOWN puts the request back into
    [notify_req] and does nothing else, whatever [pending] says; a completion
    with any other status and [pending] set puts it back and queues the
    follow-up notification at once. *)
Theorem shutdown_completion_no_follow_up lge w req :
  let w' := snd (acm_cdc_notify_complete lge req w) in
  (req_status req = - ESHUTDOWN ->
     w' = set_acm (set_notify_req (Some req) (acm w)) w
     /\ notify_req (acm w') = Some req
     /\ trace w' = trace w
     /\ notify_fifo w' = notify_fifo w)
  /\ (req_status req <> - ESHUTDOWN -> pending (acm w) = true ->
     exists r,
       trace w' =
         trace w ++ [Call_usb_ep_queue EP_NOTIFY
                       (serial_state_request lge (acm w) req) r]
       /\ r = fst (next_ret (usb_ep_queue_ret w))
       /\ pending (acm w') = false).
Proof.
  cbv zeta.
  unfold acm_cdc_notify_complete, bind, get_acm, modify_acm, ret.
  split.
  - intros E. rewrite E, Z.eqb_refl. cbn [negb snd]. auto.
  - intros E Hp. rewrite Hp.
    destruct (Z.eqb_spec (req_status req) (- ESHUTDOWN)) as [E'|_];
      [contradiction|].
    cbn [negb]. rewrite snd_map_fst.
    rewrite (acm_notify_serial_state_free lge _ req) by reflexivity.
    cbv zeta. cbn [snd]. eexists. split; [|split]; reflexivity.
Qed.

(** ** Submission failure *)

(** C4. When usb_ep_queue() refuses the notification with a negative status
    [r], acm_cdc_notify() puts the request back into [notify_req], returns
    [r], leaves [pending] clear and nothing queued: the one usb_ep_queue()
    call is all it does.  With the slot occupied acm_notify_serial_state()
    returns 0. *)
Theorem failed_submission_returns_slot lge w req type value data length r rest :
  notify_req (acm w) = Some req ->
  usb_ep_queue_ret w = r :: rest ->
  r < 0 ->
  let pkt := acm_cdc_notify_fill lge (acm w) type value data length req in
  let res := acm_cdc_notify lge type value data length w in
  fst res = r
  /\ notify_req (acm (snd res)) = Some pkt
  /\ pending (acm (snd res)) = false
  /\ notify_fifo (snd res) = notify_fifo w
  /\ trace (snd res) = trace w ++ [Call_usb_ep_queue EP_NOTIFY pkt r]
  /\ (forall w', notify_req (acm w') = None ->
        fst (acm_notify_serial_state lge w') = 0).
Proof.
  intros H Q Hr. cbv zeta.
  rewrite (acm_cdc_notify_eq _ _ _ _ _ _ _ H). cbv zeta.
  rewrite Q. cbn [next_ret fst snd].
  apply Z.ltb_lt in Hr. unfold after_submit. rewrite Hr.
  cbn [acm notify_fifo trace]. repeat split; try reflexivity.
  intros w' H'. now rewrite acm_notify_serial_state_busy.
Qed.

(** ** The wire format *)

Lemma serial_state_request_wire lge a req :
  is_u8 (ctrl_id a) -> is_u16 (serial_state a) ->
  transfer_bytes (serial_state_request lge a req) =
    serial_state_wire lge (ctrl_id a) (serial_state a).
Proof.
  intros Hc Hs. unfold is_u8, is_u16 in *.
  unfold serial_state_request, serial_state_wire, le16_bytes.
  rewrite notify_fill_bytes.
  unfold notification_bytes, le16_bytes, cpu_to_le16, u16, u8.
  cbn [bmRequestType bNotificationType wValue wIndex wLength app].
  change (USB_CDC_NOTIFY_SERIAL_STATE mod 256) with USB_CDC_NOTIFY_SERIAL_STATE.
  change (0 mod 65536) with 0. change (2 mod 65536) with 2.
  rewrite (Z.mod_small (ctrl_id a) 65536) by lia.
  reflexivity.
Qed.

Lemma notify_wire lge w :
  is_u8 (ctrl_id (acm w)) -> is_u16 (serial_state (acm w)) ->
  let w' := snd (acm_notify_serial_state lge w) in
  ctrl_id (acm w') = ctrl_id (acm w)
  /\ serial_state (acm w') = serial_state (acm w)
  /\ (trace w' = trace w
      \/ exists pkt r,
           trace w' = trace w ++ [Call_usb_ep_queue EP_NOTIFY pkt r]
           /\ req_length pkt = GS_NOTIFY_MAXPACKET lge
           /\ transfer_bytes pkt =
                serial_state_wire lge (ctrl_id (acm w)) (serial_state (acm w))).
Proof.
  intros Hc Hs. cbv zeta.
  destruct (notify_req (acm w)) as [req|] eqn:E.
  - rewrite (acm_notify_serial_state_free _ _ _ E). cbv zeta. cbn [snd].
    repeat split. right. eexists. eexists. split; [reflexivity|]. split.
    + now destruct lge.
    + now apply serial_state_request_wire.
  - rewrite (acm_notify_serial_state_busy _ _ E). cbn. auto.
Qed.

(** C5, as the code has it.  Every event submits at most one request on the
    notification endpoint, and the bytes of that transfer are the 8-byte
    header (request type 0xA1: device-to-host, class, interface; code 0x20;
    value 0; index the control interface id; length 2, 16-bit fields
    little-endian), then the little-endian 16-bit [serial_state].  Without
    CONFIG_LGE_USB_G_ANDROID these 10 bytes are the whole transfer; with it
    the transfer is GS_NOTIFY_MAXPACKET = 16 bytes long, the payload being
    followed by 6 zero bytes. *)
Theorem serial_state_notification_wire lge e w :
  is_u8 (ctrl_id (acm w)) -> is_u16 (serial_state (acm w)) ->
  let w' := step lge e w in
  let c := ctrl_id (acm w) in
  let s := serial_state (acm w') in
  trace w' = trace w
  \/ exists pkt r,
       trace w' = trace w ++ [Call_usb_ep_queue EP_NOTIFY pkt r]
       /\ req_length pkt = (if lge then 16 else 10)
       /\ transfer_bytes pkt =
            [Z.lor (Z.lor USB_DIR_IN USB_TYPE_CLASS) USB_RECIP_INTERFACE;
             USB_CDC_NOTIFY_SERIAL_STATE; 0; 0; c; 0; 2; 0;
             s mod 256; s / 256]
              ++ (if lge then repeat 0 6 else [])
       /\ Z.lor (Z.lor USB_DIR_IN USB_TYPE_CLASS) USB_RECIP_INTERFACE = 0xA1
       /\ USB_CDC_NOTIFY_SERIAL_STATE = 0x20.
Proof.
  intros Hc Hs. cbv zeta.
  assert (W : forall c s, is_u8 c -> is_u16 s ->
            serial_state_wire lge c s =
              [Z.lor (Z.lor USB_DIR_IN USB_TYPE_CLASS) USB_RECIP_INTERFACE;
               USB_CDC_NOTIFY_SERIAL_STATE; 0; 0; c; 0; 2; 0;
               s mod 256; s / 256] ++ (if lge then repeat 0 6 else [])).
  { intros c s Hc' Hs'. unfold is_u8, is_u16 in *.
    unfold serial_state_wire, le16_bytes. cbn [app].
    change (0 mod 256) with 0. change ((0 / 256) mod 256) with 0.
    change (2 mod 256) with 2. change ((2 / 256) mod 256) with 0.
    rewrite (Z.mod_small c 256) by lia.
    rewrite (Z.div_small c 256) by lia.
    rewrite (Z.mod_small (s / 256) 256)
      by (split; [apply Z.div_pos; lia | apply Z.div_lt_upper_bound; lia]).
    reflexivity. }
  assert (N : forall w0, is_u8 (ctrl_id (acm w0)) ->
            is_u16 (serial_state (acm w0)) ->
            ctrl_id (acm w0) = ctrl_id (acm w) ->
            trace w0 = trace w ->
            let w' := snd (acm_notify_serial_state lge w0) in
            trace w' = trace w
            \/ exists pkt r,
                 trace w' = trace w ++ [Call_usb_ep_queue EP_NOTIFY pkt r]
                 /\ req_length pkt = (if lge then 16 else 10)
                 /\ transfer_bytes pkt =
                      [Z.lor (Z.lor USB_DIR_IN USB_TYPE_CLASS)
                         USB_RECIP_INTERFACE;
                       USB_CDC_NOTIFY_SERIAL_STATE; 0; 0; ctrl_id (acm w); 0;
                       2; 0; serial_state (acm w') mod 256;
                       serial_state (acm w') / 256]
                        ++ (if lge then repeat 0 6 else [])
                 /\ Z.lor (Z.lor USB_DIR_IN USB_TYPE_CLASS) USB_RECIP_INTERFACE
                    = 0xA1
                 /\ USB_CDC_NOTIFY_SERIAL_STATE = 0x20).
  { intros w0 Hc0 Hs0 Ec Et. cbv zeta.
    destruct (notify_wire lge w0 Hc0 Hs0) as (_ & S & [T|(pkt & r & T & L & B)]).
    - left. congruence.
    - right. exists pkt, r. rewrite T, Et, L, B, S, <- Ec.
      rewrite (W _ _ Hc0 Hs0). repeat split. }
  destruct e;
    try (rewrite step_change by exact I; apply N;
         [exact Hc | apply new_serial_state_range, Hs | reflexivity
          | reflexivity]).
  cbn [step]. unfold udc_complete_notify.
  destruct (notify_fifo w) as [|req rest]; [now left|].
  unfold acm_cdc_notify_complete, bind, get_acm, modify_acm, ret.
  destruct (if negb _ then _ else _); cbn [snd].
  - rewrite snd_map_fst. apply N; auto.
  - now left.
Qed.

(** ** Connect and disconnect *)

Lemma u16_testbit x i :
  0 <= i -> Z.testbit (u16 x) i = (i <? 16) && Z.testbit x i.
Proof.
  intros Hi. unfold u16. change 65536 with (2 ^ 16).
  destruct (Z.ltb_spec i 16).
  - now rewrite Z.mod_pow2_bits_low.
  - now rewrite Z.mod_pow2_bits_high by lia.
Qed.

Lemma is_u16_testbit_high s i : is_u16 s -> 16 <= i -> Z.testbit s i = false.
Proof.
  intros Hs Hi. rewrite <- (u16_small s Hs), u16_testbit by lia.
  destruct (Z.ltb_spec i 16); [lia|reflexivity].
Qed.

Lemma DSR_DCD_testbit i :
  0 <= i ->
  Z.testbit (Z.lor ACM_CTRL_DSR ACM_CTRL_DCD) i = (i =? 0) || (i =? 1).
Proof.
  intros Hi. change (Z.lor ACM_CTRL_DSR ACM_CTRL_DCD) with 3.
  destruct (Z.eqb_spec i 0) as [->|H0]; [reflexivity|].
  destruct (Z.eqb_spec i 1) as [->|H1]; [reflexivity|].
  apply Z.bits_above_log2; [lia|]. change (Z.log2 3) with 1. lia.
Qed.

Lemma connect_testbit s i :
  is_u16 s -> 0 <= i ->
  Z.testbit (u16 (Z.lor s (Z.lor ACM_CTRL_DSR ACM_CTRL_DCD))) i =
    (i =? 0) || (i =? 1) || Z.testbit s i.
Proof.
  intros Hs Hi. rewrite u16_testbit, Z.lor_spec, DSR_DCD_testbit by assumption.
  destruct (Z.ltb_spec i 16) as [Hlt|Hge]; cbn [andb].
  - apply orb_comm.
  - rewrite (is_u16_testbit_high s i Hs Hge).
    destruct (Z.eqb_spec i 0); [lia|]. destruct (Z.eqb_spec i 1); [lia|].
    reflexivity.
Qed.

Lemma disconnect_testbit s i :
  is_u16 s -> 0 <= i ->
  Z.testbit (u16 (Z.land s (Z.lnot (Z.lor ACM_CTRL_DSR ACM_CTRL_DCD)))) i =
    negb ((i =? 0) || (i =? 1)) && Z.testbit s i.
Proof.
  intros Hs Hi.
  rewrite u16_testbit, Z.land_spec, Z.lnot_spec, DSR_DCD_testbit by assumption.
  destruct (Z.ltb_spec i 16) as [Hlt|Hge]; cbn [andb].
  - apply andb_comm.
  - rewrite (is_u16_testbit_high s i Hs Hge). now rewrite andb_false_r.
Qed.

Lemma slot_held_true w :
  slot_held w = true -> exists req, notify_req (acm w) = Some req.
Proof. unfold slot_held. destruct (notify_req (acm w)); eauto; discriminate. Qed.

Lemma slot_held_false w : slot_held w = false -> notify_req (acm w) = None.
Proof. unfold slot_held. now destruct (notify_req (acm w)). Qed.

(** C9. acm_connect() sets the DCD and DSR bits of [serial_state] and no
    other, and with the request at hand queues a notification whose payload
    has both bits set.  acm_disconnect(), in the world connect left or in
    any later one, clears the two bits and no other; with the request at
    hand it queues a notification whose payload has both bits clear, and
    with the earlier transfer still in flight it only sets [pending], and
    the follow-up queued at the completion carries the cleared bits. *)
Theorem connect_disconnect_bits lge w :
  is_u16 (serial_state (acm w)) -> slot_held w = true -> outstanding w = 0%nat ->
  let wc := snd (acm_connect lge w) in
  (forall i, 0 <= i ->
     Z.testbit (serial_state (acm wc)) i =
       (i =? 0) || (i =? 1) || Z.testbit (serial_state (acm w)) i)
  /\ (exists pkt r,
        trace wc = trace w ++ [Call_usb_ep_queue EP_NOTIFY pkt r]
        /\ payload pkt = serial_state (acm wc)
        /\ Z.testbit (payload pkt) 0 = true /\ Z.testbit (payload pkt) 1 = true)
  /\ is_u16 (serial_state (acm wc)) /\ one_slot wc
  /\ forall w',
       is_u16 (serial_state (acm w')) -> one_slot w' ->
       let wd := snd (acm_disconnect lge w') in
       (forall i, 0 <= i ->
          Z.testbit (serial_state (acm wd)) i =
            negb ((i =? 0) || (i =? 1)) && Z.testbit (serial_state (acm w')) i)
       /\ (slot_held w' = true ->
           exists pkt r,
             trace wd = trace w' ++ [Call_usb_ep_queue EP_NOTIFY pkt r]
             /\ payload pkt = serial_state (acm wd)
             /\ Z.testbit (payload pkt) 0 = false
             /\ Z.testbit (payload pkt) 1 = false)
       /\ (slot_held w' = false ->
           trace wd = trace w' /\ pending (acm wd) = true
           /\ forall st, st <> - ESHUTDOWN ->
              exists pkt r,
                trace (udc_complete_notify lge st wd) =
                  trace wd ++ [Call_usb_ep_queue EP_NOTIFY pkt r]
                /\ payload pkt = serial_state (acm wd)
                /\ Z.testbit (payload pkt) 0 = false
                /\ Z.testbit (payload pkt) 1 = false).
Proof.
  intros Hs Hheld Hout. cbv zeta.
  assert (Ec : forall w0, snd (acm_connect lge w0) = step lge Ev_connect w0)
    by reflexivity.
  assert (Ed : forall w0, snd (acm_disconnect lge w0) = step lge Ev_disconnect w0)
    by reflexivity.
  rewrite Ec. rewrite step_change by exact I. cbn [new_serial_state].
  set (sc := u16 (Z.lor (serial_state (acm w)) (Z.lor ACM_CTRL_DSR ACM_CTRL_DCD))).
  assert (Hsc : is_u16 sc) by apply u16_range.
  assert (Bc : forall i, 0 <= i ->
            Z.testbit sc i = (i =? 0) || (i =? 1) || Z.testbit (serial_state (acm w)) i)
    by (intros; now apply connect_testbit).
  destruct (slot_held_true w Hheld) as [req Hreq].
  assert (Hone_c : one_slot (snd (acm_notify_serial_state lge
                                    (set_acm (set_serial_state sc (acm w)) w)))).
  { apply one_slot_notify, one_slot_set_serial_state. left. auto. }
  rewrite (acm_notify_serial_state_free lge _ req) in * by exact Hreq.
  cbv zeta in *. cbn [snd] in *.
  split; [exact Bc|]. split; [|split; [exact Hsc|split]].
  - eexists. eexists. split; [reflexivity|].
    rewrite serial_state_request_payload by exact Hsc.
    cbn [acm set_acm serial_state set_serial_state].
    split; [reflexivity|]. now rewrite !Bc by lia.
  - exact Hone_c.
  - intros w' Hs' Hone. rewrite Ed, step_change by exact I.
    cbn [new_serial_state].
    set (sd := u16 (Z.land (serial_state (acm w'))
                      (Z.lnot (Z.lor ACM_CTRL_DSR ACM_CTRL_DCD)))).
    assert (Hsd : is_u16 sd) by apply u16_range.
    assert (Bd : forall i, 0 <= i ->
              Z.testbit sd i =
                negb ((i =? 0) || (i =? 1)) && Z.testbit (serial_state (acm w')) i)
      by (intros; now apply disconnect_testbit).
    set (w1 := set_acm (set_serial_state sd (acm w')) w').
    assert (S1 : forall x, serial_state (acm (snd (acm_notify_serial_state lge x)))
                           = serial_state (acm x)).
    { intros x. destruct (notify_req (acm x)) as [rq|] eqn:E.
      - now rewrite (acm_notify_serial_state_free _ _ _ E).
      - now rewrite (acm_notify_serial_state_busy _ _ E). }
    split; [|split].
    + intros i Hi. rewrite S1. now apply Bd.
    + intros H. destruct (slot_held_true w' H) as [rq Hrq].
      rewrite (acm_notify_serial_state_free lge w1 rq) by exact Hrq.
      cbv zeta. cbn [snd]. eexists. eexists. split; [reflexivity|].
      rewrite serial_state_request_payload by exact Hsd.
      split; [reflexivity|].
      change (serial_state (acm w1)) with sd. now rewrite !Bd by lia.
    + intros H. apply slot_held_false in H.
      rewrite (acm_notify_serial_state_busy lge w1) by exact H. cbn [snd].
      split; [reflexivity|]. split; [reflexivity|].
      intros st Hst.
      destruct Hone as [[Hh _]|[_ Hf]];
        [unfold slot_held in Hh; rewrite H in Hh; discriminate|].
      unfold outstanding in Hf.
      destruct (notify_fifo w') as [|rq [|? ?]] eqn:F; try discriminate.
      rewrite (complete_not_shutdown_pending lge st _ rq [])
        by (cbn; auto).
      cbv zeta.
      rewrite (acm_notify_serial_state_free lge _ (set_req_status st rq))
        by reflexivity.
      cbv zeta. cbn [snd]. eexists. eexists. split; [reflexivity|].
      rewrite serial_state_request_payload by exact Hsd.
      split; [reflexivity|].
      change (Z.testbit sd 0 = false /\ Z.testbit sd 1 = false).
      now rewrite !Bd by lia.
Qed.

(** ** Line coding *)

Lemma acm_complete_set_line_coding_eq req w :
  acm_complete_set_line_coding req w =
    if req_status req =? 0
    then
      if req_actual req =? sizeof_usb_cdc_line_coding
      then (tt, set_acm (set_port_line_coding
                           (line_coding_of_bytes (req_buf req)) (acm w)) w)
      else (tt, set_trace (trace w ++ [Call_usb_ep_set_halt EP0]) w)
    else (tt, w).
Proof.
  unfold acm_complete_set_line_coding.
  destruct (req_status req =? 0); cbn [negb]; [|reflexivity].
  destruct (req_actual req =? sizeof_usb_cdc_line_coding); reflexivity.
Qed.

(** C10. When the data stage of SET_LINE_CODING completes with a status
    other than 0 the handler returns at once: the world is as it was, so
    [port_line_coding] is unchanged and no call, usb_ep_set_halt() included,
    was made. *)
Theorem set_line_coding_error_dropped w req :
  req_status req <> 0 ->
  acm_complete_set_line_coding req w = (tt, w)
  /\ port_line_coding (acm (snd (acm_complete_set_line_coding req w))) =
       port_line_coding (acm w)
  /\ trace (snd (acm_complete_set_line_coding req w)) = trace w.
Proof.
  intros Hst. unfold acm_complete_set_line_coding.
  destruct (Z.eqb_spec (req_status req) 0); [contradiction|].
  cbn [negb]. repeat split.
Qed.

Lemma le32_round_trip b0 b1 b2 b3 :
  is_u8 b0 -> is_u8 b1 -> is_u8 b2 -> is_u8 b3 ->
  le32_bytes (le32_of_bytes [b0; b1; b2; b3]) = [b0; b1; b2; b3].
Proof.
  unfold is_u8, le32_bytes, le32_of_bytes. cbn [nth]. intros H0 H1 H2 H3.
  repeat f_equal; Z.to_euclidean_division_equations; lia.
Qed.

Lemma line_coding_round_trip_bytes data :
  length data = 7%nat -> Forall is_u8 data ->
  line_coding_bytes (line_coding_of_bytes data) = data.
Proof.
  intros Hl Hd.
  destruct data as [|b0 [|b1 [|b2 [|b3 [|b4 [|b5 [|b6 [|? ?]]]]]]]];
    try discriminate.
  repeat match goal with H : Forall _ (_ :: _) |- _ => inversion_clear H end.
  unfold line_coding_bytes, line_coding_of_bytes.
  cbn [dwDTERate bCharFormat bParityType bDataBits nth].
  change (le32_of_bytes [b0; b1; b2; b3; b4; b5; b6])
    with (le32_of_bytes [b0; b1; b2; b3]).
  now rewrite le32_round_trip.
Qed.

Lemma acm_setup_get_line_coding w L :
  0 <= L ->
  acm_setup (GET_LINE_CODING (ctrl_id (acm w)) L) w =
    let value := Z.min L sizeof_usb_cdc_line_coding in
    let req :=
      set_req_length value
        (set_req_zero false
           (set_req_buf
              (memcpy (req_buf (cdev_req w)) 0
                 (line_coding_bytes (port_line_coding (acm w)))
                 (Z.to_nat value))
              (cdev_req w))) in
    (fst (next_ret (usb_ep_queue_ret w)),
     after_ep0_queue (acm w) (ep0_driver_data w) req w).
Proof.
  intros HL. unfold acm_setup, acm_setup_switch, GET_LINE_CODING, bind, get_acm.
  cbn [ctrl_bRequestType ctrl_bRequest ctrl_wValue ctrl_wIndex ctrl_wLength].
  change (request_code _ _ =? class_interface_request USB_DIR_OUT _) with false.
  change (request_code _ _ =? class_interface_request USB_DIR_IN _) with true.
  cbv iota. rewrite Z.eqb_refl. cbn [negb].
  unfold modify_cdev_req, ret, get_cdev_req, usb_ep_queue.
  assert (Hv : (Z.min L sizeof_usb_cdc_line_coding >=? 0) = true).
  { apply Z.geb_le. unfold sizeof_usb_cdc_line_coding. lia. }
  rewrite Hv. cbv zeta. unfold after_ep0_queue.
  destruct w as [a ? ? ? ? ? ? qr ? ?]. cbn.
  destruct (next_ret qr) as [r rest]. reflexivity.
Qed.

Lemma acm_setup_set_line_coding w :
  acm_setup (SET_LINE_CODING (ctrl_id (acm w)) sizeof_usb_cdc_line_coding) w =
    let req :=
      set_req_length sizeof_usb_cdc_line_coding
        (set_req_zero false
           (set_req_complete acm_complete_set_line_coding_cb (cdev_req w))) in
    (fst (next_ret (usb_ep_queue_ret w)), after_ep0_queue (acm w) true req w).
Proof.
  unfold acm_setup, acm_setup_switch, SET_LINE_CODING, bind, get_acm.
  cbn [ctrl_bRequestType ctrl_bRequest ctrl_wValue ctrl_wIndex ctrl_wLength].
  change (request_code _ _ =? class_interface_request USB_DIR_OUT
                                USB_CDC_REQ_SET_LINE_CODING) with true.
  cbv iota. rewrite !Z.eqb_refl. cbn [negb orb].
  unfold modify_cdev_req, ret, get_cdev_req, usb_ep_queue, after_ep0_queue.
  destruct w as [a ? ? ? ? ? ? qr ? ?]. cbn.
  destruct (next_ret qr) as [r rest]. reflexivity.
Qed.

Lemma firstn_memcpy_0 (dst src : list Z) n :
  (n <= length src)%nat -> firstn n (memcpy dst 0 src n) = firstn n src.
Proof.
  intros H. unfold memcpy. cbn [firstn app Nat.add].
  rewrite firstn_app, firstn_firstn, Nat.min_id, length_firstn.
  rewrite (Nat.min_l _ _ H), Nat.sub_diag. cbn [firstn]. apply app_nil_r.
Qed.

Lemma line_coding_of_bytes_app data rest :
  length data = 7%nat ->
  line_coding_of_bytes (data ++ rest) = line_coding_of_bytes data.
Proof.
  intros Hl.
  destruct data as [|b0 [|b1 [|b2 [|b3 [|b4 [|b5 [|b6 [|? ?]]]]]]]];
    try discriminate.
  reflexivity.
Qed.

Lemma line_coding_bytes_of_bytes data :
  Forall is_u8 data -> (7 <= length data)%nat ->
  line_coding_bytes (line_coding_of_bytes data) = firstn 7 data.
Proof.
  intros Hd Hl.
  assert (L7 : length (firstn 7 data) = 7%nat)
    by (rewrite length_firstn; lia).
  rewrite <- (firstn_skipn 7 data) at 1.
  rewrite (line_coding_of_bytes_app _ _ L7).
  apply line_coding_round_trip_bytes; [exact L7|].
  apply Forall_forall. intros x Hx.
  rewrite Forall_forall in Hd. apply Hd.
  rewrite <- (firstn_skipn 7 data). apply in_or_app. now left.
Qed.

(** C6. When the data stage of SET_LINE_CODING completes with status 0, an
    actual length other than 7 halts the endpoint and leaves the world, with
    [port_line_coding], as it was; an actual length of 7 stores the received
    bytes in [port_line_coding] and halts nothing: the seven bytes of the
    stored structure, as it lies in memory, are the first seven bytes of the
    request buffer, so the rate is their first four read little-endian and
    the stop bits, parity and data bits are bytes 4, 5 and 6. *)
Theorem set_line_coding_length_checked w req :
  req_status req = 0 ->
  (req_actual req <> sizeof_usb_cdc_line_coding ->
     acm_complete_set_line_coding req w =
       (tt, set_trace (trace w ++ [Call_usb_ep_set_halt EP0]) w)
     /\ port_line_coding (acm (snd (acm_complete_set_line_coding req w))) =
          port_line_coding (acm w))
  /\ (req_actual req = sizeof_usb_cdc_line_coding ->
     acm_complete_set_line_coding req w =
       (tt, set_acm (set_port_line_coding (line_coding_of_bytes (req_buf req))
                       (acm w)) w)
     /\ port_line_coding (acm (snd (acm_complete_set_line_coding req w))) =
          line_coding_of_bytes (req_buf req)
     /\ trace (snd (acm_complete_set_line_coding req w)) = trace w
     /\ (let c := port_line_coding
                     (acm (snd (acm_complete_set_line_coding req w))) in
         dwDTERate c =
           nth 0 (req_buf req) 0 + 256 * nth 1 (req_buf req) 0
           + 65536 * nth 2 (req_buf req) 0
           + 16777216 * nth 3 (req_buf req) 0
         /\ bCharFormat c = nth 4 (req_buf req) 0
         /\ bParityType c = nth 5 (req_buf req) 0
         /\ bDataBits c = nth 6 (req_buf req) 0)
     /\ (Forall is_u8 (req_buf req) -> (7 <= length (req_buf req))%nat ->
         line_coding_bytes
           (port_line_coding (acm (snd (acm_complete_set_line_coding req w)))) =
         firstn 7 (req_buf req)))
  /\ sizeof_usb_cdc_line_coding = 7.
Proof.
  intros Hst. unfold acm_complete_set_line_coding. rewrite Hst.
  cbn [Z.eqb negb]. split; [|split; [|reflexivity]].
  - intros Ha.
    destruct (Z.eqb_spec (req_actual req) sizeof_usb_cdc_line_coding);
      [contradiction|].
    cbn [negb]. split; reflexivity.
  - intros Ha. rewrite Ha. cbn [negb].
    do 3 (split; [reflexivity|]).
    split; [cbv zeta; repeat split|].
    intros Hd Hl.
    change (port_line_coding (acm (snd (modify_acm
              (set_port_line_coding (line_coding_of_bytes (req_buf req))) w))))
      with (line_coding_of_bytes (req_buf req)).
    exact (line_coding_bytes_of_bytes _ Hd Hl).
Qed.

(** C7. A SET_LINE_CODING for the control interface whose 7-byte data stage
    completes with status 0, then a GET_LINE_CODING for the control
    interface: the response queued on ep0 is the first min(wLength, 7) of
    those 7 bytes.  In any world GET_LINE_CODING queues min(wLength, 7)
    bytes of the current [port_line_coding] and leaves [f_acm] as it was. *)
Theorem line_coding_round_trip w data L :
  length data = 7%nat -> Forall is_u8 data -> 0 <= L ->
  let c := ctrl_id (acm w) in
  let w1 := snd (acm_setup (SET_LINE_CODING c 7) w) in
  let w2 := udc_complete_ep0 0 7 data w1 in
  let res := acm_setup (GET_LINE_CODING c L) w2 in
  (exists pkt,
     trace (snd res) = trace w2 ++ [Call_usb_ep_queue EP0 pkt (fst res)]
     /\ req_length pkt = Z.min L 7
     /\ transfer_bytes pkt = firstn (Z.to_nat (Z.min L 7)) data
     /\ acm (snd res) = acm w2)
  /\ forall w',
       let res' := acm_setup (GET_LINE_CODING (ctrl_id (acm w')) L) w' in
       exists pkt,
         trace (snd res') = trace w' ++ [Call_usb_ep_queue EP0 pkt (fst res')]
         /\ req_length pkt = Z.min L 7
         /\ transfer_bytes pkt =
              firstn (Z.to_nat (Z.min L 7))
                (line_coding_bytes (port_line_coding (acm w')))
         /\ acm (snd res') = acm w'.
Proof.
  intros Hl Hd HL. cbv zeta.
  assert (G : forall w',
            let res' := acm_setup (GET_LINE_CODING (ctrl_id (acm w')) L) w' in
            exists pkt,
              trace (snd res') = trace w' ++ [Call_usb_ep_queue EP0 pkt (fst res')]
              /\ req_length pkt = Z.min L 7
              /\ transfer_bytes pkt =
                   firstn (Z.to_nat (Z.min L 7))
                     (line_coding_bytes (port_line_coding (acm w')))
              /\ acm (snd res') = acm w').
  { intros w'. cbv zeta. rewrite (acm_setup_get_line_coding w' L HL).
    cbv zeta. cbn [fst snd]. eexists. split; [reflexivity|].
    split; [reflexivity|]. split; [|reflexivity].
    unfold transfer_bytes. cbn [req_buf req_length set_req_length set_req_zero
                                set_req_buf].
    apply firstn_memcpy_0.
    change (length (line_coding_bytes (port_line_coding (acm w')))) with 7%nat.
    unfold sizeof_usb_cdc_line_coding. lia. }
  split; [|exact G].
  change (SET_LINE_CODING (ctrl_id (acm w)) 7)
    with (SET_LINE_CODING (ctrl_id (acm w)) sizeof_usb_cdc_line_coding).
  rewrite (acm_setup_set_line_coding w). cbv zeta. cbn [snd].
  set (w1 := after_ep0_queue _ _ _ _).
  assert (E2 : udc_complete_ep0 0 7 data w1 =
               set_acm (set_port_line_coding (line_coding_of_bytes data) (acm w))
                 (set_cdev_req
                    (set_req_status 0
                       (set_req_actual 7
                          (set_req_buf
                             (memcpy (req_buf (cdev_req w1)) 0 data 7)
                             (cdev_req w1)))) w1)).
  { unfold udc_complete_ep0. cbv zeta. change (Z.to_nat 7) with 7%nat.
    set (req := set_req_status 0 _).
    change (req_complete req) with acm_complete_set_line_coding_cb. cbv iota.
    rewrite acm_complete_set_line_coding_eq.
    change (req_status req =? 0) with true.
    change (req_actual req =? sizeof_usb_cdc_line_coding) with true.
    cbv iota. cbn [snd].
    change (acm (set_cdev_req req w1)) with (acm w).
    do 2 f_equal.
    change (req_buf req) with (memcpy (req_buf (cdev_req w1)) 0 data 7).
    unfold memcpy. rewrite firstn_O. cbn [app].
    rewrite (firstn_all2 data) by (rewrite Hl; apply Nat.le_refl).
    now rewrite line_coding_of_bytes_app. }
  rewrite E2. set (w2 := set_acm _ _).
  change (ctrl_id (acm w)) with (ctrl_id (acm w2)).
  destruct (G w2) as (pkt & T & Len & B & A).
  exists pkt. repeat split; try assumption.
  rewrite B. unfold w2. cbn [acm set_acm port_line_coding set_port_line_coding].
  now rewrite line_coding_round_trip_bytes.
Qed.

(** ** Activation of the data interface *)

Lemma acm_port_disconnect_acm w : acm (snd (acm_port_disconnect w)) = acm w.
Proof.
  unfold acm_port_disconnect, bind, get_acm, gacm_client_port_num, log, ret.
  now destruct (transport (acm w)).
Qed.

Lemma acm_port_disconnect_script w :
  config_ep_by_speed_ret (snd (acm_port_disconnect w)) = config_ep_by_speed_ret w.
Proof.
  unfold acm_port_disconnect, bind, get_acm, gacm_client_port_num, log, ret.
  now destruct (transport (acm w)).
Qed.

(** When config_ep_by_speed() fails for the IN endpoint, or succeeds for it
    and fails for the OUT endpoint, acm_set_alt() on the data interface
    clears both descriptor pointers and returns -EINVAL. *)
Lemma acm_set_alt_data_bind_failure w alt r rest :
  data_id (acm w) <> ctrl_id (acm w) ->
  desc (port_in (port (acm w))) = None \/ desc (port_out (port (acm w))) = None ->
  r <> 0 ->
  config_ep_by_speed_ret w = r :: rest
  \/ config_ep_by_speed_ret w = 0 :: r :: rest ->
  let res := acm_set_alt (data_id (acm w)) alt w in
  fst res = - EINVAL
  /\ desc (port_in (port (acm (snd res)))) = None
  /\ desc (port_out (port (acm (snd res)))) = None.
Proof.
  intros Hid Hdesc Hr Hscript. cbv zeta.
  destruct w as [a ? ? ? ? ? ? ? script ?].
  destruct a as [p c d ? tr ? ? ? ? ? ?].
  destruct p as [pin pout ?]. destruct pin as [din descin].
  destruct pout as [dout descout].
  cbn [acm port port_in port_out desc data_id ctrl_id config_ep_by_speed_ret]
    in *.
  apply Z.eqb_neq in Hid, Hr.
  unfold acm_set_alt, acm_port_disconnect, acm_port_connect, config_ep_by_speed,
    gacm_client_port_num, bind, get_acm, modify_acm, log, when, ret.
  cbn [acm port port_in port_out desc data_id ctrl_id config_ep_by_speed_ret
       driver_data transport].
  rewrite Hid, Z.eqb_refl.
  destruct Hscript as [-> | ->], din, tr, Hdesc as [-> | ->];
    try destruct descin; try destruct descout;
    cbn [next_ret]; cbn; rewrite ?Hr; cbn; repeat split.
Qed.

(** ** Worked instances *)

(** C8, where the code departs from it.  On an instance whose transport is
    neither TTY nor SMD, acm_port_connect() answers -ENODEV and connects
    nothing, yet acm_set_alt() on the data interface drops that result and
    returns 0. *)
Theorem acm_set_alt_drops_connect_failure :
  let w := bound_world (USB_GADGET_XPORT_OTHER 0) [] in
  let res := acm_set_alt (data_id (acm w)) 0 w in
  fst res = 0
  /\ trace (snd res) =
       [Call_config_ep_by_speed EP_IN 0; Call_config_ep_by_speed EP_OUT 0]
  /\ fst (acm_port_connect (snd res)) = - ENODEV.
Proof. cbv zeta. repeat split. Qed.

Lemma is_u16_0 : is_u16 0.
Proof. unfold is_u16. lia. Qed.

Lemma is_u8_0 : is_u8 0.
Proof. unfold is_u8. lia. Qed.

Lemma notify_req_held_or_in_flight_witness :
  one_slot (bound_world USB_GADGET_XPORT_TTY [0; -5])
  /\ one_slot (run true [Ev_connect; Ev_send_break 1; Ev_notify_complete 0;
                         Ev_disconnect; Ev_notify_complete (-108)]
                 (bound_world USB_GADGET_XPORT_TTY [0; -5])).
Proof.
  assert (H : one_slot (bound_world USB_GADGET_XPORT_TTY [0; -5]))
    by (left; split; reflexivity).
  split; [exact H|].
  exact (proj1 (notify_req_held_or_in_flight true _ _ H)).
Defined.

Lemma coalesced_changes_one_follow_up_witness :
  slot_held (connected_world false) = false
  /\ outstanding (connected_world false) = 1%nat
  /\ exists pkt r,
       trace (udc_complete_notify false 0
                (run false [Ev_send_modem_ctrl_bits 1; Ev_send_modem_ctrl_bits 2;
                            Ev_send_modem_ctrl_bits 4] (connected_world false))) =
         trace (connected_world false) ++ [Call_usb_ep_queue EP_NOTIFY pkt r]
       /\ payload pkt = 4.
Proof.
  split; [reflexivity|]. split; [reflexivity|].
  destruct (coalesced_changes_one_follow_up false (connected_world false)
              [Ev_send_modem_ctrl_bits 1; Ev_send_modem_ctrl_bits 2]
              (Ev_send_modem_ctrl_bits 4) 0)
    as (_ & T & _ & _ & pkt & r & T2 & _ & P & _).
  - reflexivity.
  - reflexivity.
  - unfold is_u16. cbn. lia.
  - repeat constructor.
  - exact I.
  - discriminate.
  - exists pkt, r. split.
    + rewrite <- T. exact T2.
    + exact (P 4 eq_refl).
Defined.

Lemma shutdown_completion_no_follow_up_witness :
  let w := set_acm (set_pending true (acm (connected_world true)))
             (connected_world true) in
  let req := set_req_status (- ESHUTDOWN) bound_notify_req in
  pending (acm w) = true
  /\ trace (snd (acm_cdc_notify_complete true req w)) = trace w
  /\ notify_req (acm (snd (acm_cdc_notify_complete true req w))) = Some req.
Proof.
  cbv zeta. split; [reflexivity|].
  destruct (shutdown_completion_no_follow_up true
              (set_acm (set_pending true (acm (connected_world true)))
                 (connected_world true))
              (set_req_status (- ESHUTDOWN) bound_notify_req)) as [H _].
  destruct (H eq_refl) as (_ & N & T & _). split; assumption.
Defined.

Lemma failed_submission_returns_slot_witness :
  let w := bound_world USB_GADGET_XPORT_TTY [-11] in
  notify_req (acm w) = Some bound_notify_req
  /\ fst (acm_cdc_notify false USB_CDC_NOTIFY_SERIAL_STATE 0 [3; 0] 2 w) = -11
  /\ slot_held (snd (acm_cdc_notify false USB_CDC_NOTIFY_SERIAL_STATE 0 [3; 0] 2 w))
     = true.
Proof.
  cbv zeta. split; [reflexivity|].
  destruct (failed_submission_returns_slot false
              (bound_world USB_GADGET_XPORT_TTY [-11]) bound_notify_req
              USB_CDC_NOTIFY_SERIAL_STATE 0 [3; 0] 2 (-11) [])
    as (R & N & _).
  - reflexivity.
  - reflexivity.
  - lia.
  - split; [exact R|]. unfold slot_held. now rewrite N.
Defined.

(** C5 as stated fails in a build with CONFIG_LGE_USB_G_ANDROID: the
    transfer acm_connect() queues there is 16 bytes long, not the 8-byte
    header followed by exactly the 2-byte payload. *)
Lemma lge_notification_is_padded :
  exists pkt,
    trace (snd (acm_connect true (bound_world USB_GADGET_XPORT_TTY []))) =
      [Call_usb_ep_queue EP_NOTIFY pkt 0]
    /\ transfer_bytes pkt = [0xA1; 0x20; 0; 0; 0; 0; 2; 0; 3; 0; 0; 0; 0; 0; 0; 0]
    /\ transfer_bytes pkt <> [0xA1; 0x20; 0; 0; 0; 0; 2; 0] ++ le16_bytes 3.
Proof.
  eexists. split; [reflexivity|]. split; [reflexivity|]. discriminate.
Qed.

Lemma serial_state_notification_wire_witness :
  let w := bound_world USB_GADGET_XPORT_TTY [] in
  is_u8 (ctrl_id (acm w)) /\ is_u16 (serial_state (acm w))
  /\ (trace (step true Ev_connect w) = trace w
      \/ exists pkt r,
           trace (step true Ev_connect w) =
             trace w ++ [Call_usb_ep_queue EP_NOTIFY pkt r]
           /\ req_length pkt = 16).
Proof.
  cbv zeta. split; [exact is_u8_0|]. split; [exact is_u16_0|].
  destruct (serial_state_notification_wire true Ev_connect
              (bound_world USB_GADGET_XPORT_TTY []) is_u8_0 is_u16_0)
    as [T|(pkt & r & T & L & _)].
  - left. exact T.
  - right. exists pkt, r. split; assumption.
Defined.

Lemma set_line_coding_length_checked_witness :
  let short := mk_request [0; 194; 1; 0; 0] 7 false
                 acm_complete_set_line_coding_cb 0 5 in
  let full := mk_request [0; 194; 1; 0; 0; 0; 8] 7 false
                acm_complete_set_line_coding_cb 0 7 in
  let w := bound_world USB_GADGET_XPORT_TTY [] in
  (req_status short = 0
   /\ acm_complete_set_line_coding short w =
        (tt, set_trace (trace w ++ [Call_usb_ep_set_halt EP0]) w))
  /\ (req_status full = 0
      /\ Forall is_u8 (req_buf full)
      /\ port_line_coding (acm (snd (acm_complete_set_line_coding full w))) =
           mk_line_coding 115200 0 0 8
      /\ line_coding_bytes
           (port_line_coding (acm (snd (acm_complete_set_line_coding full w)))) =
         line_coding_115200_8N1).
Proof.
  cbv zeta. split.
  - split; [reflexivity|].
    destruct (set_line_coding_length_checked
                (bound_world USB_GADGET_XPORT_TTY [])
                (mk_request [0; 194; 1; 0; 0] 7 false
                   acm_complete_set_line_coding_cb 0 5) eq_refl) as (H & _).
    apply H. discriminate.
  - split; [reflexivity|].
    assert (Hd : Forall is_u8 [0; 194; 1; 0; 0; 0; 8])
      by (repeat constructor; unfold is_u8; lia).
    split; [exact Hd|].
    destruct (set_line_coding_length_checked
                (bound_world USB_GADGET_XPORT_TTY [])
                (mk_request [0; 194; 1; 0; 0; 0; 8] 7 false
                   acm_complete_set_line_coding_cb 0 7) eq_refl)
      as (_ & H & _).
    destruct (H eq_refl) as (_ & P & _ & _ & B).
    split; [rewrite P; reflexivity|].
    apply B; [exact Hd | cbn; lia].
Defined.

Lemma set_line_coding_error_dropped_witness :
  let req := mk_request [0; 194; 1; 0; 0; 0; 8] 7 false
               acm_complete_set_line_coding_cb (-104) 7 in
  let w := bound_world USB_GADGET_XPORT_TTY [] in
  req_status req <> 0 /\ acm_complete_set_line_coding req w = (tt, w).
Proof.
  cbv zeta.
  assert (H : req_status (mk_request [0; 194; 1; 0; 0; 0; 8] 7 false
                            acm_complete_set_line_coding_cb (-104) 7) <> 0)
    by discriminate.
  split; [exact H|].
  exact (proj1 (set_line_coding_error_dropped
                  (bound_world USB_GADGET_XPORT_TTY []) _ H)).
Defined.

Lemma line_coding_round_trip_witness :
  let w := bound_world USB_GADGET_XPORT_TTY [] in
  let w2 := udc_complete_ep0 0 7 line_coding_115200_8N1
              (snd (acm_setup (SET_LINE_CODING 0 7) w)) in
  length line_coding_115200_8N1 = 7%nat
  /\ Forall is_u8 line_coding_115200_8N1
  /\ exists pkt,
       trace (snd (acm_setup (GET_LINE_CODING 0 255) w2)) =
         trace w2 ++ [Call_usb_ep_queue EP0 pkt
                        (fst (acm_setup (GET_LINE_CODING 0 255) w2))]
       /\ transfer_bytes pkt = line_coding_115200_8N1.
Proof.
  cbv zeta.
  assert (Hd : Forall is_u8 line_coding_115200_8N1)
    by (repeat constructor; unfold is_u8; lia).
  split; [reflexivity|]. split; [exact Hd|].
  destruct (line_coding_round_trip (bound_world USB_GADGET_XPORT_TTY [])
              line_coding_115200_8N1 255 eq_refl Hd ltac:(lia))
    as ((pkt & T & _ & B & _) & _).
  exists pkt. split; [exact T|exact B].
Defined.

Lemma connect_disconnect_bits_witness :
  let w := bound_world USB_GADGET_XPORT_TTY [] in
  is_u16 (serial_state (acm w)) /\ slot_held w = true /\ outstanding w = 0%nat
  /\ Z.testbit (serial_state (acm (snd (acm_connect false w)))) 0 = true
  /\ Z.testbit (serial_state (acm (snd (acm_connect false w)))) 1 = true
  /\ Z.testbit
       (serial_state
          (acm (snd (acm_disconnect false (snd (acm_connect false w)))))) 0
     = false.
Proof.
  cbv zeta. split; [exact is_u16_0|]. split; [reflexivity|].
  split; [reflexivity|].
  destruct (connect_disconnect_bits false (bound_world USB_GADGET_XPORT_TTY [])
              is_u16_0 eq_refl eq_refl) as (Bc & _ & Hs & Hone & D).
  destruct (D _ Hs Hone) as (Bd & _).
  rewrite (Bc 0), (Bc 1), (Bd 0) by lia. repeat split.
Defined.

(** * Further properties of the driver *)

(** ** The host catches up *)

Lemma host_view_snoc init t c :
  host_view init (t ++ [c]) =
    match c with
    | Call_usb_ep_queue EP_NOTIFY req r =>
        if r <? 0 then host_view init t else payload req
    | _ => host_view init t
    end.
Proof.
  revert init. induction t as [|c' t IH]; intros init.
  - cbn. destruct c as [[] req r| | | | | | | | |]; reflexivity.
  - cbn [app host_view].
    destruct c' as [[] req' r'| | | | | | | | |]; apply IH.
Qed.

Lemma next_ret_nonneg l :
  Forall (fun r => 0 <= r) l ->
  0 <= fst (next_ret l) /\ Forall (fun r => 0 <= r) (snd (next_ret l)).
Proof.
  intros H. destruct H as [|r l Hr Hl]; cbn; split; auto; lia.
Qed.

Lemma one_slot_set_pending b w :
  one_slot w -> one_slot (set_acm (set_pending b (acm w)) w).
Proof. unfold one_slot, slot_held, outstanding. now cbn. Qed.

Lemma in_sync_notify lge init w :
  one_slot w -> is_u16 (serial_state (acm w)) ->
  Forall (fun r => 0 <= r) (usb_ep_queue_ret w) ->
  in_sync init (snd (acm_notify_serial_state lge w)).
Proof.
  intros Hone Hs Hq.
  destruct (notify_req (acm w)) as [req|] eqn:E.
  - pose proof (one_slot_notify lge w Hone) as Hone'.
    rewrite (acm_notify_serial_state_free _ _ _ E) in *. cbv zeta in *.
    cbn [snd] in *.
    destruct (next_ret_nonneg _ Hq) as [Hr Hrest].
    assert (Er : (fst (next_ret (usb_ep_queue_ret w)) <? 0) = false)
      by (apply Z.ltb_ge; exact Hr).
    unfold in_sync. split; [exact Hone'|].
    unfold after_submit, slot_held. rewrite Er.
    cbn [acm serial_state set_notify_req set_pending notify_req pending
         usb_ep_queue_ret trace].
    split; [exact Hs|]. split; [exact Hrest|]. split; [discriminate|].
    intros _. rewrite host_view_snoc, Er.
    now apply serial_state_request_payload.
  - rewrite (acm_notify_serial_state_busy _ _ E). cbn [snd].
    unfold in_sync. split; [now apply one_slot_set_pending|].
    unfold slot_held. cbn. rewrite E.
    split; [exact Hs|]. split; [exact Hq|]. split; discriminate.
Qed.

Lemma in_sync_complete lge init st w :
  in_sync init w -> st <> - ESHUTDOWN ->
  in_sync init (udc_complete_notify lge st w)
  /\ pending (acm (udc_complete_notify lge st w)) = false
  /\ serial_state (acm (udc_complete_notify lge st w)) = serial_state (acm w).
Proof.
  intros (Hone & Hs & Hq & Hp & Hv) Hst. unfold udc_complete_notify.
  destruct (notify_fifo w) as [|req rest] eqn:F.
  - split; [unfold in_sync; auto|]. split; [|reflexivity].
    apply Hp. destruct Hone as [[H _]|[_ H]]; [exact H|].
    unfold outstanding in H. rewrite F in H. discriminate.
  - assert (Hrest : rest = []).
    { destruct Hone as [[_ H]|[_ H]]; unfold outstanding in H; rewrite F in H;
        [discriminate|]. destruct rest; [reflexivity|discriminate]. }
    subst rest.
    unfold acm_cdc_notify_complete, bind, get_acm, modify_acm, ret.
    cbn [req_status set_req_status acm set_notify_fifo].
    destruct (Z.eqb_spec st (- ESHUTDOWN)) as [|_]; [contradiction|].
    cbn [negb].
    set (w1 := set_acm _ _).
    assert (H1 : one_slot w1) by (left; split; reflexivity).
    destruct (pending (acm w)) eqn:P.
    + rewrite snd_map_fst.
      pose proof (in_sync_notify lge init w1 H1 Hs Hq) as Hsync.
      split; [exact Hsync|].
      rewrite (acm_notify_serial_state_free lge w1 (set_req_status st req))
        by reflexivity.
      split; reflexivity.
    + cbn [snd]. split; [|split; [exact P|reflexivity]].
      unfold in_sync. split; [exact H1|].
      split; [exact Hs|]. split; [exact Hq|]. split; [intros _; exact P|].
      intros _. now apply Hv.
Qed.

Lemma in_sync_step lge init e w :
  in_sync init w -> no_shutdown e -> in_sync init (step lge e w).
Proof.
  intros Hsync He. pose proof Hsync as (Hone & Hs & Hq & Hp & Hv).
  destruct e;
    try (rewrite step_change by exact I; apply in_sync_notify;
         [ now apply one_slot_set_serial_state
         | apply new_serial_state_range, Hs
         | exact Hq ]).
  cbn [step]. now apply in_sync_complete.
Qed.

Lemma in_sync_run lge init es w :
  in_sync init w -> Forall no_shutdown es -> in_sync init (run lge es w).
Proof.
  intros Hsync Hes. revert w Hsync. unfold run.
  induction Hes as [|e es He _ IH]; intros w Hsync; cbn [fold_left].
  - exact Hsync.
  - apply IH. now apply in_sync_step.
Qed.

(** X1. When usb_ep_queue() accepts every notification and no completion
    carries -ESHUTDOWN, the host is never left behind: after any events,
    whenever nothing is pending the last notification queued carries the
    current [serial_state], and one more completion always brings that
    about. *)
Theorem host_view_catches_up lge init es st w :
  in_sync init w -> Forall no_shutdown es -> st <> - ESHUTDOWN ->
  let w1 := run lge es w in
  let w2 := udc_complete_notify lge st w1 in
  (pending (acm w1) = false -> host_view init (trace w1) = serial_state (acm w1))
  /\ pending (acm w2) = false
  /\ serial_state (acm w2) = serial_state (acm w1)
  /\ host_view init (trace w2) = serial_state (acm w1).
Proof.
  intros Hsync Hes Hst. cbv zeta.
  pose proof (in_sync_run lge init es w Hsync Hes) as H1.
  destruct (in_sync_complete lge init st _ H1 Hst) as (H2 & P2 & S2).
  split; [apply H1|]. split; [exact P2|]. split; [exact S2|].
  rewrite <- S2. now apply H2.
Qed.

Lemma host_view_catches_up_witness :
  in_sync 0 (bound_world USB_GADGET_XPORT_TTY [])
  /\ host_view 0
       (trace (udc_complete_notify true 0
                 (run true [Ev_connect; Ev_send_break 1; Ev_disconnect;
                            Ev_notify_complete 0]
                    (bound_world USB_GADGET_XPORT_TTY [])))) = 4.
Proof.
  assert (H : in_sync 0 (bound_world USB_GADGET_XPORT_TTY [])).
  { unfold in_sync. split; [left; split; reflexivity|].
    split; [exact is_u16_0|]. split; [constructor|]. split; reflexivity. }
  split; [exact H|].
  destruct (host_view_catches_up true 0
              [Ev_connect; Ev_send_break 1; Ev_disconnect; Ev_notify_complete 0]
              0 (bound_world USB_GADGET_XPORT_TTY []) H)
    as (_ & _ & _ & V).
  - repeat constructor; discriminate.
  - discriminate.
  - rewrite V. reflexivity.
Defined.

(** ** Single-bit events and what they return *)

Lemma pow2_testbit k i :
  0 <= k -> 0 <= i -> Z.testbit (Z.shiftl 1 k) i = (i =? k).
Proof.
  intros Hk Hi. rewrite Z.shiftl_1_l, Z.pow2_bits_eqb by assumption.
  apply Z.eqb_sym.
Qed.

Lemma serial_state_bit_testbit k yes s i :
  0 <= k < 16 -> is_u16 s -> 0 <= i ->
  Z.testbit (serial_state_bit (Z.shiftl 1 k) yes s) i =
    if i =? k then negb (yes =? 0) else Z.testbit s i.
Proof.
  intros Hk Hs Hi. unfold serial_state_bit.
  assert (A : Z.testbit (u16 (Z.land s (Z.lnot (Z.shiftl 1 k)))) i =
              if i =? k then false else Z.testbit s i).
  { rewrite u16_testbit, Z.land_spec, Z.lnot_spec, pow2_testbit by lia.
    destruct (Z.eqb_spec i k); cbn [negb].
    - now rewrite andb_false_r, andb_false_r.
    - rewrite andb_true_r. destruct (Z.ltb_spec i 16); [reflexivity|].
      cbn [andb]. symmetry. now apply is_u16_testbit_high. }
  destruct (negb (yes =? 0)).
  - rewrite u16_testbit, Z.lor_spec, A, pow2_testbit by lia.
    destruct (Z.eqb_spec i k) as [->|].
    + destruct (Z.ltb_spec k 16); [reflexivity|lia].
    + rewrite orb_false_r. destruct (Z.ltb_spec i 16); [reflexivity|].
      cbn [andb]. symmetry. now apply is_u16_testbit_high.
  - exact A.
Qed.

Lemma acm_notify_serial_state_keeps_state lge w :
  serial_state (acm (snd (acm_notify_serial_state lge w))) = serial_state (acm w).
Proof.
  destruct (notify_req (acm w)) as [req|] eqn:E.
  - now rewrite (acm_notify_serial_state_free _ _ _ E).
  - now rewrite (acm_notify_serial_state_busy _ _ E).
Qed.

Lemma step_serial_state lge e w :
  is_change e ->
  serial_state (acm (step lge e w)) = new_serial_state e (serial_state (acm w)).
Proof.
  intros He. rewrite step_change by exact He.
  now rewrite acm_notify_serial_state_keeps_state.
Qed.

(** X2. acm_send_break(), acm_send_carrier_detect() and
    acm_send_ring_indicator() each drive exactly one bit of [serial_state]:
    BRK (bit 2), DCD (bit 0) and RI (bit 3) become set when the argument is
    non-zero and clear when it is zero, and every other bit stays. *)
Theorem single_bit_events lge w arg i :
  is_u16 (serial_state (acm w)) -> 0 <= i ->
  Z.testbit (serial_state (acm (snd (acm_send_break lge arg w)))) i =
    (if i =? 2 then negb (arg =? 0) else Z.testbit (serial_state (acm w)) i)
  /\ Z.testbit (serial_state (acm (snd (acm_send_carrier_detect lge arg w)))) i =
       (if i =? 0 then negb (arg =? 0) else Z.testbit (serial_state (acm w)) i)
  /\ Z.testbit (serial_state (acm (snd (acm_send_ring_indicator lge arg w)))) i =
       (if i =? 3 then negb (arg =? 0) else Z.testbit (serial_state (acm w)) i).
Proof.
  intros Hs Hi.
  change (snd (acm_send_break lge arg w)) with (step lge (Ev_send_break arg) w).
  change (snd (acm_send_carrier_detect lge arg w))
    with (step lge (Ev_send_carrier_detect arg) w).
  change (snd (acm_send_ring_indicator lge arg w))
    with (step lge (Ev_send_ring_indicator arg) w).
  rewrite !step_serial_state by exact I. cbn [new_serial_state].
  split; [|split].
  - apply (serial_state_bit_testbit 2); [lia|assumption|assumption].
  - apply (serial_state_bit_testbit 0); [lia|assumption|assumption].
  - apply (serial_state_bit_testbit 3); [lia|assumption|assumption].
Qed.

Lemma single_bit_events_witness :
  is_u16 (serial_state (acm (bound_world USB_GADGET_XPORT_TTY [])))
  /\ Z.testbit
       (serial_state
          (acm (snd (acm_send_break false 500
                       (bound_world USB_GADGET_XPORT_TTY []))))) 2 = true.
Proof.
  split; [exact is_u16_0|].
  destruct (single_bit_events false (bound_world USB_GADGET_XPORT_TTY []) 500 2
              is_u16_0 ltac:(lia)) as (B & _).
  rewrite B. reflexivity.
Defined.

Lemma fst_map_snd {A B : Type} (g : A -> B) (p : A * world) :
  fst (let (a, w') := p in (g a, w')) = g (fst p).
Proof. now destruct p. Qed.

(** X3. A refused notification comes back differently from the callbacks:
    acm_send_break() returns the negative status of usb_ep_queue() as it
    is, while acm_send_carrier_detect() and acm_send_ring_indicator(),
    declared [unsigned int], return it as the positive number 2^32 + status,
    so a caller cannot see the failure by testing for a negative result. *)
Theorem unsigned_callbacks_hide_failure lge w req r rest arg :
  notify_req (acm w) = Some req ->
  usb_ep_queue_ret w = r :: rest ->
  - 4294967296 < r < 0 ->
  fst (acm_send_break lge arg w) = r
  /\ fst (acm_send_carrier_detect lge arg w) = 4294967296 + r
  /\ fst (acm_send_ring_indicator lge arg w) = 4294967296 + r
  /\ 0 < 4294967296 + r.
Proof.
  intros Hreq Hq Hr.
  unfold acm_send_break, acm_send_carrier_detect, acm_send_ring_indicator,
    bind, modify_acm, ret.
  rewrite !fst_map_snd.
  rewrite !(acm_notify_serial_state_free lge _ req) by exact Hreq.
  cbv zeta. cbn [fst usb_ep_queue_ret set_acm]. rewrite Hq. cbn [next_ret fst].
  unfold u32.
  assert (E : r mod 4294967296 = 4294967296 + r).
  { symmetry. apply (Z.mod_unique _ _ (-1)); lia. }
  rewrite E. repeat split; lia.
Qed.

Lemma unsigned_callbacks_hide_failure_witness :
  fst (acm_send_carrier_detect true 1 (bound_world USB_GADGET_XPORT_TTY [-11]))
  = 4294967285.
Proof.
  destruct (unsigned_callbacks_hide_failure true
              (bound_world USB_GADGET_XPORT_TTY [-11]) bound_notify_req (-11) []
              1 eq_refl eq_refl ltac:(lia)) as (_ & C & _).
  rewrite C. reflexivity.
Defined.

(** ** What the serial-state events leave alone *)

Lemma notify_frame lge w :
  acm_rest (acm (snd (acm_notify_serial_state lge w))) = acm_rest (acm w)
  /\ world_rest (snd (acm_notify_serial_state lge w)) = world_rest w.
Proof.
  destruct (notify_req (acm w)) as [req|] eqn:E.
  - rewrite (acm_notify_serial_state_free _ _ _ E). split; reflexivity.
  - rewrite (acm_notify_serial_state_busy _ _ E). split; reflexivity.
Qed.

Lemma step_frame lge e w :
  acm_rest (acm (step lge e w)) = acm_rest (acm w)
  /\ world_rest (step lge e w) = world_rest w.
Proof.
  destruct e;
    try (rewrite step_change by exact I;
         split; (etransitivity; [apply notify_frame|reflexivity])).
  cbn [step]. unfold udc_complete_notify.
  destruct (notify_fifo w) as [|req rest]; [split; reflexivity|].
  unfold acm_cdc_notify_complete, bind, get_acm, modify_acm, ret.
  destruct (if negb _ then _ else _); cbn [snd]; [|split; reflexivity].
  rewrite snd_map_fst.
  set (w1 := set_acm _ _).
  destruct (notify_frame lge w1) as [A B]. rewrite A, B. split; reflexivity.
Qed.

(** X4. The serial-state callbacks and the notification completion touch
    the notification channel only: over any sequence of them the
    interface ids, the port number and transport, the endpoints, the line
    coding and the handshake bits of [f_acm] stay as they were, as do the
    port table, the control request and the rest of the world, and
    [serial_state] stays a 16-bit value. *)
Theorem events_touch_only_the_channel lge es w :
  acm_rest (acm (run lge es w)) = acm_rest (acm w)
  /\ world_rest (run lge es w) = world_rest w
  /\ (is_u16 (serial_state (acm w)) -> is_u16 (serial_state (acm (run lge es w)))).
Proof.
  unfold run. revert w. induction es as [|e es IH]; intros w; cbn [fold_left].
  - auto.
  - destruct (IH (step lge e w)) as (A & B & C).
    destruct (step_frame lge e w) as [A' B'].
    rewrite A, B, A', B'. split; [reflexivity|]. split; [reflexivity|].
    intros Hs. apply C.
    destruct e; try (rewrite step_serial_state by exact I;
                     now apply new_serial_state_range).
    cbn [step]. unfold udc_complete_notify.
    destruct (notify_fifo w) as [|req rest]; [assumption|].
    unfold acm_cdc_notify_complete, bind, get_acm, modify_acm, ret.
    destruct (if negb _ then _ else _); cbn [snd]; [|assumption].
    rewrite snd_map_fst. now rewrite acm_notify_serial_state_keeps_state.
Qed.

(** X5. Over any sequence of serial-state callbacks and completions the
    driver never enters acm_cdc_notify() with a NULL [notify_req], the
    context its header comment requires: no NULL dereference is recorded
    that was not there before. *)
Theorem notify_req_never_dereferenced_null lge es w :
  oops w = false -> oops (run lge es w) = false.
Proof.
  intros H. unfold run. revert w H.
  induction es as [|e es IH]; intros w H; cbn [fold_left].
  - exact H.
  - apply IH. now rewrite oops_step.
Qed.

Lemma notify_req_never_dereferenced_null_witness :
  oops (run true [Ev_disconnect; Ev_notify_complete (-108); Ev_connect;
                  Ev_send_modem_ctrl_bits 70000; Ev_notify_complete 0]
          (bound_world USB_GADGET_XPORT_TTY [-5])) = false.
Proof.
  exact (notify_req_never_dereferenced_null true _
           (bound_world USB_GADGET_XPORT_TTY [-5]) eq_refl).
Defined.

Lemma events_touch_only_the_channel_witness :
  is_u16 (serial_state (acm (bound_world USB_GADGET_XPORT_SMD [])))
  /\ is_u16 (serial_state
               (acm (run false [Ev_send_modem_ctrl_bits (-1); Ev_connect]
                       (bound_world USB_GADGET_XPORT_SMD [])))).
Proof.
  split; [exact is_u16_0|].
  exact (proj2 (proj2 (events_touch_only_the_channel false
                         [Ev_send_modem_ctrl_bits (-1); Ev_connect]
                         (bound_world USB_GADGET_XPORT_SMD []))) is_u16_0).
Defined.

(** ** Bulk state sets *)

(** X6. acm_send_modem_ctrl_bits() stores its [int] argument in the 16-bit
    [serial_state]: the low 16 bits are kept, the rest is dropped (a
    negative argument wraps), and with the request at hand the notification
    it queues carries exactly that 16-bit value. *)
Theorem modem_ctrl_bits_truncated lge w ctrl_bits :
  let res := acm_send_modem_ctrl_bits lge ctrl_bits w in
  serial_state (acm (snd res)) = ctrl_bits mod 65536
  /\ (forall i, 0 <= i ->
        Z.testbit (serial_state (acm (snd res))) i =
          (i <? 16) && Z.testbit ctrl_bits i)
  /\ (forall req, notify_req (acm w) = Some req ->
        exists pkt,
          trace (snd res) = trace w ++ [Call_usb_ep_queue EP_NOTIFY pkt (fst res)]
          /\ payload pkt = ctrl_bits mod 65536).
Proof.
  cbv zeta.
  assert (S : serial_state (acm (snd (acm_send_modem_ctrl_bits lge ctrl_bits w)))
              = u16 ctrl_bits).
  { change (snd (acm_send_modem_ctrl_bits lge ctrl_bits w))
      with (step lge (Ev_send_modem_ctrl_bits ctrl_bits) w).
    now rewrite step_serial_state by exact I. }
  split; [exact S|]. split.
  - intros i Hi. rewrite S. now apply u16_testbit.
  - intros req Hreq.
    unfold acm_send_modem_ctrl_bits, bind, modify_acm.
    rewrite (acm_notify_serial_state_free lge _ req) by exact Hreq.
    cbv zeta. cbn [fst snd]. eexists. split; [reflexivity|].
    rewrite serial_state_request_payload; [reflexivity|apply u16_range].
Qed.

Lemma modem_ctrl_bits_truncated_witness :
  notify_req (acm (bound_world USB_GADGET_XPORT_TTY [])) = Some bound_notify_req
  /\ exists pkt,
       trace (snd (acm_send_modem_ctrl_bits false (-1)
                     (bound_world USB_GADGET_XPORT_TTY []))) =
         [Call_usb_ep_queue EP_NOTIFY pkt 0]
       /\ payload pkt = 65535.
Proof.
  split; [reflexivity|].
  destruct (modem_ctrl_bits_truncated false (bound_world USB_GADGET_XPORT_TTY [])
              (-1)) as (_ & _ & H).
  destruct (H bound_notify_req eq_refl) as (pkt & T & P).
  exists pkt. split; [exact T|exact P].
Defined.

(** ** The footprint of acm_cdc_notify() in the request *)




(** ** Class requests: rejection and responses *)

Lemma acm_setup_rejected ctrl w :
  fst (acm_setup_switch ctrl w) < 0 ->
  snd (acm_setup_switch ctrl w) = w ->
  acm_setup ctrl w = (fst (acm_setup_switch ctrl w), w).
Proof.
  intros Hneg Hw. unfold acm_setup, bind.
  destruct (acm_setup_switch ctrl w) as [v w'] eqn:E. cbn [fst snd] in *.
  subst w'. destruct (Z.geb_spec v 0); [lia|]. reflexivity.
Qed.

(** X8. acm_setup() stalls what it does not recognise and changes nothing
    doing so: a request whose (bRequestType, bRequest) is none of
    SET_LINE_CODING, GET_LINE_CODING and SET_CONTROL_LINE_STATE, any request
    whose wIndex is not the control interface, and a SET_LINE_CODING whose
    wLength is not 7 all return -EOPNOTSUPP with the world untouched and
    nothing queued on ep0. *)
Theorem unsupported_request_rejected ctrl w :
  ~ In (request_code (ctrl_bRequestType ctrl) (ctrl_bRequest ctrl))
       acm_request_codes
  \/ ctrl_wIndex ctrl <> ctrl_id (acm w)
  \/ (request_code (ctrl_bRequestType ctrl) (ctrl_bRequest ctrl) =
        class_interface_request USB_DIR_OUT USB_CDC_REQ_SET_LINE_CODING
      /\ ctrl_wLength ctrl <> sizeof_usb_cdc_line_coding) ->
  acm_setup ctrl w = (- EOPNOTSUPP, w).
Proof.
  intros H.
  assert (E : acm_setup_switch ctrl w = (- EOPNOTSUPP, w)).
  { unfold acm_setup_switch, bind, get_acm, ret.
    set (code := request_code _ _) in *.
    destruct (Z.eqb_spec code
                (class_interface_request USB_DIR_OUT USB_CDC_REQ_SET_LINE_CODING))
      as [E1|N1].
    { destruct (Z.eqb_spec (ctrl_wLength ctrl) sizeof_usb_cdc_line_coding)
        as [El|Nl]; cbn [negb orb]; [|reflexivity].
      destruct (Z.eqb_spec (ctrl_wIndex ctrl) (ctrl_id (acm w))) as [Ei|Ni];
        cbn [negb]; [|reflexivity].
      exfalso. destruct H as [H|[H|[_ H]]]; try contradiction.
      apply H. left. now symmetry. }
    destruct (Z.eqb_spec code
                (class_interface_request USB_DIR_IN USB_CDC_REQ_GET_LINE_CODING))
      as [E2|N2].
    { destruct (Z.eqb_spec (ctrl_wIndex ctrl) (ctrl_id (acm w))) as [Ei|Ni];
        cbn [negb]; [|reflexivity].
      exfalso. destruct H as [H|[H|[H _]]]; try contradiction.
      apply H. right. left. now symmetry. }
    destruct (Z.eqb_spec code
                (class_interface_request USB_DIR_OUT
                   USB_CDC_REQ_SET_CONTROL_LINE_STATE)) as [E3|N3];
      [|reflexivity].
    destruct (Z.eqb_spec (ctrl_wIndex ctrl) (ctrl_id (acm w))) as [Ei|Ni];
      cbn [negb]; [|reflexivity].
    exfalso. destruct H as [H|[H|[H _]]]; try contradiction.
    apply H. right. right. left. now symmetry. }
  rewrite (acm_setup_rejected ctrl w); rewrite E; reflexivity.
Qed.

Lemma unsupported_request_rejected_witness :
  let w := bound_world USB_GADGET_XPORT_TTY [] in
  acm_setup (SET_LINE_CODING 0 5) w = (- EOPNOTSUPP, w)
  /\ acm_setup (GET_LINE_CODING 1 7) w = (- EOPNOTSUPP, w)
  /\ acm_setup (mk_ctrlrequest 0x21 0x23 0 0 0) w = (- EOPNOTSUPP, w).
Proof.
  cbv zeta. split; [|split].
  - apply unsupported_request_rejected. right. right. split; [reflexivity|].
    discriminate.
  - apply unsupported_request_rejected. right. left. discriminate.
  - apply unsupported_request_rejected. left.
    intros [H|[H|[H|[]]]]; discriminate H.
Defined.

Lemma acm_setup_accepted ctrl w v w1 :
  acm_setup_switch ctrl w = (v, w1) -> 0 <= v ->
  acm_setup ctrl w =
    usb_ep_queue EP0 (set_req_length v (set_req_zero false (cdev_req w1)))
      (set_cdev_req (set_req_length v (set_req_zero false (cdev_req w1))) w1).
Proof.
  intros E Hv. unfold acm_setup, bind. rewrite E.
  destruct (Z.geb_spec v 0); [|lia].
  unfold modify_cdev_req, get_cdev_req.
  destruct w1; reflexivity.
Qed.

Lemma usb_ep_queue_ep0 req w :
  usb_ep_queue EP0 req w =
    (fst (next_ret (usb_ep_queue_ret w)),
     set_trace (trace w ++ [Call_usb_ep_queue EP0 req
                              (fst (next_ret (usb_ep_queue_ret w)))])
       (set_usb_ep_queue_ret (snd (next_ret (usb_ep_queue_ret w))) w)).
Proof.
  unfold usb_ep_queue. destruct (next_ret (usb_ep_queue_ret w)). reflexivity.
Qed.

Lemma acm_setup_switch_control_line_state w v :
  acm_setup_switch (SET_CONTROL_LINE_STATE (ctrl_id (acm w)) v) w =
    (0,
     set_trace
       (trace w ++
        (if notify_modem (port (acm w))
         then [Call_notify_modem
                 (client_port_num
                    (nth (Z.to_nat (port_num (acm w))) (gacm_ports w)
                       default_port_info)) v]
         else []))
       (set_acm (set_port_handshake_bits v (acm w)) w)).
Proof.
  unfold acm_setup_switch, SET_CONTROL_LINE_STATE, bind, get_acm.
  cbn [ctrl_bRequestType ctrl_bRequest ctrl_wValue ctrl_wIndex ctrl_wLength].
  change (request_code _ _ =? class_interface_request USB_DIR_OUT
                                USB_CDC_REQ_SET_LINE_CODING) with false.
  change (request_code _ _ =? class_interface_request USB_DIR_IN _) with false.
  change (request_code _ _ =? class_interface_request USB_DIR_OUT
                                USB_CDC_REQ_SET_CONTROL_LINE_STATE) with true.
  cbv iota. rewrite Z.eqb_refl. cbn [negb].
  unfold modify_acm, gacm_client_port_num, log, ret.
  destruct w as [a ? ? ? ? ? t ? ? ?]. cbn.
  destruct (notify_modem (port a)); cbn; [reflexivity|].
  now rewrite app_nil_r.
Qed.

(** X9. SET_CONTROL_LINE_STATE for the control interface stores wValue as
    it came in [port_handshake_bits], hands it to the transport's
    notify_modem callback when one is registered (with the client port
    number of the port table) and to nobody otherwise, and answers with a
    zero-length status stage; its result is that of usb_ep_queue(), and
    nothing else of [f_acm] changes. *)
Theorem set_control_line_state_recorded w v :
  let res := acm_setup (SET_CONTROL_LINE_STATE (ctrl_id (acm w)) v) w in
  acm (snd res) = set_port_handshake_bits v (acm w)
  /\ port_handshake_bits (acm (snd res)) = v
  /\ fst res = fst (next_ret (usb_ep_queue_ret w))
  /\ exists req,
       trace (snd res) =
         trace w ++
         (if notify_modem (port (acm w))
          then [Call_notify_modem
                  (client_port_num
                     (nth (Z.to_nat (port_num (acm w))) (gacm_ports w)
                        default_port_info)) v]
          else [])
         ++ [Call_usb_ep_queue EP0 req (fst res)]
       /\ req_length req = 0 /\ req_zero req = false.
Proof.
  cbv zeta.
  rewrite (acm_setup_accepted _ _ _ _ (acm_setup_switch_control_line_state w v))
    by lia.
  rewrite usb_ep_queue_ep0. cbn [fst snd].
  split; [reflexivity|]. split; [reflexivity|]. split; [reflexivity|].
  eexists.
  split; [cbn [trace set_trace set_usb_ep_queue_ret set_cdev_req set_acm];
          now rewrite <- app_assoc | split; reflexivity].
Qed.

Lemma land_bit_eqb v k :
  0 <= k -> (Z.land v (Z.shiftl 1 k) =? 0) = negb (Z.testbit v k).
Proof.
  intros Hk.
  assert (E : Z.land v (Z.shiftl 1 k) =
              if Z.testbit v k then Z.shiftl 1 k else 0).
  { apply Z.bits_inj'. intros n Hn.
    rewrite Z.land_spec, pow2_testbit by assumption.
    destruct (Z.eqb_spec n k) as [->|N].
    - destruct (Z.testbit v k); cbn [andb].
      + rewrite pow2_testbit by assumption. symmetry. apply Z.eqb_refl.
      + symmetry. apply Z.bits_0.
    - rewrite andb_false_r.
      destruct (Z.testbit v k); [|symmetry; apply Z.bits_0].
      rewrite pow2_testbit by assumption. symmetry. now apply Z.eqb_neq. }
  rewrite E. destruct (Z.testbit v k); cbn [negb]; [|reflexivity].
  apply Z.eqb_neq. rewrite Z.shiftl_1_l. apply Z.pow_nonzero; lia.
Qed.

(** X10. What SET_CONTROL_LINE_STATE stored is what the transport reads
    back: after the request acm_get_dtr() returns bit 0 of wValue and
    acm_get_rts() bit 1, each as 0 or 1, and neither changes anything. *)
Theorem handshake_bits_read_back w v :
  let w' := snd (acm_setup (SET_CONTROL_LINE_STATE (ctrl_id (acm w)) v) w) in
  acm_get_dtr w' = (if Z.testbit v 0 then 1 else 0, w')
  /\ acm_get_rts w' = (if Z.testbit v 1 then 1 else 0, w').
Proof.
  cbv zeta.
  rewrite (acm_setup_accepted _ _ _ _ (acm_setup_switch_control_line_state w v))
    by lia.
  rewrite usb_ep_queue_ep0. cbn [snd].
  unfold acm_get_dtr, acm_get_rts, bind, get_acm, ret.
  cbn [acm set_trace set_usb_ep_queue_ret set_cdev_req set_acm
       port_handshake_bits set_port_handshake_bits].
  unfold ACM_CTRL_DTR, ACM_CTRL_RTS. rewrite !land_bit_eqb by lia.
  rewrite !negb_involutive. split; reflexivity.
Qed.

Lemma acm_setup_switch_cases ctrl w :
  0 <= ctrl_wLength ctrl ->
  acm_setup_switch ctrl w = (- EOPNOTSUPP, w)
  \/ exists v w1 pre,
       acm_setup_switch ctrl w = (v, w1)
       /\ 0 <= v <= ctrl_wLength ctrl
       /\ trace w1 = trace w ++ pre
       /\ usb_ep_queue_ret w1 = usb_ep_queue_ret w
       /\ (forall c, In c pre -> exists pn bits, c = Call_notify_modem pn bits).
Proof.
  intros HL. unfold acm_setup_switch, bind, get_acm, ret.
  set (code := request_code _ _).
  destruct (code =? class_interface_request USB_DIR_OUT USB_CDC_REQ_SET_LINE_CODING).
  { destruct (Z.eqb_spec (ctrl_wLength ctrl) sizeof_usb_cdc_line_coding)
      as [El|Nl]; cbn [negb orb]; [|now left].
    destruct (negb (ctrl_wIndex ctrl =? ctrl_id (acm w))); [now left|].
    right. unfold modify_cdev_req. eexists. eexists. exists [].
    split; [reflexivity|]. cbn. rewrite app_nil_r. repeat split; try lia; try (intros c []). }
  destruct (code =? class_interface_request USB_DIR_IN USB_CDC_REQ_GET_LINE_CODING).
  { destruct (negb (ctrl_wIndex ctrl =? ctrl_id (acm w))); [now left|].
    right. unfold modify_cdev_req. eexists. eexists. exists [].
    split; [reflexivity|]. cbn. rewrite app_nil_r.
    unfold sizeof_usb_cdc_line_coding. repeat split; try lia; try (intros c []). }
  destruct (code =? class_interface_request USB_DIR_OUT
                      USB_CDC_REQ_SET_CONTROL_LINE_STATE); [|now left].
  destruct (negb (ctrl_wIndex ctrl =? ctrl_id (acm w))); [now left|].
  right. unfold modify_acm, gacm_client_port_num, log.
  destruct (notify_modem (port (acm w))).
  - eexists. eexists. eexists. split; [reflexivity|]. cbn.
    split; [lia|]. split; [reflexivity|]. split; [reflexivity|].
    intros c [<-|[]]. eauto.
  - eexists. eexists. exists []. split; [reflexivity|]. cbn.
    rewrite app_nil_r. repeat split; try lia; try (intros c []).
Qed.

(** X11. Whatever the request, acm_setup() either stalls it with
    -EOPNOTSUPP and an untouched world, or queues exactly one response on
    ep0 and returns what usb_ep_queue() returned: the response is never
    longer than the wLength the host asked for, its [zero] flag is clear,
    and the only other call made is the notify_modem callback. *)
Theorem acm_setup_response_bounded ctrl w :
  0 <= ctrl_wLength ctrl ->
  let res := acm_setup ctrl w in
  res = (- EOPNOTSUPP, w)
  \/ exists req pre,
       trace (snd res) = trace w ++ pre ++ [Call_usb_ep_queue EP0 req (fst res)]
       /\ fst res = fst (next_ret (usb_ep_queue_ret w))
       /\ 0 <= req_length req <= ctrl_wLength ctrl
       /\ req_zero req = false
       /\ cdev_req (snd res) = req
       /\ (forall c, In c pre -> exists pn bits, c = Call_notify_modem pn bits).
Proof.
  intros HL. cbv zeta.
  destruct (acm_setup_switch_cases ctrl w HL)
    as [E|(v & w1 & pre & E & Hv & T & Q & P)].
  - left. rewrite (acm_setup_rejected ctrl w); rewrite E; reflexivity.
  - right. rewrite (acm_setup_accepted ctrl w v w1 E) by lia.
    rewrite usb_ep_queue_ep0. cbn [fst snd].
    eexists. exists pre.
    split; [cbn [trace set_trace set_usb_ep_queue_ret set_cdev_req];
            rewrite T, <- app_assoc; reflexivity|].
    cbn [usb_ep_queue_ret set_cdev_req]. rewrite Q.
    repeat split; try assumption; cbn; lia.
Qed.

Lemma acm_setup_response_bounded_witness :
  let w := bound_world USB_GADGET_XPORT_TTY [] in
  0 <= ctrl_wLength (GET_LINE_CODING 0 3)
  /\ exists req pre,
       trace (snd (acm_setup (GET_LINE_CODING 0 3) w)) =
         trace w ++ pre ++ [Call_usb_ep_queue EP0 req 0]
       /\ 0 <= req_length req <= 3.
Proof.
  cbv zeta.
  assert (H : 0 <= ctrl_wLength (GET_LINE_CODING 0 3)) by (cbn; lia).
  split; [exact H|].
  destruct (acm_setup_response_bounded (GET_LINE_CODING 0 3)
              (bound_world USB_GADGET_XPORT_TTY []) H)
    as [E|(req & pre & T & _ & L & _)].
  - discriminate E.
  - exists req, pre. split; [exact T|exact L].
Defined.

(** ** Activation and deactivation *)

Lemma set_trace_nil w : set_trace (trace w ++ []) w = w.
Proof. rewrite app_nil_r. now destruct w. Qed.

Lemma acm_port_connect_eq w :
  acm_port_connect w =
    (match transport (acm w) with
     | USB_GADGET_XPORT_OTHER _ => - ENODEV
     | _ => 0
     end, set_trace (trace w ++ connect_calls w) w).
Proof.
  unfold acm_port_connect, connect_calls, client_port_of, bind, get_acm,
    gacm_client_port_num, log, ret.
  destruct (transport (acm w)); try reflexivity. now rewrite set_trace_nil.
Qed.



Lemma acm_set_alt_ctrl_unbound w alt :
  desc (notify (acm w)) = None ->
  acm_set_alt (ctrl_id (acm w)) alt w =
    let r := fst (next_ret (config_ep_by_speed_ret w)) in
    let t := trace w ++
             (if driver_data (notify (acm w))
              then [Call_usb_ep_disable EP_NOTIFY] else [])
             ++ [Call_config_ep_by_speed EP_NOTIFY r] in
    let w1 := set_config_ep_by_speed_ret
                (snd (next_ret (config_ep_by_speed_ret w))) w in
    if r =? 0
    then (0, set_acm (set_notify (mk_ep true (Some (gadget_speed w))) (acm w))
               (set_trace (t ++ [Call_usb_ep_enable EP_NOTIFY]) w1))
    else (- EINVAL, set_trace t w1).
Proof.
  intros Hd.
  unfold acm_set_alt, config_ep_by_speed, bind, get_acm, when, log, modify_acm,
    ret.
  rewrite Z.eqb_refl.
  destruct w as [a ? ? ? ? ? t cq sc ?].
  destruct a as [? ? ? ? ? ? [dd de] ? ? ? ?]. cbn in Hd. subst de.
  destruct dd; cbv -[next_ret Z.eqb app EINVAL Z.opp];
    destruct (next_ret sc) as [r rest];
    destruct (r =? 0) eqn:Er; rewrite ?Er;
    rewrite <- ?app_assoc; reflexivity.
Qed.



(** X13. When config_ep_by_speed() fails for the notification endpoint,
    acm_set_alt() on the control interface returns -EINVAL without enabling
    the endpoint and with [f_acm] unchanged; an endpoint that was in use has
    by then been disabled, and stays marked in use. *)
Theorem control_activation_bind_failure w alt r rest :
  desc (notify (acm w)) = None ->
  config_ep_by_speed_ret w = r :: rest -> r <> 0 ->
  let res := acm_set_alt (ctrl_id (acm w)) alt w in
  fst res = - EINVAL
  /\ acm (snd res) = acm w
  /\ trace (snd res) =
       trace w ++
       (if driver_data (notify (acm w))
        then [Call_usb_ep_disable EP_NOTIFY] else [])
       ++ [Call_config_ep_by_speed EP_NOTIFY r].
Proof.
  intros Hd Hq Hr. cbv zeta.
  rewrite (acm_set_alt_ctrl_unbound w alt Hd). cbv zeta. rewrite Hq.
  cbn [next_ret fst snd].
  destruct (Z.eqb_spec r 0); [contradiction|]. repeat split.
Qed.

Lemma control_activation_bind_failure_witness :
  let w := set_config_ep_by_speed_ret [-22]
             (bound_world USB_GADGET_XPORT_TTY []) in
  acm_set_alt 0 0 w =
    (- EINVAL,
     set_trace [Call_usb_ep_disable EP_NOTIFY;
                Call_config_ep_by_speed EP_NOTIFY (-22)]
       (bound_world USB_GADGET_XPORT_TTY [])).
Proof.
  cbv zeta.
  destruct (control_activation_bind_failure
              (set_config_ep_by_speed_ret [-22]
                 (bound_world USB_GADGET_XPORT_TTY []))
              0 (-22) [] eq_refl eq_refl ltac:(discriminate)) as (R & _ & _).
  reflexivity.
Defined.

(** X14. acm_set_alt() for an interface that is neither the control nor the
    data interface of the function returns -EINVAL and does nothing. *)
Theorem foreign_interface_rejected w intf alt :
  intf <> ctrl_id (acm w) -> intf <> data_id (acm w) ->
  acm_set_alt intf alt w = (- EINVAL, w).
Proof.
  intros Hc Hd. unfold acm_set_alt, bind, get_acm, ret.
  destruct (Z.eqb_spec intf (ctrl_id (acm w))); [contradiction|].
  destruct (Z.eqb_spec intf (data_id (acm w))); [contradiction|].
  reflexivity.
Qed.

Lemma foreign_interface_rejected_witness :
  acm_set_alt 7 0 (bound_world USB_GADGET_XPORT_SMD []) =
    (- EINVAL, bound_world USB_GADGET_XPORT_SMD []).
Proof.
  apply foreign_interface_rejected; discriminate.
Defined.








Lemma acm_set_alt_data_bind_failure_witness :
  let w := set_config_ep_by_speed_ret [0; -5]
             (bound_world USB_GADGET_XPORT_TTY []) in
  data_id (acm w) <> ctrl_id (acm w)
  /\ fst (acm_set_alt 1 0 w) = - EINVAL
  /\ desc (port_in (port (acm (snd (acm_set_alt 1 0 w))))) = None.
Proof.
  cbv zeta.
  assert (Hid : data_id (acm (set_config_ep_by_speed_ret [0; -5]
                                (bound_world USB_GADGET_XPORT_TTY []))) <>
                ctrl_id (acm (set_config_ep_by_speed_ret [0; -5]
                                (bound_world USB_GADGET_XPORT_TTY []))))
    by discriminate.
  split; [exact Hid|].
  destruct (acm_set_alt_data_bind_failure
              (set_config_ep_by_speed_ret [0; -5]
                 (bound_world USB_GADGET_XPORT_TTY []))
              0 (-5) [] Hid (or_introl eq_refl) ltac:(discriminate)
              (or_intror eq_refl)) as (R & I & _).
  split; [exact R|exact I].
Defined.

(** ** The port table *)

Lemma length_update_nth {A : Type} n (f : A -> A) l :
  length (update_nth n f l) = length l.
Proof.
  revert n. induction l as [|x l IH]; intros [|n]; cbn; auto.
Qed.

Lemma nth_update_nth {A : Type} n j (f : A -> A) l d :
  (n < length l)%nat ->
  nth j (update_nth n f l) d = if Nat.eqb j n then f (nth j l d) else nth j l d.
Proof.
  revert n j. induction l as [|x l IH]; intros n j Hn; cbn in Hn; [lia|].
  destruct n as [|n], j as [|j]; cbn; try reflexivity.
  apply IH. lia.
Qed.

Lemma in_table_spec n g :
  in_table n g = true <-> 0 <= n < Z.of_nat (length (port_table g)).
Proof. unfold in_table. rewrite andb_true_iff, Z.leb_le, Z.ltb_lt. tauto. Qed.

Lemma table_set_in n f g :
  in_table n g = true ->
  table_set n f g = set_port_table (update_nth (Z.to_nat n) f (port_table g)) g.
Proof. intros H. unfold table_set. now rewrite H. Qed.

Lemma entry_table_set n f g j :
  in_table n g = true -> 0 <= j ->
  entry j (table_set n f g) = if j =? n then f (entry j g) else entry j g.
Proof.
  intros Hn Hj. rewrite table_set_in by assumption.
  apply in_table_spec in Hn. unfold entry. cbn [port_table set_port_table].
  rewrite nth_update_nth by lia.
  destruct (Z.eqb_spec j n) as [->|N].
  - now rewrite Nat.eqb_refl.
  - destruct (Nat.eqb_spec (Z.to_nat j) (Z.to_nat n)); [lia|reflexivity].
Qed.

Lemma table_set_ok n f g :
  in_table n g = true -> table_ok g ->
  table_ok (table_set n f g) /\ in_table n (table_set n f g) = true.
Proof.
  intros Hn [L O]. rewrite table_set_in by assumption.
  unfold table_ok, in_table in *. cbn. rewrite length_update_nth. auto.
Qed.

Lemma in_table_ok n g : table_ok g -> 0 <= n < 4 -> in_table n g = true.
Proof. intros [L _] H. apply in_table_spec. rewrite L. lia. Qed.

(** X17. acm_init_port() guards the upper end of the port table only.  A
    port number of 4 or more is refused with -ENODEV and nothing changes.
    A port number from 0 to 3 has its entry, and no other, stamped with the
    transport and the number; a TTY port keeps its client port number, an
    SMD port gets the count of SMD ports so far; the result is 0 for these
    two and -ENODEV for any other transport.  A negative port number is not
    refused: the stores go outside the array. *)
Theorem acm_init_port_bounds port_no t g :
  table_ok g ->
  (GSERIAL_NO_PORTS <= port_no -> acm_init_port port_no t g = (- ENODEV, g))
  /\ (0 <= port_no < GSERIAL_NO_PORTS ->
      let g' := snd (acm_init_port port_no t g) in
      fst (acm_init_port port_no t g) = (if supported t then 0 else - ENODEV)
      /\ table_ok g'
      /\ info_transport (entry port_no g') = t
      /\ info_port_num (entry port_no g') = port_no
      /\ client_port_num (entry port_no g') =
           match t with
           | USB_GADGET_XPORT_SMD => u8 (no_acm_smd_ports g)
           | _ => client_port_num (entry port_no g)
           end
      /\ (forall j, 0 <= j -> j <> port_no -> entry j g' = entry j g))
  /\ (port_no < 0 -> table_overrun (snd (acm_init_port port_no t g)) = true).
Proof.
  intros Hok. unfold GSERIAL_NO_PORTS. split; [|split].
  - intros H. unfold acm_init_port, GSERIAL_NO_PORTS.
    destruct (Z.geb_spec port_no 4); [reflexivity|lia].
  - intros H. cbv zeta. unfold acm_init_port, GSERIAL_NO_PORTS.
    destruct (Z.geb_spec port_no 4); [lia|].
    pose proof (in_table_ok port_no g Hok H) as I0.
    set (g1 := table_set port_no (set_info_transport t) g).
    destruct (table_set_ok port_no (set_info_transport t) g I0 Hok) as [Ok1 I1].
    fold g1 in Ok1, I1.
    set (g2 := table_set port_no (set_info_port_num (u32 port_no)) g1).
    destruct (table_set_ok port_no (set_info_port_num (u32 port_no)) g1 I1 Ok1)
      as [Ok2 I2].
    fold g2 in Ok2, I2.
    assert (E2 : forall j, 0 <= j ->
              entry j g2 =
                if j =? port_no
                then set_info_port_num (u32 port_no)
                       (set_info_transport t (entry j g))
                else entry j g).
    { intros j Hj. unfold g2, g1. rewrite !entry_table_set by assumption.
      now destruct (j =? port_no). }
    assert (U : u32 port_no = port_no)
      by (unfold u32; apply Z.mod_small; lia).
    destruct t as [| |n'].
    + cbn [fst snd supported].
      split; [reflexivity|]. split; [exact Ok2|].
      change (entry port_no (set_nr_acm_ports _ (set_no_acm_tty_ports _ g2)))
        with (entry port_no g2).
      rewrite (E2 port_no) by lia. rewrite Z.eqb_refl, U.
      repeat split.
      intros j Hj Hne.
      change (entry j (set_nr_acm_ports _ (set_no_acm_tty_ports _ g2)))
        with (entry j g2).
      rewrite (E2 j Hj). destruct (Z.eqb_spec j port_no); [contradiction|].
      reflexivity.
    + cbn [fst snd supported].
      set (g3 := table_set port_no
                   (set_client_port_num (u8 (no_acm_smd_ports g2))) g2).
      destruct (table_set_ok port_no
                  (set_client_port_num (u8 (no_acm_smd_ports g2))) g2 I2 Ok2)
        as [Ok3 I3].
      fold g3 in Ok3, I3.
      assert (N2 : no_acm_smd_ports g2 = no_acm_smd_ports g).
      { unfold g2, g1. rewrite !table_set_in by assumption. reflexivity. }
      split; [reflexivity|]. split; [exact Ok3|].
      change (entry port_no (set_nr_acm_ports _ (set_no_acm_smd_ports _ g3)))
        with (entry port_no g3).
      unfold g3 at 1 2 3. rewrite !entry_table_set by (assumption || lia).
      rewrite (E2 port_no) by lia. rewrite Z.eqb_refl, U, N2.
      repeat split.
      intros j Hj Hne.
      change (entry j (set_nr_acm_ports _ (set_no_acm_smd_ports _ g3)))
        with (entry j g3).
      unfold g3. rewrite entry_table_set by assumption.
      rewrite (E2 j Hj). destruct (Z.eqb_spec j port_no); [contradiction|].
      reflexivity.
    + cbn [fst snd supported].
      split; [reflexivity|]. split; [exact Ok2|].
      rewrite (E2 port_no) by lia. rewrite Z.eqb_refl, U.
      repeat split.
      intros j Hj Hne. rewrite (E2 j Hj).
      destruct (Z.eqb_spec j port_no); [contradiction|]. reflexivity.
  - intros H. unfold acm_init_port, GSERIAL_NO_PORTS.
    destruct (Z.geb_spec port_no 4); [lia|].
    assert (I0 : forall g0, in_table port_no g0 = false).
    { intros g0. unfold in_table. destruct (Z.leb_spec 0 port_no); [lia|].
      reflexivity. }
    assert (T : forall f g0, table_set port_no f g0 = set_table_overrun true g0).
    { intros f g0. unfold table_set. now rewrite I0. }
    rewrite !T. destruct t; reflexivity.
Qed.

Lemma acm_init_port_bounds_witness :
  table_ok initial_globals
  /\ acm_init_port 4 USB_GADGET_XPORT_TTY initial_globals
     = (- ENODEV, initial_globals)
  /\ table_overrun (snd (acm_init_port (-1) USB_GADGET_XPORT_TTY initial_globals))
     = true.
Proof.
  assert (H : table_ok initial_globals) by (split; reflexivity).
  split; [exact H|].
  destruct (acm_init_port_bounds 4 USB_GADGET_XPORT_TTY initial_globals H)
    as (A & _ & _).
  destruct (acm_init_port_bounds (-1) USB_GADGET_XPORT_TTY initial_globals H)
    as (_ & _ & C).
  split; [apply A; unfold GSERIAL_NO_PORTS; lia|apply C; lia].
Defined.

Lemma table_set_counters n f g :
  no_acm_tty_ports (table_set n f g) = no_acm_tty_ports g
  /\ no_acm_smd_ports (table_set n f g) = no_acm_smd_ports g
  /\ nr_acm_ports (table_set n f g) = nr_acm_ports g
  /\ acm_next_free_port (table_set n f g) = acm_next_free_port g.
Proof. unfold table_set. destruct (in_table n g); repeat split. Qed.





Lemma table_get_in n g :
  table_ok g -> 0 <= n < 4 -> table_get n g = (entry n g, g).
Proof.
  intros Hok Hn. unfold table_get. now rewrite (in_table_ok n g Hok Hn).
Qed.

(** X19. A transport that acm_init_port() refuses still lands in the port
    table: the call returns -ENODEV and counts nothing, but an instance
    allocated afterwards for that port (no port having been accepted, so
    acm_alloc_func() keeps the port number of the instance) carries the
    refused transport, and acm_port_connect() on it fails with -ENODEV and
    connects nothing. *)
Theorem refused_transport_reaches_instance port_no n g :
  table_ok g -> 0 <= port_no < 4 -> nr_acm_ports g = 0 ->
  let g1 := snd (acm_init_port port_no (USB_GADGET_XPORT_OTHER n) g) in
  fst (acm_init_port port_no (USB_GADGET_XPORT_OTHER n) g) = - ENODEV
  /\ nr_acm_ports g1 = 0
  /\ acm_alloc_func true port_no g1 =
       (inr (fresh_acm port_no (USB_GADGET_XPORT_OTHER n)), port_no, g1)
  /\ forall w, acm w = fresh_acm port_no (USB_GADGET_XPORT_OTHER n) ->
       acm_port_connect w = (- ENODEV, w).
Proof.
  intros Hok Hp Hnr. cbv zeta.
  destruct (acm_init_port_bounds port_no (USB_GADGET_XPORT_OTHER n) g Hok)
    as (_ & B & _).
  destruct (B Hp) as (R & Ok1 & T & _).
  set (g1 := snd (acm_init_port port_no (USB_GADGET_XPORT_OTHER n) g)) in *.
  assert (N1 : nr_acm_ports g1 = 0).
  { unfold g1, acm_init_port, GSERIAL_NO_PORTS.
    destruct (Z.geb_spec port_no 4); [lia|]. cbn [snd].
    destruct (table_set_counters port_no (set_info_port_num (u32 port_no))
                (table_set port_no
                   (set_info_transport (USB_GADGET_XPORT_OTHER n)) g))
      as (_ & _ & C & _).
    destruct (table_set_counters port_no
                (set_info_transport (USB_GADGET_XPORT_OTHER n)) g)
      as (_ & _ & C' & _).
    now rewrite C, C'. }
  split; [exact R|]. split; [exact N1|]. split.
  - unfold acm_alloc_func. cbn [negb]. rewrite N1. cbn [Z.eqb negb].
    rewrite (table_get_in port_no g1 Ok1 Hp). now rewrite T.
  - intros w Hw. rewrite acm_port_connect_eq. unfold connect_calls.
    rewrite Hw. cbn [transport fresh_acm]. now rewrite set_trace_nil.
Qed.

Lemma refused_transport_reaches_instance_witness :
  table_ok initial_globals
  /\ acm_alloc_func true 2
       (snd (acm_init_port 2 (USB_GADGET_XPORT_OTHER 9) initial_globals)) =
     (inr (fresh_acm 2 (USB_GADGET_XPORT_OTHER 9)), 2,
      snd (acm_init_port 2 (USB_GADGET_XPORT_OTHER 9) initial_globals)).
Proof.
  assert (H : table_ok initial_globals) by (split; reflexivity).
  split; [exact H|].
  destruct (refused_transport_reaches_instance 2 9 initial_globals H
              ltac:(lia) eq_refl) as (_ & _ & A & _).
  exact A.
Defined.

(** X20. acm_alloc_func() and acm_free_func() are not mirror images.  With
    ports registered ([nr_acm_ports] non-zero) the new function takes the
    port number [acm_next_free_port] and the transport of that table entry,
    the counter moves on by one, and acm_free_func() moves it back.  With
    none registered acm_alloc_func() keeps the port number of the instance
    and leaves the counter alone, while acm_free_func() still decrements
    it, from 0 to 4294967295.  A failed kzalloc() returns -ENOMEM and
    changes nothing. *)
Theorem alloc_func_free_func g opts_port_num :
  table_ok g ->
  (nr_acm_ports g <> 0 -> 0 <= acm_next_free_port g < 4 ->
   acm_alloc_func true opts_port_num g =
     (inr (fresh_acm (acm_next_free_port g)
             (info_transport (entry (acm_next_free_port g) g))),
      acm_next_free_port g,
      set_acm_next_free_port (acm_next_free_port g + 1) g)
   /\ acm_next_free_port
        (acm_free_func (snd (acm_alloc_func true opts_port_num g)))
      = acm_next_free_port g)
  /\ (nr_acm_ports g = 0 -> 0 <= opts_port_num < 4 ->
      acm_alloc_func true opts_port_num g =
        (inr (fresh_acm opts_port_num (info_transport (entry opts_port_num g))),
         opts_port_num, g)
      /\ acm_next_free_port
           (acm_free_func (snd (acm_alloc_func true opts_port_num g)))
         = u32 (acm_next_free_port g - 1)
      /\ (acm_next_free_port g = 0 ->
          acm_next_free_port
            (acm_free_func (snd (acm_alloc_func true opts_port_num g)))
          = 4294967295))
  /\ acm_alloc_func false opts_port_num g = (inl (- ENOMEM), opts_port_num, g).
Proof.
  intros Hok. split; [|split; [|reflexivity]].
  - intros Hnr Hn. unfold acm_alloc_func. cbn [negb].
    destruct (Z.eqb_spec (nr_acm_ports g) 0); [contradiction|]. cbn [negb].
    assert (U8 : u8 (acm_next_free_port g) = acm_next_free_port g)
      by (unfold u8; apply Z.mod_small; lia).
    assert (U32 : u32 (acm_next_free_port g + 1) = acm_next_free_port g + 1)
      by (unfold u32; apply Z.mod_small; lia).
    rewrite U8, U32.
    rewrite table_get_in; [|split; [apply Hok|apply Hok]|exact Hn].
    split; [reflexivity|]. cbn. unfold u32.
    replace (acm_next_free_port g + 1 - 1) with (acm_next_free_port g) by lia.
    apply Z.mod_small. lia.
  - intros Hnr Hn. unfold acm_alloc_func. cbn [negb]. rewrite Hnr.
    cbn [Z.eqb negb]. rewrite (table_get_in _ g Hok Hn).
    split; [reflexivity|]. split; [reflexivity|].
    intros H0. cbn. now rewrite H0.
Qed.

Lemma alloc_func_free_func_witness :
  table_ok initial_globals
  /\ acm_next_free_port
       (acm_free_func (snd (acm_alloc_func true 0 initial_globals)))
     = 4294967295.
Proof.
  assert (H : table_ok initial_globals) by (split; reflexivity).
  split; [exact H|].
  destruct (alloc_func_free_func initial_globals 0 H) as (_ & B & _).
  destruct (B eq_refl ltac:(lia)) as (_ & _ & C). exact (C eq_refl).
Defined.

(** ** Setting the ports up *)

Lemma acm_port_setup_loop_ok ls : forall i p rest,
  alloc_line_ret p = lines_script ls ++ rest ->
  acm_port_setup_loop (length ls) i p =
    (None,
     mk_port_world (store_lines i ls (globals p)) rest (gsmd_setup_ret p)
       (port_trace p ++ map (fun l => PCall_gserial_alloc_line 0 l) ls)).
Proof.
  induction ls as [|l ls IH]; intros i p rest Hq.
  - cbn in *. rewrite app_nil_r. destruct p; cbn in *. now subst.
  - cbn [length acm_port_setup_loop]. unfold gserial_alloc_line.
    rewrite Hq. cbn [lines_script map app fst snd Z.eqb negb].
    rewrite (IH (i + 1) _ rest) by reflexivity.
    cbn. now rewrite <- app_assoc.
Qed.

Lemma acm_port_setup_loop_fail ls : forall m i p r x rest,
  alloc_line_ret p = lines_script ls ++ (r, x) :: rest -> r <> 0 ->
  acm_port_setup_loop (length ls + S m) i p =
    (Some r,
     mk_port_world (store_lines i ls (globals p)) rest (gsmd_setup_ret p)
       (port_trace p ++ map (fun l => PCall_gserial_alloc_line 0 l) ls
        ++ [PCall_gserial_alloc_line r x])).
Proof.
  induction ls as [|l ls IH]; intros m i p r x rest Hq Hr.
  - cbn [length Nat.add acm_port_setup_loop]. unfold gserial_alloc_line.
    rewrite Hq. cbn [lines_script map app fst snd].
    destruct (Z.eqb_spec r 0); [contradiction|]. cbn [negb].
    destruct p; reflexivity.
  - cbn [length Nat.add acm_port_setup_loop]. unfold gserial_alloc_line.
    rewrite Hq. cbn [lines_script map app fst snd Z.eqb negb].
    rewrite (IH m (i + 1) _ r x rest) by (reflexivity || assumption).
    cbn. now rewrite <- app_assoc.
Qed.

Lemma store_lines_spec ls : forall i g,
  table_ok g -> 0 <= i -> i + Z.of_nat (length ls) <= 4 ->
  table_ok (store_lines i ls g)
  /\ no_acm_tty_ports (store_lines i ls g) = no_acm_tty_ports g
  /\ no_acm_smd_ports (store_lines i ls g) = no_acm_smd_ports g
  /\ nr_acm_ports (store_lines i ls g) = nr_acm_ports g
  /\ forall j, 0 <= j ->
       entry j (store_lines i ls g) =
         if (i <=? j) && (j <? i + Z.of_nat (length ls))
         then set_client_port_num (u8 (nth (Z.to_nat (j - i)) ls 0)) (entry j g)
         else entry j g.
Proof.
  induction ls as [|l ls IH]; intros i g Hok Hi Hlen.
  - cbn [store_lines length]. repeat split; try apply Hok.
    intros j Hj.
    destruct (Z.leb_spec i j), (Z.ltb_spec j (i + Z.of_nat 0)); cbn [andb];
      try reflexivity; lia.
  - cbn [store_lines]. cbn [length] in Hlen. rewrite Nat2Z.inj_succ in Hlen.
    assert (Ii : in_table i g = true) by (apply in_table_ok; [assumption|lia]).
    destruct (table_set_ok i (set_client_port_num (u8 l)) g Ii Hok) as [Ok1 _].
    destruct (table_set_counters i (set_client_port_num (u8 l)) g)
      as (T1 & S1 & N1 & _).
    destruct (IH (i + 1) _ Ok1 ltac:(lia) ltac:(lia)) as (Ok & Ht & Hs & Hn & E).
    split; [exact Ok|]. rewrite Ht, Hs, Hn, T1, S1, N1.
    repeat split. intros j Hj. rewrite (E j Hj).
    rewrite entry_table_set by assumption.
    cbn [length]. rewrite Nat2Z.inj_succ.
    destruct (Z.eqb_spec j i) as [->|Nji].
    + destruct (Z.leb_spec (i + 1) i); [lia|]. cbn [andb].
      destruct (Z.leb_spec i i); [|lia].
      destruct (Z.ltb_spec i (i + Z.succ (Z.of_nat (length ls)))); [|lia].
      cbn [andb]. rewrite Z.sub_diag. reflexivity.
    + destruct (Z.leb_spec (i + 1) j), (Z.leb_spec i j); try lia;
        cbn [andb]; try reflexivity.
      destruct (Z.ltb_spec j (i + 1 + Z.of_nat (length ls))),
               (Z.ltb_spec j (i + Z.succ (Z.of_nat (length ls)))); try lia;
        try reflexivity.
      replace (Z.to_nat (j - i)) with (S (Z.to_nat (j - (i + 1)))) by lia.
      reflexivity.
Qed.

Lemma acm_port_setup_ok p ls rest :
  length ls = Z.to_nat (no_acm_tty_ports (globals p)) ->
  alloc_line_ret p = lines_script ls ++ rest ->
  no_acm_smd_ports (store_lines 0 ls (globals p)) = no_acm_smd_ports (globals p) ->
  acm_port_setup p =
    let smd := no_acm_smd_ports (globals p) in
    (if smd =? 0 then 0 else gsmd_setup_ret p,
     mk_port_world (store_lines 0 ls (globals p)) rest (gsmd_setup_ret p)
       (port_trace p ++ map (fun l => PCall_gserial_alloc_line 0 l) ls
        ++ (if smd =? 0 then []
            else [PCall_gsmd_setup smd (gsmd_setup_ret p)]))).
Proof.
  intros Hlen Hq Hs. cbv zeta. unfold acm_port_setup.
  rewrite <- Hlen. rewrite (acm_port_setup_loop_ok ls 0 p rest Hq).
  cbn [globals gsmd_setup_ret port_trace]. rewrite Hs.
  destruct (no_acm_smd_ports (globals p) =? 0); cbn [negb].
  - now rewrite app_nil_r.
  - unfold set_port_trace. cbn. now rewrite <- app_assoc.
Qed.

Lemma store_lines_from_0 ls g :
  table_ok g -> Z.of_nat (length ls) <= 4 ->
  forall j, 0 <= j ->
    entry j (store_lines 0 ls g) =
      if j <? Z.of_nat (length ls)
      then set_client_port_num (u8 (nth (Z.to_nat j) ls 0)) (entry j g)
      else entry j g.
Proof.
  intros Hok Hlen j Hj.
  destruct (store_lines_spec ls 0 g Hok ltac:(lia) ltac:(lia))
    as (_ & _ & _ & _ & E).
  rewrite (E j Hj), Z.sub_0_r.
  destruct (Z.leb_spec 0 j); [|lia]. reflexivity.
Qed.

Lemma map_seq_nth {B : Type} (f : Z -> B) ls :
  map (fun k => f (nth k ls 0)) (seq 0 (length ls)) = map f ls.
Proof.
  induction ls as [|l ls IH]; [reflexivity|].
  cbn [length seq map nth]. f_equal.
  rewrite <- seq_shift, map_map. exact IH.
Qed.



(** X22. When gserial_alloc_line() fails for one of the TTY ports,
    acm_port_setup() returns that status at once: it has stored the lines
    obtained before, makes no further call (gsmd_setup() is not called, and
    no line already obtained is given back), and leaves the counters as
    they were. *)
Theorem acm_port_setup_stops_at_failure p ls r x rest :
  table_ok (globals p) ->
  0 <= no_acm_tty_ports (globals p) <= 4 ->
  (length ls < Z.to_nat (no_acm_tty_ports (globals p)))%nat ->
  alloc_line_ret p = lines_script ls ++ (r, x) :: rest ->
  r <> 0 ->
  let res := acm_port_setup p in
  fst res = r
  /\ port_trace (snd res) =
       port_trace p ++ map (fun l => PCall_gserial_alloc_line 0 l) ls
       ++ [PCall_gserial_alloc_line r x]
  /\ globals (snd res) = store_lines 0 ls (globals p)
  /\ nr_acm_ports (globals (snd res)) = nr_acm_ports (globals p)
  /\ forall j, 0 <= j ->
       entry j (globals (snd res)) =
         if j <? Z.of_nat (length ls)
         then set_client_port_num (u8 (nth (Z.to_nat j) ls 0)) (entry j (globals p))
         else entry j (globals p).
Proof.
  intros Hok Hn Hlen Hq Hr. cbv zeta. unfold acm_port_setup.
  replace (Z.to_nat (no_acm_tty_ports (globals p)))
    with (length ls + S (Z.to_nat (no_acm_tty_ports (globals p)) - length ls - 1))%nat
    by lia.
  rewrite (acm_port_setup_loop_fail ls _ 0 p r x rest Hq Hr).
  cbn [fst snd port_trace globals].
  destruct (store_lines_spec ls 0 (globals p) Hok ltac:(lia) ltac:(lia))
    as (Ok & Ht & Hs & Hnr & E).
  repeat split; try assumption.
  intros j Hj. rewrite (E j Hj), Z.sub_0_r.
  destruct (Z.leb_spec 0 j); [|lia]. reflexivity.
Qed.

Lemma acm_port_setup_stops_at_failure_witness :
  let g := init_ports [(0, USB_GADGET_XPORT_TTY); (1, USB_GADGET_XPORT_TTY);
                       (2, USB_GADGET_XPORT_SMD)] initial_globals in
  let p := mk_port_world g [(0, 3); (-16, 0)] 0 [] in
  table_ok g
  /\ fst (acm_port_setup p) = -16
  /\ port_trace (snd (acm_port_setup p)) =
       [PCall_gserial_alloc_line 0 3; PCall_gserial_alloc_line (-16) 0]
  /\ nr_acm_ports (globals (snd (acm_port_setup p))) = 3.
Proof.
  cbv zeta.
  set (g := init_ports [(0, USB_GADGET_XPORT_TTY); (1, USB_GADGET_XPORT_TTY);
                        (2, USB_GADGET_XPORT_SMD)] initial_globals).
  assert (H : table_ok g) by (vm_compute; split; reflexivity).
  split; [exact H|].
  assert (Hn : 0 <= no_acm_tty_ports
                      (globals (mk_port_world g [(0, 3); (-16, 0)] 0 [])) <= 4)
    by (vm_compute; split; discriminate).
  assert (Hl : Nat.lt (length [3])
                (Z.to_nat (no_acm_tty_ports
                             (globals (mk_port_world g [(0, 3); (-16, 0)] 0 [])))))
    by (vm_compute; repeat constructor).
  destruct (acm_port_setup_stops_at_failure
              (mk_port_world g [(0, 3); (-16, 0)] 0 []) [3] (-16) 0 []
              H Hn Hl eq_refl ltac:(discriminate)) as (R & T & _ & N & _).
  split; [exact R|]. split; [exact T|]. rewrite N. vm_compute. reflexivity.
Defined.

Lemma acm_port_cleanup_loop_spec n : forall i p,
  table_ok (globals p) -> 0 <= i -> i + Z.of_nat n <= 4 ->
  acm_port_cleanup_loop n i p =
    set_port_trace
      (port_trace p ++
       map (fun k => PCall_gserial_free_line
                       (client_port_num (entry (i + Z.of_nat k) (globals p))))
         (seq 0 n)) p.
Proof.
  induction n as [|n IH]; intros i p Hok Hi Hn.
  - cbn. rewrite app_nil_r. now destruct p.
  - cbn [acm_port_cleanup_loop]. rewrite (table_get_in i _ Hok) by lia.
    rewrite IH; cbn [globals gserial_free_line set_port_trace set_globals];
      try assumption; try lia.
    destruct p as [g ? ? t].
    cbv [gserial_free_line set_globals set_port_trace globals port_trace
         alloc_line_ret gsmd_setup_ret].
    cbn [seq map]. rewrite <- seq_shift, map_map, <- app_assoc. cbn [app].
    rewrite Z.add_0_r. f_equal. do 2 f_equal.
    apply map_ext. intros k. do 3 f_equal. lia.
Qed.

(** X23. Set-up and clean-up match: after an acm_port_setup() that got a
    line for each TTY port, acm_port_cleanup() gives back exactly those
    lines, in the order they were obtained, and nothing else; the table and
    the counters stay as set-up left them. *)
Theorem setup_then_cleanup_returns_lines p ls rest :
  table_ok (globals p) ->
  0 <= no_acm_tty_ports (globals p) <= 4 ->
  length ls = Z.to_nat (no_acm_tty_ports (globals p)) ->
  alloc_line_ret p = lines_script ls ++ rest ->
  let p1 := snd (acm_port_setup p) in
  acm_port_cleanup p1 =
    set_port_trace
      (port_trace p1 ++ map (fun l => PCall_gserial_free_line (u8 l)) ls) p1.
Proof.
  intros Hok Hn Hlen Hq. cbv zeta.
  destruct (store_lines_spec ls 0 (globals p) Hok ltac:(lia) ltac:(lia))
    as (Ok & Ht & Hs & Hnr & _).
  rewrite (acm_port_setup_ok p ls rest Hlen Hq Hs). cbv zeta. cbn [snd].
  set (p1 := mk_port_world _ _ _ _).
  unfold acm_port_cleanup.
  replace (no_acm_tty_ports (globals p1)) with (no_acm_tty_ports (globals p))
    by (symmetry; exact Ht).
  rewrite <- Hlen.
  rewrite acm_port_cleanup_loop_spec by (assumption || lia).
  f_equal. f_equal.
  rewrite <- (map_seq_nth (fun l => PCall_gserial_free_line (u8 l)) ls).
  apply map_ext_in. intros k Hk. apply in_seq in Hk.
  rewrite Z.add_0_l. unfold p1. cbn [globals].
  rewrite store_lines_from_0 by (assumption || lia).
  destruct (Z.ltb_spec (Z.of_nat k) (Z.of_nat (length ls))); [|lia].
  cbn [client_port_num set_client_port_num]. now rewrite Nat2Z.id.
Qed.

Lemma setup_then_cleanup_returns_lines_witness :
  let g := init_ports [(0, USB_GADGET_XPORT_TTY); (1, USB_GADGET_XPORT_TTY)]
             initial_globals in
  let p := mk_port_world g [(0, 2); (0, 7)] 0 [] in
  table_ok g
  /\ port_trace (acm_port_cleanup (snd (acm_port_setup p))) =
       [PCall_gserial_alloc_line 0 2; PCall_gserial_alloc_line 0 7;
        PCall_gserial_free_line 2; PCall_gserial_free_line 7].
Proof.
  cbv zeta.
  set (g := init_ports [(0, USB_GADGET_XPORT_TTY); (1, USB_GADGET_XPORT_TTY)]
              initial_globals).
  assert (H : table_ok g) by (split; reflexivity).
  split; [exact H|].
  assert (Hn : 0 <= no_acm_tty_ports
                      (globals (mk_port_world g [(0, 2); (0, 7)] 0 [])) <= 4)
    by (vm_compute; split; discriminate).
  rewrite (setup_then_cleanup_returns_lines
             (mk_port_world g [(0, 2); (0, 7)] 0 []) [2; 7] [] H Hn eq_refl
             eq_refl).
  reflexivity.
Defined.

(** ** Function instances *)

(** X24. An instance owns a serial line only while no port is registered.
    With [nr_acm_ports] zero acm_alloc_instance() obtains a line from
    gserial_alloc_line() and makes it the port number of the instance, or
    fails with the status of that call; acm_free_instance() gives exactly
    that line back.  With [nr_acm_ports] non-zero neither function calls
    the serial core: the instance gets port number 0, and a line obtained
    earlier is not given back. *)
Theorem instance_line_round_trip p :
  (nr_acm_ports (globals p) = 0 ->
   forall r l rest, alloc_line_ret p = (r, l) :: rest ->
     (r = 0 ->
      let res := acm_alloc_instance true p in
      fst res = inr (u8 l)
      /\ port_trace (acm_free_instance (u8 l) (snd res)) =
           port_trace p ++ [PCall_gserial_alloc_line 0 l;
                            PCall_gserial_free_line (u8 l)])
     /\ (r <> 0 ->
         fst (acm_alloc_instance true p) = inl r
         /\ port_trace (snd (acm_alloc_instance true p)) =
              port_trace p ++ [PCall_gserial_alloc_line r l]))
  /\ (nr_acm_ports (globals p) <> 0 ->
      acm_alloc_instance true p = (inr 0, p)
      /\ forall line, acm_free_instance line p = p)
  /\ acm_alloc_instance false p = (inl (- ENOMEM), p).
Proof.
  split; [|split; [|reflexivity]].
  - intros Hnr r l rest Hq. split.
    + intros ->. cbv zeta. unfold acm_alloc_instance, acm_free_instance.
      cbn [negb]. rewrite Hnr. cbn [Z.eqb]. unfold gserial_alloc_line.
      rewrite Hq. cbn [fst snd Z.eqb negb].
      split; [reflexivity|].
      cbn [globals set_port_trace set_alloc_line_ret]. rewrite Hnr.
      cbn [Z.eqb]. unfold gserial_free_line. cbn. now rewrite <- app_assoc.
    + intros Hr. unfold acm_alloc_instance. cbn [negb]. rewrite Hnr.
      cbn [Z.eqb]. unfold gserial_alloc_line. rewrite Hq. cbn [fst snd].
      destruct (Z.eqb_spec r 0); [contradiction|]. cbn [negb fst snd].
      split; reflexivity.
  - intros Hnr. unfold acm_alloc_instance, acm_free_instance. cbn [negb].
    destruct (Z.eqb_spec (nr_acm_ports (globals p)) 0); [contradiction|].
    split; reflexivity.
Qed.

Lemma instance_line_round_trip_witness :
  let p := mk_port_world initial_globals [(0, 1)] 0 [] in
  nr_acm_ports (globals p) = 0
  /\ port_trace (acm_free_instance 1 (snd (acm_alloc_instance true p))) =
       [PCall_gserial_alloc_line 0 1; PCall_gserial_free_line 1].
Proof.
  cbv zeta. split; [reflexivity|].
  destruct (instance_line_round_trip
              (mk_port_world initial_globals [(0, 1)] 0 [])) as (A & _).
  destruct (A eq_refl 0 1 [] eq_refl) as (B & _).
  exact (proj2 (B eq_refl)).
Defined.

(** ** Binding and unbinding *)

Lemma acm_bind_fail_spec st b :
  let r := acm_bind_fail st b in
  fst r = st
  /\ unclaimed (p_in (ptrs (snd r)))
  /\ unclaimed (p_out (ptrs (snd r)))
  /\ unclaimed (p_notify (ptrs (snd r)))
  /\ p_notify_req (ptrs (snd r)) = p_notify_req (ptrs b)
  /\ descs (snd r) = descs b
  /\ bind_trace (snd r) = bind_trace b ++ frees b.
Proof.
  destruct b as [[ci di i o n r] d s t]. unfold frees.
  destruct r, i as [[]|], o as [[]|], n as [[]|]; cbn;
    rewrite ?app_nil_r; repeat split.
Qed.

Arguments acm_bind_fail : simpl never.

Ltac bind_case :=
  match goal with
  | |- context [match ?l with [] => _ | _ :: _ => _ end] => is_var l; destruct l
  | |- context [match ?o with Some _ => _ | None => _ end] => is_var o; destruct o
  | |- context [?a <? 0] => destruct (Z.ltb_spec a 0)
  | |- context [?a =? 0] => destruct (Z.eqb_spec a 0)
  end; cbn.

Lemma acm_bind_interfaces_spec b :
  let r := acm_bind_interfaces b in
  exists l,
    bind_trace (snd r) = bind_trace b ++ l
    /\ ~ In BCall_usb_gstrings_attach l
    /\ string_ids (descs (snd r)) = string_ids (descs b)
    /\ string_defs_0_id (descs (snd r)) = string_defs_0_id (descs b)
    /\ ((fst r = 0 /\ bound_ok (snd r))
        \/ (fst r <> 0
            /\ (fst r < 0 \/ fst r = assign_descriptors_ret (script b))
            /\ released (snd r) l)).
Proof.
  destruct b as [[ci di i o n r] d [ga ids eps ar asr] t].
  unfold acm_bind_interfaces, usb_interface_id, usb_ep_autoconfig. cbn.
  repeat bind_case.
  all: try match goal with
    | |- context [acm_bind_fail ?st ?b] =>
        destruct (acm_bind_fail_spec st b) as (F1 & F2 & F3 & F4 & F5 & F6 & F7);
        cbv zeta in *; unfold released; rewrite F1, F5, F6, F7; unfold frees; cbn
    end.
  all: eexists; split; [rewrite <- ?app_assoc; reflexivity|].
  all: split; [try destruct r; cbn; intuition discriminate|].
  all: split; [reflexivity|]. all: split; [reflexivity|].
  all: first
    [ left; split; [reflexivity|];
      repeat split; cbn; try reflexivity; eexists; split; reflexivity
    | right; split; [lia|]; split; [left; lia|];
      repeat split; try assumption;
      intros q Hq; first [discriminate Hq | subst r | injection Hq as <-];
      cbn; rewrite ?in_app_iff; cbn; intuition
    | right; split; [assumption|]; split; [right; reflexivity|];
      repeat split; try assumption;
      intros q Hq; first [discriminate Hq | subst r | injection Hq as <-];
      cbn; rewrite ?in_app_iff; cbn; intuition ].
Qed.

(** X25. When acm_bind() returns 0 the instance is fully bound: the
    interface-association, control-interface and union descriptors carry
    the control interface number stored in the instance, the data-interface,
    union and call-management descriptors the data interface number, the
    high- and super-speed endpoint descriptors the full-speed addresses, all
    three endpoints are claimed, and the notification request exists with
    acm_cdc_notify_complete() as its completion handler.  This holds for
    every result of the framework calls and for a re-bound instance too. *)
Theorem acm_bind_zero_means_bound lge b :
  attach_error_ok (script b) ->
  fst (acm_bind lge b) = 0 ->
  bound_ok (snd (acm_bind lge b)).
Proof.
  intros Ha. unfold acm_bind.
  destruct (lge && negb (ctrl_iInterface (descs b) =? 0)).
  - intros H0.
    destruct (acm_bind_interfaces_spec b) as (l & _ & _ & _ & _ & [[_ B]|[N _]]);
      [exact B | contradiction].
  - cbn [script blog]. unfold attach_error_ok in Ha.
    destruct (gstrings_attach_ret (script b)) as [err|ids].
    + cbn. intros ->. lia.
    + intros H0.
      match goal with
      | |- bound_ok (snd (acm_bind_interfaces ?b1)) =>
          destruct (acm_bind_interfaces_spec b1)
            as (l & _ & _ & _ & _ & [[_ B]|[N _]]); [exact B | contradiction]
      end.
Qed.

Lemma acm_bind_zero_means_bound_witness :
  let b := mk_bind_state unbound_pointers initial_descs
             (mk_bind_script (inr (4, 5, 6)) [2; 3]
                [Some 129; Some 1; Some 130] (Some bound_notify_req) 0) [] in
  fst (acm_bind false b) = 0
  /\ bound_ok (snd (acm_bind false b))
  /\ p_ctrl_id (ptrs (snd (acm_bind false b))) = 2
  /\ p_data_id (ptrs (snd (acm_bind false b))) = 3
  /\ hs_notify_address (descs (snd (acm_bind false b))) = 130.
Proof.
  cbv zeta. split; [reflexivity|]. split.
  - apply acm_bind_zero_means_bound; [exact I | reflexivity].
  - repeat split.
Defined.

(** X26. When acm_bind() returns an error, either usb_gstrings_attach()
    failed, and the function returned its error at once with nothing else
    called or changed, or the [fail:] label ran: then no endpoint pointer of
    the instance is left claimed, whether it was claimed by this call or
    left over from an earlier bind, the status is negative or the one
    usb_assign_descriptors() gave, and a request still referenced by
    [notify_req] is one that gs_free_req() has been called on. *)
Theorem acm_bind_failure_releases lge b :
  fst (acm_bind lge b) <> 0 ->
  (skips_strings lge b = false
   /\ exists err, gstrings_attach_ret (script b) = inl err
                  /\ acm_bind lge b = (err, blog BCall_usb_gstrings_attach b))
  \/ (exists l, (exists l0, bind_trace (snd (acm_bind lge b))
                             = bind_trace b ++ l0 ++ l)
                /\ (fst (acm_bind lge b) < 0
                    \/ fst (acm_bind lge b) = assign_descriptors_ret (script b))
                /\ released (snd (acm_bind lge b)) l).
Proof.
  unfold acm_bind, skips_strings.
  destruct (lge && negb (ctrl_iInterface (descs b) =? 0)).
  - intros Hn. right.
    destruct (acm_bind_interfaces_spec b)
      as (l & T & _ & _ & _ & [[Z0 _]|(_ & S & R)]); [contradiction|].
    exists l. split; [exists []; exact T|]. split; assumption.
  - cbn [script blog].
    destruct (gstrings_attach_ret (script b)) as [err|ids] eqn:G.
    + intros _. left. split; [reflexivity|]. exists err. split; reflexivity.
    + intros Hn. right.
      match type of Hn with
      | fst (acm_bind_interfaces ?b1) <> 0 =>
          destruct (acm_bind_interfaces_spec b1)
            as (l & T & _ & _ & _ & [[Z0 _]|(_ & S & R)]); [contradiction|];
          exists l; split; [exists [BCall_usb_gstrings_attach]|];
          [rewrite T; cbn; rewrite <- app_assoc; reflexivity|];
          split; [exact S | exact R]
      end.
Qed.

Lemma acm_bind_failure_releases_witness :
  let b := mk_bind_state unbound_pointers initial_descs
             (mk_bind_script (inr (4, 5, 6)) [2; 3]
                [Some 129; Some 1; None] (Some bound_notify_req) 0) [] in
  fst (acm_bind false b) = - ENODEV
  /\ p_in (ptrs (snd (acm_bind false b))) = Some (mk_ep false None)
  /\ p_out (ptrs (snd (acm_bind false b))) = Some (mk_ep false None)
  /\ p_notify (ptrs (snd (acm_bind false b))) = None
  /\ exists l, released (snd (acm_bind false b)) l.
Proof.
  intros b.
  assert (Hn : fst (acm_bind false b) <> 0) by (vm_compute; discriminate).
  do 4 (split; [vm_compute; reflexivity|]).
  destruct (acm_bind_failure_releases false b Hn)
    as [(_ & err & E & _)|(l & _ & _ & R)];
    [vm_compute in E; discriminate E | exists l; exact R].
Defined.

(** X27. Neither acm_unbind() nor the [fail:] label clears [notify_req].
    acm_unbind() frees the request and leaves the pointer in place; when
    the same instance is bound again and the first usb_interface_id() fails,
    acm_bind() hands that same request to gs_free_req() a second time, with
    no gs_alloc_req() in between, and still leaves it in [notify_req]. *)
Theorem stale_request_freed_again lge b req st rest :
  p_notify_req (ptrs b) = Some req ->
  interface_id_ret (script b) = st :: rest ->
  st < 0 ->
  (skips_strings lge b = false ->
   exists ids, gstrings_attach_ret (script b) = inr ids) ->
  let r := acm_bind lge (acm_unbind b) in
  fst r = st
  /\ bind_trace (snd r) =
       bind_trace b
       ++ [BCall_usb_free_all_descriptors; BCall_gs_free_req req]
       ++ (if skips_strings lge b then [] else [BCall_usb_gstrings_attach])
       ++ [BCall_usb_interface_id st; BCall_gs_free_req req]
  /\ p_notify_req (ptrs (snd r)) = Some req.
Proof.
  intros Hreq Hid Hst Hs.
  destruct b as [[ci di i o n r0] d [ga ids eps ar asr] t].
  cbn in Hreq, Hid. subst r0 ids.
  unfold skips_strings in *. unfold acm_unbind, acm_bind. cbn. cbn in Hs.
  destruct (lge && negb (ctrl_iInterface d =? 0)).
  - unfold acm_bind_interfaces, usb_interface_id. cbn.
    destruct (Z.ltb_spec st 0); [|lia].
    match goal with
    | |- context [acm_bind_fail ?s ?b] =>
        destruct (acm_bind_fail_spec s b) as (F1 & _ & _ & _ & F5 & _ & F7)
    end.
    cbv zeta in *. rewrite F1, F5, F7. unfold frees. cbn.
    rewrite <- !app_assoc. repeat split.
  - destruct (Hs eq_refl) as (ids & G). cbn in G. subst ga.
    unfold acm_bind_interfaces, usb_interface_id. cbn.
    destruct (Z.ltb_spec st 0); [|lia].
    match goal with
    | |- context [acm_bind_fail ?s ?b] =>
        destruct (acm_bind_fail_spec s b) as (F1 & _ & _ & _ & F5 & _ & F7)
    end.
    cbv zeta in *. rewrite F1, F5, F7. unfold frees. cbn.
    rewrite <- !app_assoc. repeat split.
Qed.

Lemma stale_request_freed_again_witness :
  let b := mk_bind_state
             (mk_pointers 2 3 (Some (mk_ep true None)) (Some (mk_ep true None))
                (Some (mk_ep true None)) (Some bound_notify_req))
             initial_descs
             (mk_bind_script (inr (4, 5, 6)) [-22] [] None 0) [] in
  bind_trace (snd (acm_bind false (acm_unbind b))) =
    [BCall_usb_free_all_descriptors; BCall_gs_free_req bound_notify_req;
     BCall_usb_gstrings_attach; BCall_usb_interface_id (-22);
     BCall_gs_free_req bound_notify_req].
Proof.
  intros b.
  destruct (stale_request_freed_again false b bound_notify_req (-22) []
              eq_refl eq_refl ltac:(lia)
              ltac:(intros _; exists (4, 5, 6); reflexivity))
    as (_ & T & _).
  exact T.
Defined.

(** X28. Under CONFIG_LGE_USB_G_ANDROID the strings are attached at most
    once: as soon as the control interface descriptor carries a non-zero
    string id, acm_bind() no longer calls usb_gstrings_attach() and leaves
    the three string ids as they are, and neither acm_bind() nor
    acm_unbind() ever puts the id back to 0, although acm_unbind() zeroes
    [acm_string_defs[0].id].  Without the option every acm_bind() starts
    with usb_gstrings_attach(). *)
Theorem lge_strings_attached_once b :
  (ctrl_iInterface (descs b) <> 0 ->
   let r := acm_bind true b in
   (exists l, bind_trace (snd r) = bind_trace b ++ l
              /\ ~ In BCall_usb_gstrings_attach l)
   /\ string_ids (descs (snd r)) = string_ids (descs b)
   /\ string_ids (descs (acm_unbind (snd r))) = string_ids (descs b)
   /\ string_defs_0_id (descs (acm_unbind (snd r))) = 0)
  /\ exists l, bind_trace (snd (acm_bind false b)) =
                 bind_trace b ++ BCall_usb_gstrings_attach :: l.
Proof.
  split.
  - intros Hn. cbv zeta. unfold acm_bind.
    destruct (Z.eqb_spec (ctrl_iInterface (descs b)) 0) as [E|_];
      [contradiction|]. cbn [andb negb].
    destruct (acm_bind_interfaces_spec b) as (l & T & N & S & _).
    cbv zeta in *. split; [exists l; split; assumption|].
    split; [exact S|]. split; [|].
    + rewrite <- S. unfold acm_unbind.
      destruct (p_notify_req _); reflexivity.
    + unfold acm_unbind. destruct (p_notify_req _); reflexivity.
  - unfold acm_bind. cbn [andb]. cbn [script blog].
    destruct (gstrings_attach_ret (script b)) as [err|ids].
    + exists []. reflexivity.
    + match goal with
      | |- context [acm_bind_interfaces ?b1] =>
          destruct (acm_bind_interfaces_spec b1) as (l & T & _)
      end.
      cbv zeta in T. exists l. rewrite T. cbn. rewrite <- app_assoc.
      reflexivity.
Qed.

Lemma lge_strings_attached_once_witness :
  let b := mk_bind_state unbound_pointers
             (set_string_ids (4, 5, 6) initial_descs)
             (mk_bind_script (inl (-12)) [2; 3]
                [Some 129; Some 1; Some 130] (Some bound_notify_req) 0) [] in
  fst (acm_bind true b) = 0
  /\ string_ids (descs (snd (acm_bind true b))) = (4, 5, 6)
  /\ fst (acm_bind false b) = -12.
Proof.
  intros b. split; [vm_compute; reflexivity|].
  split; [|vm_compute; reflexivity].
  destruct (lge_strings_attached_once b) as (H & _).
  destruct (H ltac:(vm_compute; discriminate)) as (_ & S & _).
  rewrite S. reflexivity.
Defined.
